(** * Enviro-Comply: the reasoning and confidence-calibration engine

    A shallow embedding of [src/agents/reasoning.py]: the chain-of-thought
    trace ([ReasoningStep], [ReasoningChain]), the three heuristics of
    [ChainOfThoughtReasoner] (regulation relevance, gap severity,
    remediation cost) and [ConfidenceCalibrator].

    Modelling conventions.
    - Python [float] values are exact rationals ([Q]); every formula keeps
      the shape it has in the source, and equalities between confidences
      are stated with [==] on [Q].  Where rounding decides a bound (the
      confidence of the cost estimate), the same lines are also evaluated
      in binary64, on the kernel's floats ([Binary64]).
    - Python [str] values are [string]s of 8-bit characters; [lower],
      [upper] and the character classes of the quantity pattern cover the
      ASCII range.
    - The untyped records handed to the reasoner (regulation, gap, facility)
      are dictionaries from keys to scalar Python values.  An operation
      that Python rejects on a value of the wrong type raises the matching
      exception in the model.
    - What the module takes from its environment (the clock, the ISO-8601
      parser of [datetime], the printing of floats and of instants) is
      gathered in a [World]; a run reads the clock at one instant, and
      [at_time] gives the world of a call made at another instant. *)

From Stdlib Require Import ZArith QArith Qround Qabs Lqa String Ascii List Bool Lia.
From Stdlib Require Floats.
From stdpp Require Import gmap strings list pretty.

Local Open Scope string_scope.

(** ** Text *)

Module Text.

Definition is_upper (c : ascii) : bool :=
  (65 <=? nat_of_ascii c)%nat && (nat_of_ascii c <=? 90)%nat.

Definition is_lower (c : ascii) : bool :=
  (97 <=? nat_of_ascii c)%nat && (nat_of_ascii c <=? 122)%nat.

Definition is_digit (c : ascii) : bool :=
  (48 <=? nat_of_ascii c)%nat && (nat_of_ascii c <=? 57)%nat.

(** [\s]: tab, line feed, vertical tab, form feed, carriage return, the
    four separators 28..31 and the space. *)
Definition is_space (c : ascii) : bool :=
  let n := nat_of_ascii c in
  ((9 <=? n)%nat && (n <=? 13)%nat)
  || ((28 <=? n)%nat && (n <=? 31)%nat)
  || (n =? 32)%nat.

(** [\w]: letters, digits and the underscore. *)
Definition is_word (c : ascii) : bool :=
  is_upper c || is_lower c || is_digit c || (nat_of_ascii c =? 95)%nat.

Definition lower_char (c : ascii) : ascii :=
  if is_upper c then ascii_of_nat (nat_of_ascii c + 32) else c.

Definition upper_char (c : ascii) : ascii :=
  if is_lower c then ascii_of_nat (nat_of_ascii c - 32) else c.

Fixpoint map_chars (f : ascii -> ascii) (s : string) : string :=
  match s with
  | EmptyString => EmptyString
  | String c t => String (f c) (map_chars f t)
  end.

(** [s.lower()] and [s.upper()]. *)
Definition lower (s : string) : string := map_chars lower_char s.
Definition upper (s : string) : string := map_chars upper_char s.

(** [needle in hay] on two strings. *)
Fixpoint contains (needle hay : string) : bool :=
  String.prefix needle hay
  || match hay with
     | EmptyString => false
     | String _ t => contains needle t
     end.

(** [s[:n]]. *)
Definition take (n : nat) (s : string) : string := String.substring 0 n s.

(** [s.replace(c, by)] for a one-character pattern. *)
Fixpoint replace_char (c : ascii) (by_ : string) (s : string) : string :=
  match s with
  | EmptyString => EmptyString
  | String a t =>
      if Ascii.eqb a c then by_ ++ replace_char c by_ t
      else String a (replace_char c by_ t)
  end.

(** [sep.join(l)]. *)
Definition join (sep : string) (l : list string) : string :=
  String.concat sep l.

(** The longest prefix of [s] whose characters satisfy [p], and the rest. *)
Fixpoint span (p : ascii -> bool) (s : string) : string * string :=
  match s with
  | EmptyString => (EmptyString, EmptyString)
  | String c t =>
      if p c then let '(a, b) := span p t in (String c a, b)
      else (EmptyString, s)
  end.

(** [int(s)] on a string of decimal digits. *)
Definition digit_value (c : ascii) : Z := Z.of_nat (nat_of_ascii c - 48).

Fixpoint int_of_digits_from (acc : Z) (s : string) : Z :=
  match s with
  | EmptyString => acc
  | String c t => int_of_digits_from (10 * acc + digit_value c) t
  end.

Definition int_of_digits (s : string) : Z := int_of_digits_from 0 s.

End Text.

(** ** Printing numbers *)

Module Fmt.

Local Open Scope Z_scope.

(** Rounding to the nearest integer, ties to even, as the [f] presentation
    type rounds. *)
Definition round_half_even (q : Q) : Z :=
  let f := Qfloor q in
  let r := (q - inject_Z f)%Q in
  match (r ?= 1 # 2)%Q with
  | Lt => f
  | Gt => f + 1
  | Eq => if Z.even f then f else f + 1
  end.

Definition is_negative (q : Q) : bool := negb (Qle_bool 0 q).

Definition sign (q : Q) : string := if is_negative q then "-" else "".

(** Groups of three digits from the right, separated by commas. *)
Fixpoint group3 (fuel : nat) (n : Z) : string :=
  match fuel with
  | O => pretty n
  | S fuel' =>
      if n <? 1000 then pretty n
      else
        let r := n mod 1000 in
        let pad :=
          if r <? 10 then "00" else if r <? 100 then "0" else "" in
        (group3 fuel' (n / 1000) ++ "," ++ pad ++ pretty r)%string
  end.

(** [f"{q:.0f}"]. *)
Definition f0 (q : Q) : string :=
  (sign q ++ pretty (round_half_even (Qabs q)))%string.

(** [f"{q:,.0f}"]. *)
Definition f0_comma (q : Q) : string :=
  let n := round_half_even (Qabs q) in
  (sign q ++ group3 (Z.to_nat (Z.log2 n)) n)%string.

(** [f"{q:.2f}"]. *)
Definition f2 (q : Q) : string :=
  let n := round_half_even (Qabs q * 100) in
  let r := n mod 100 in
  let pad := if r <? 10 then "0" else "" in
  (sign q ++ pretty (n / 100) ++ "." ++ pad ++ pretty r)%string.

End Fmt.

(** ** Python values and records *)

(** The scalar values a record field can hold. *)
Inductive pyval : Type :=
  | VNone
  | VBool (b : bool)
  | VInt (z : Z)
  | VFloat (q : Q)
  | VStr (s : string).

(** A regulation, gap or facility record ([Dict[str, Any]]). *)
Abbreviation dict := (gmap string pyval).

(** The environment of a run. *)
Record World : Type := {
  (** [datetime.utcnow()], in microseconds. *)
  utcnow : Z;
  (** [datetime.fromisoformat(s).replace(tzinfo=None)], in microseconds;
      [None] when the parser raises [ValueError]. *)
  fromisoformat : string -> option Z;
  (** [t.isoformat()]. *)
  isoformat : Z -> string;
  (** [repr] of a float. *)
  float_repr : Q -> string
}.

Module Py.

(** Truth value of a scalar ([if v:]). *)
Definition truthy (v : pyval) : bool :=
  match v with
  | VNone => false
  | VBool b => b
  | VInt z => negb (z =? 0)%Z
  | VFloat q => negb (Qeq_bool q 0)
  | VStr s => negb (String.eqb s "")
  end.

(** [a or b]. *)
Definition or_ (a b : pyval) : pyval := if truthy a then a else b.

(** The numeric value of [bool], [int] and [float]. *)
Definition number (v : pyval) : option Q :=
  match v with
  | VBool b => Some (if b then 1 else 0)%Q
  | VInt z => Some (inject_Z z)
  | VFloat q => Some q
  | VNone | VStr _ => None
  end.

(** [a == b]: numbers compare by value across [bool], [int] and [float];
    strings compare with strings and [None] with [None]. *)
Definition eq (a b : pyval) : bool :=
  match number a, number b with
  | Some x, Some y => Qeq_bool x y
  | _, _ =>
      match a, b with
      | VNone, VNone => true
      | VStr s, VStr t => String.eqb s t
      | _, _ => false
      end
  end.

(** [str(v)], as an f-string renders a field. *)
Definition str (w : World) (v : pyval) : string :=
  match v with
  | VNone => "None"
  | VBool true => "True"
  | VBool false => "False"
  | VInt z => pretty z
  | VFloat q => float_repr w q
  | VStr s => s
  end.

(** [d.get(k)] and [d.get(k, v)]. *)
Definition get (d : dict) (k : string) : pyval := default VNone (d !! k).
Definition get_or (d : dict) (k : string) (v : pyval) : pyval :=
  default v (d !! k).

(** [a < b], [a > b], [a >= b] and [min(a, b)] on floats. *)
Definition lt (a b : Q) : bool := negb (Qle_bool b a).
Definition gt (a b : Q) : bool := lt b a.
Definition ge (a b : Q) : bool := Qle_bool b a.
Definition min (a b : Q) : Q := if lt b a then b else a.
Definition max (a b : Q) : Q := if gt b a then b else a.

(** [sum(l)] and [len(l)] as numbers. *)
Definition sum (l : list Q) : Q := fold_left Qplus l 0%Q.
Definition len {A} (l : list A) : Q := inject_Z (Z.of_nat (length l)).

End Py.

(** ** Exceptions and stateful computations *)

Inductive exn : Type := AttributeError | TypeError | ValueError.

Inductive result (A : Type) : Type :=
  | Ok (a : A)
  | Raise (e : exn).

Arguments Ok {A} a.
Arguments Raise {A} e.

(** A computation over a mutable object of type [S]: it returns or raises,
    and in both cases leaves the object in some state. *)
Definition M (S A : Type) : Type := S -> result A * S.

Definition ret {S A} (a : A) : M S A := fun s => (Ok a, s).

Definition raise {S A} (e : exn) : M S A := fun s => (Raise e, s).

Definition bind {S A B} (m : M S A) (k : A -> M S B) : M S B :=
  fun s =>
    match m s with
    | (Ok a, s') => k a s'
    | (Raise e, s') => (Raise e, s')
    end.

Definition modify {S} (f : S -> S) : M S unit := fun s => (Ok tt, f s).

(** [try: body except: handler]. *)
Definition try_except {S A} (body : M S A) (handler : M S A) : M S A :=
  fun s =>
    match body s with
    | (Ok a, s') => (Ok a, s')
    | (Raise _, s') => handler s'
    end.

#[global] Instance M_ret {S} : MRet (M S) := fun A a => ret a.
#[global] Instance M_bind {S} : MBind (M S) := fun A B k m => bind m k.

(** Attribute and operator applications that depend on the dynamic type. *)
Module Dyn.

(** [v.lower()]. *)
Definition lower {S} (v : pyval) : M S string :=
  match v with
  | VStr s => ret (Text.lower s)
  | _ => raise AttributeError
  end.

(** [needle in v] for a string [needle]. *)
Definition contains {S} (needle : string) (v : pyval) : M S bool :=
  match v with
  | VStr s => ret (Text.contains needle s)
  | _ => raise TypeError
  end.

(** [v.replace(c, by)]. *)
Definition replace_char {S} (c : ascii) (by_ : string) (v : pyval)
  : M S string :=
  match v with
  | VStr s => ret (Text.replace_char c by_ s)
  | _ => raise AttributeError
  end.

(** [v[:n]]. *)
Definition take {S} (n : nat) (v : pyval) : M S string :=
  match v with
  | VStr s => ret (Text.take n s)
  | _ => raise TypeError
  end.

End Dyn.

(** ** The reasoning trace *)

Inductive ReasoningType : Type :=
  | OBSERVATION
  | ANALYSIS
  | INFERENCE
  | DECISION
  | VALIDATION.

(** The [value] of a member of the enumeration. *)
Definition ReasoningType_value (t : ReasoningType) : string :=
  match t with
  | OBSERVATION => "observation"
  | ANALYSIS => "analysis"
  | INFERENCE => "inference"
  | DECISION => "decision"
  | VALIDATION => "validation"
  end.

Record ReasoningStep : Type := {
  step_number : nat;
  step_type : ReasoningType;
  content : string;
  confidence : Q;
  evidence : list string;
  timestamp : Z
}.

Record ReasoningChain : Type := {
  task_id : string;
  agent_type : string;
  question : string;
  steps : list ReasoningStep;
  final_answer : option string;
  final_confidence : Q;
  started_at : Z;
  completed_at : option Z
}.

(** Serialised records: what [to_dict] builds.  A dictionary keeps its keys
    in insertion order. *)
#[warnings="-register-all"] Inductive json : Type :=
  | JNull
  | JInt (z : Z)
  | JFloat (q : Q)
  | JStr (s : string)
  | JList (l : list json)
  | JDict (kvs : list (string * json)).

(** [d[k]] on a serialised dictionary. *)
Definition json_get (k : string) (d : json) : option json :=
  match d with
  | JDict kvs => snd <$> List.find (fun kv => String.eqb (fst kv) k) kvs
  | _ => None
  end.

Definition json_of_option {A} (f : A -> json) (o : option A) : json :=
  match o with
  | Some a => f a
  | None => JNull
  end.

Module Step.

(** [ReasoningStep.to_dict]. *)
Definition to_dict (w : World) (self : ReasoningStep) : json :=
  JDict [
    ("step", JInt (Z.of_nat (step_number self)));
    ("type", JStr (ReasoningType_value (step_type self)));
    ("content", JStr (content self));
    ("confidence", JFloat (confidence self));
    ("evidence", JList (JStr <$> evidence self));
    ("timestamp", JStr (isoformat w (timestamp self)))
  ].

End Step.

Module Chain.

(** A chain as the dataclass builds it from its three required fields. *)
Definition new (w : World) (task agent quest : string) : ReasoningChain :=
  {| task_id := task;
     agent_type := agent;
     question := quest;
     steps := [];
     final_answer := None;
     final_confidence := 0;
     started_at := utcnow w;
     completed_at := None |}.

Definition set_steps (l : list ReasoningStep) (self : ReasoningChain)
  : ReasoningChain :=
  {| task_id := task_id self;
     agent_type := agent_type self;
     question := question self;
     steps := l;
     final_answer := final_answer self;
     final_confidence := final_confidence self;
     started_at := started_at self;
     completed_at := completed_at self |}.

(** [ReasoningChain.add_step]: the new step takes the number after the
    current length and goes to the end of [steps]. *)
Definition add_step (w : World) (ty : ReasoningType) (text : string)
    (conf : Q) (ev : option (list string)) : M ReasoningChain ReasoningStep :=
  fun self =>
    let step :=
      {| step_number := length (steps self) + 1;
         step_type := ty;
         content := text;
         confidence := conf;
         evidence := default [] ev;
         timestamp := utcnow w |} in
    (Ok step, set_steps (steps self ++ [step]) self).

(** [ReasoningChain.complete]. *)
Definition complete (w : World) (answer : string) (conf : Q)
  : M ReasoningChain unit :=
  modify (fun self =>
    {| task_id := task_id self;
       agent_type := agent_type self;
       question := question self;
       steps := steps self;
       final_answer := Some answer;
       final_confidence := conf;
       started_at := started_at self;
       completed_at := Some (utcnow w) |}).

(** The object itself, as the methods return it. *)
Definition this : M ReasoningChain ReasoningChain := fun self => (Ok self, self).

(** [ReasoningChain.to_dict]. *)
Definition to_dict (w : World) (self : ReasoningChain) : json :=
  JDict [
    ("task_id", JStr (task_id self));
    ("agent_type", JStr (agent_type self));
    ("question", JStr (question self));
    ("steps", JList (Step.to_dict w <$> steps self));
    ("final_answer", json_of_option JStr (final_answer self));
    ("final_confidence", JFloat (final_confidence self));
    ("started_at", JStr (isoformat w (started_at self)));
    ("completed_at",
      json_of_option (fun t => JStr (isoformat w t)) (completed_at self));
    ("duration_ms",
      json_of_option
        (fun t => JFloat (inject_Z (t - started_at self) / 1000000 * 1000))
        (completed_at self))
  ].

(** The mark of a step type in an explanation. *)
Definition emoji (t : ReasoningType) : string :=
  match t with
  | OBSERVATION => "👁️"
  | ANALYSIS => "🔍"
  | INFERENCE => "💡"
  | DECISION => "✅"
  | VALIDATION => "✓"
  end.

(** The lines [to_explanation] writes for one step. *)
Definition step_lines (step : ReasoningStep) : list string :=
  ["**Step " ++ pretty (step_number step) ++ "** ("
     ++ ReasoningType_value (step_type step) ++ ") " ++ emoji (step_type step);
   content step]
  ++ (if bool_decide (evidence step = []) then []
      else "*Evidence:*" :: ((fun ev => "  - " ++ ev) <$> evidence step))
  ++ ["*Confidence: " ++ Fmt.f0 (confidence step * 100) ++ "%*"; ""].

(** The closing lines, written when the final answer is a non-empty
    string. *)
Definition conclusion_lines (self : ReasoningChain) : list string :=
  match final_answer self with
  | Some answer =>
      if String.eqb answer "" then []
      else ["---";
            "**Conclusion:** " ++ answer;
            "**Overall Confidence:** "
              ++ Fmt.f0 (final_confidence self * 100) ++ "%"]
  | None => []
  end.

(** The lines of [to_explanation], before they are joined. *)
Definition explanation_lines (self : ReasoningChain) : list string :=
  ["## Reasoning for: " ++ question self; ""]
  ++ concat (step_lines <$> steps self)
  ++ conclusion_lines self.

(** [ReasoningChain.to_explanation]. *)
Definition to_explanation (self : ReasoningChain) : string :=
  Text.join (String "010" "") (explanation_lines self).

End Chain.

(** The calls a client can make on a chain it holds. *)
Inductive chain_call : Type :=
  | CallAddStep (ty : ReasoningType) (text : string) (conf : Q)
      (ev : option (list string))
  | CallComplete (answer : string) (conf : Q).

Definition is_add_step (c : chain_call) : bool :=
  match c with
  | CallAddStep _ _ _ _ => true
  | CallComplete _ _ => false
  end.

Definition run_call (w : World) (c : chain_call) (self : ReasoningChain)
  : ReasoningChain :=
  match c with
  | CallAddStep ty text conf ev => snd (Chain.add_step w ty text conf ev self)
  | CallComplete answer conf => snd (Chain.complete w answer conf self)
  end.

(** The calls of [cs] made one after the other. *)
Definition run_calls (w : World) (cs : list chain_call) (self : ReasoningChain)
  : ReasoningChain :=
  fold_left (fun c call => run_call w call c) cs self.

(** ** The chain-of-thought reasoner *)

Record ChainOfThoughtReasoner : Type := {
  self_agent_type : string;
  chains : list ReasoningChain
}.

Module Reasoner.

Definition set_chains (l : list ReasoningChain) (self : ChainOfThoughtReasoner)
  : ChainOfThoughtReasoner :=
  {| self_agent_type := self_agent_type self; chains := l |}.

(** [ChainOfThoughtReasoner.start_chain]: the new chain goes to the end of
    [self.chains] and is handed to the caller. *)
Definition start_chain (w : World) (task quest : string)
  : M ChainOfThoughtReasoner ReasoningChain :=
  fun self =>
    let chain := Chain.new w task (self_agent_type self) quest in
    (Ok chain, set_chains (chains self ++ [chain]) self).

(** What a method does to the chain it holds at position [i] of
    [self.chains]: the list holds the object itself, so it sees every
    change, also when the method raises half-way. *)
Definition on_chain {A} (i : nat) (chain : ReasoningChain)
    (body : M ReasoningChain A) : M ChainOfThoughtReasoner A :=
  fun self =>
    let '(r, chain') := body chain in
    (r, set_chains (<[i := chain']> (chains self)) self).

(** A method that opens a chain and then works on it. *)
Definition with_new_chain {A} (w : World) (task quest : string)
    (body : M ReasoningChain A) : M ChainOfThoughtReasoner A :=
  fun self =>
    (chain ← start_chain w task quest;
     on_chain (length (chains self)) chain body) self.

(** *** Regulation relevance *)

Definition og_keywords : list string := [
  "oil"; "gas"; "petroleum"; "natural gas"; "crude oil";
  "wellsite"; "wellhead"; "compressor"; "gathering";
  "processing"; "transmission"; "storage tank"; "pneumatic";
  "fugitive emissions"; "ldar"; "methane"; "voc"
].

(** [found_keywords]: the keywords that occur in the text, in list order. *)
Definition found_keywords (text_to_search : string) : list string :=
  List.filter (fun kw => Text.contains kw text_to_search) og_keywords.

Definition keyword_confidence (found : list string) : Q :=
  Py.min (Py.len found / 3) 1.0.

(** The citation check: first marker found wins. *)
Definition cfr_analysis (citation : pyval) : M ReasoningChain (Q * list string) :=
  c60 ← Dyn.contains "40 CFR 60" citation;
  if c60 : bool then
    mret (0.8%Q,
          ["40 CFR 60 (NSPS) - includes O&G subparts OOOO, OOOOa, OOOOb"])
  else
    c63 ← Dyn.contains "40 CFR 63" citation;
    if c63 : bool then
      mret (0.7%Q, ["40 CFR 63 (NESHAP) - includes O&G subpart HH"])
    else
      c98 ← Dyn.contains "40 CFR 98" citation;
      if c98 : bool then
        mret (0.6%Q, ["40 CFR 98 (GHG Reporting) - includes O&G subpart W"])
      else mret (0.0%Q, []).

Definition combined_score_of (keyword_conf cfr_relevance : Q) : Q :=
  (keyword_conf * 0.6 + cfr_relevance * 0.4)%Q.

Definition relevance_body (w : World) (regulation : dict)
  : M ReasoningChain (bool * Q * ReasoningChain) :=
  (* Step 1: observe the regulation content *)
  title ← Dyn.lower (Py.get_or regulation "title" (VStr ""));
  description ← Dyn.lower (Py.get_or regulation "description" (VStr ""));
  let citation := Py.get_or regulation "citation" (VStr "") in
  _ ← Chain.add_step w OBSERVATION
        ("Examining regulation: " ++ Py.str w citation ++ " - "
           ++ Py.str w (Py.get_or regulation "title" (VStr "Unknown")))
        1.0
        (Some ["Title: " ++ Text.take 100 title ++ "...";
               "Citation: " ++ Py.str w citation]);
  (* Step 2: industry keywords *)
  let text_to_search := title ++ " " ++ description in
  let found := found_keywords text_to_search in
  let keyword_conf := keyword_confidence found in
  _ ← Chain.add_step w ANALYSIS
        ("Searched for " ++ pretty (length og_keywords)
           ++ " O&G keywords in regulation text")
        keyword_conf
        (Some (if bool_decide (found = []) then ["No keywords found"]
               else ["Found keywords: " ++ Text.join ", " (take 5 found)]));
  (* Step 3: CFR citation *)
  '(cfr_relevance, cfr_evidence) ← cfr_analysis citation;
  _ ← (if Py.gt cfr_relevance 0 then
         _ ← Chain.add_step w ANALYSIS
               "CFR citation analysis indicates potential O&G applicability"
               cfr_relevance (Some cfr_evidence);
         mret tt
       else mret tt);
  (* Step 4: inference *)
  let combined_score := combined_score_of keyword_conf cfr_relevance in
  let is_relevant := Py.gt combined_score 0.3 in
  _ ← Chain.add_step w INFERENCE
        ("Combined analysis suggests "
           ++ (if Py.gt combined_score 0.6 then "HIGH"
               else if Py.gt combined_score 0.3 then "MODERATE" else "LOW")
           ++ " relevance")
        combined_score
        (Some ["Keyword score: " ++ Fmt.f2 keyword_conf;
               "CFR relevance: " ++ Fmt.f2 cfr_relevance;
               "Combined: " ++ Fmt.f2 combined_score]);
  (* Step 5: validation *)
  _ ← (if is_relevant && Py.lt combined_score 0.5 then
         _ ← Chain.add_step w VALIDATION
               "Low confidence relevance - recommend manual review"
               combined_score
               (Some ["Borderline score warrants human verification"]);
         mret tt
       else mret tt);
  _ ← Chain.complete w (if is_relevant then "RELEVANT" else "NOT RELEVANT")
        combined_score;
  chain ← Chain.this;
  mret (is_relevant, combined_score, chain).

(** [ChainOfThoughtReasoner.reason_about_regulation_relevance]. *)
Definition reason_about_regulation_relevance (w : World) (regulation : dict)
    (target_industry : string)
  : M ChainOfThoughtReasoner (bool * Q * ReasoningChain) :=
  with_new_chain w
    ("rel_" ++ Py.str w (Py.get_or regulation "id" (VStr "unknown")))
    ("Is '" ++ Py.str w (Py.get_or regulation "title" (VStr "Unknown"))
       ++ "' relevant to " ++ target_industry ++ "?")
    (relevance_body w regulation).


(** *** Gap severity *)

Definition microseconds_per_day : Z := 86400000000.

(** [(deadline_date - now).days]: whole days, rounded down. *)
Definition days_until_of (w : World) (deadline_date : Z) : Z :=
  (deadline_date - utcnow w) / microseconds_per_day.

(** The deadline buckets: severity, confidence and the evidence line. *)
Definition deadline_bucket (days_until : Z) : string * Q * string :=
  if (days_until <? 0)%Z then
    ("critical", 0.95%Q,
     "Deadline PASSED " ++ pretty (Z.abs days_until) ++ " days ago")
  else if (days_until <? 30)%Z then
    ("critical", 0.9%Q, "Only " ++ pretty days_until ++ " days until deadline")
  else if (days_until <? 90)%Z then
    ("high", 0.8%Q, pretty days_until ++ " days until deadline")
  else if (days_until <? 180)%Z then
    ("medium", 0.7%Q, pretty days_until ++ " days until deadline")
  else
    ("low", 0.6%Q, pretty days_until ++ " days until deadline (>6 months)").

(** [datetime.fromisoformat(s)]. *)
Definition parse_deadline {S} (w : World) (s : string) : M S Z :=
  match fromisoformat w s with
  | Some t => mret t
  | None => raise ValueError
  end.

(** Step 2 of the severity method.  Inside [try] nothing can raise once the
    date is parsed, so the handler runs only with the two locals still at
    their defaults. *)
Definition deadline_analysis (w : World) (deadline : pyval)
  : M ReasoningChain (string * Q) :=
  let deadline_severity := "low" in
  let deadline_confidence := 0.5%Q in
  if Py.truthy deadline then
    try_except
      (text ← Dyn.replace_char "Z" "+00:00" deadline;
       deadline_date ← parse_deadline w text;
       let days_until := days_until_of w deadline_date in
       let '(severity, conf, deadline_evidence) := deadline_bucket days_until in
       _ ← Chain.add_step w ANALYSIS
             ("Deadline analysis: " ++ Text.upper severity ++ " urgency")
             conf (Some [deadline_evidence]);
       mret (severity, conf))
      (mret (deadline_severity, deadline_confidence))
  else mret (deadline_severity, deadline_confidence).

Definition enforcement_keywords : list string :=
  ["nsps"; "neshap"; "title v"; "ghg reporting"; "ldar"].

(** The keyword loop of step 3. *)
Definition enforcement_by_keyword (regulation_id : string) : string * Q :=
  if existsb (fun kw => Text.contains kw regulation_id) enforcement_keywords
  then ("high", 0.8%Q)
  else ("medium", 0.5%Q).

(** The test for an EPA priority program; the title is looked at only when
    the regulation id does not decide. *)
Definition is_priority_program {S} (regulation_id : string) (gap : dict)
  : M S bool :=
  if Text.contains "oooo" regulation_id then mret true
  else
    title ← Dyn.lower (Py.get_or gap "title" (VStr ""));
    mret (Text.contains "methane" title).

(** Step 3 of the severity method, before its trace entry. *)
Definition enforcement_analysis {S} (regulation_id : string) (gap : dict)
  : M S (string * Q) :=
  let '(enforcement_risk, enforcement_confidence) :=
    enforcement_by_keyword regulation_id in
  priority ← is_priority_program regulation_id gap;
  mret (if priority : bool then ("high", 0.85%Q)
        else (enforcement_risk, enforcement_confidence)).

Definition severity_scores : gmap string Z :=
  <["critical" := 4%Z]> (<["high" := 3%Z]> (<["medium" := 2%Z]>
    (<["low" := 1%Z]> ∅))).

(** [severity_scores.get(f, 2)]. *)
Definition score_of (f : string) : Z := default 2%Z (severity_scores !! f).

Definition sum_Z (l : list Z) : Z := fold_left Z.add l 0%Z.

Definition avg_score_of (factors : list string) : Q :=
  (inject_Z (sum_Z (score_of <$> factors)) / Py.len factors)%Q.

Definition final_severity_of (avg_score : Q) : string :=
  if Py.ge avg_score 3.5 then "critical"
  else if Py.ge avg_score 2.5 then "high"
  else if Py.ge avg_score 1.5 then "medium"
  else "low".

Definition final_confidence_of (deadline_confidence enforcement_confidence : Q)
  : Q :=
  ((deadline_confidence + enforcement_confidence + 0.7) / 3)%Q.

Definition severity_body (w : World) (gap facility : dict)
  : M ReasoningChain (string * Q * ReasoningChain) :=
  (* Step 1: observe gap characteristics *)
  _ ← Chain.add_step w OBSERVATION
        ("Analyzing gap: "
           ++ Py.str w (Py.get_or gap "title" (VStr "Unknown")) ++ " at "
           ++ Py.str w (Py.get_or facility "name" (VStr "Unknown facility")))
        1.0
        (Some ["Gap type: "
                 ++ Py.str w (Py.get_or gap "gap_type" (VStr "unknown"));
               "Regulation: "
                 ++ Py.str w (Py.get_or gap "regulation_id" (VStr "unknown"))]);
  (* Step 2: deadline proximity *)
  let deadline := Py.get gap "regulatory_deadline" in
  '(deadline_severity, deadline_confidence) ← deadline_analysis w deadline;
  (* Step 3: enforcement risk *)
  regulation_id ← Dyn.lower (Py.get_or gap "regulation_id" (VStr ""));
  '(enforcement_risk, enforcement_confidence) ←
    enforcement_analysis regulation_id gap;
  _ ← Chain.add_step w ANALYSIS
        ("Enforcement risk assessment: " ++ Text.upper enforcement_risk)
        enforcement_confidence
        (Some ["Regulation: " ++ regulation_id;
               "EPA enforcement priority: "
                 ++ (if String.eqb enforcement_risk "high" then "YES"
                     else "NORMAL")]);
  (* Step 4: facility factors *)
  facility_risk ←
    (if Py.truthy (Py.get facility "is_major_source") then
       _ ← Chain.add_step w ANALYSIS
             "Facility is a Major Source - higher regulatory scrutiny"
             0.85
             (Some ["Major source status triggers additional requirements"]);
       mret "high"
     else mret "medium");
  (* Step 5: combine the factors *)
  let factors := [deadline_severity; enforcement_risk; facility_risk] in
  let avg_score := avg_score_of factors in
  let final_severity := final_severity_of avg_score in
  let final_conf :=
    final_confidence_of deadline_confidence enforcement_confidence in
  _ ← Chain.add_step w INFERENCE
        ("Combined severity assessment: " ++ Text.upper final_severity)
        final_conf
        (Some ["Deadline factor: " ++ deadline_severity;
               "Enforcement factor: " ++ enforcement_risk;
               "Facility factor: " ++ facility_risk;
               "Average score: " ++ Fmt.f2 avg_score]);
  (* Step 6: validation *)
  _ ← Chain.add_step w VALIDATION
        ("Severity determination validated with "
           ++ Fmt.f0 (final_conf * 100) ++ "% confidence")
        final_conf
        (Some ["All " ++ pretty (length factors) ++ " risk factors considered";
               "Final severity: " ++ Text.upper final_severity]);
  _ ← Chain.complete w (Text.upper final_severity) final_conf;
  chain ← Chain.this;
  mret (final_severity, final_conf, chain).

(** [ChainOfThoughtReasoner.reason_about_gap_severity]. *)
Definition reason_about_gap_severity (w : World) (gap facility : dict)
  : M ChainOfThoughtReasoner (string * Q * ReasoningChain) :=
  with_new_chain w
    ("sev_" ++ Py.str w (Py.get_or gap "id" (VStr "unknown")))
    ("What is the severity of gap: "
       ++ Py.str w (Py.get_or gap "title" (VStr "Unknown")) ++ "?")
    (severity_body w gap facility).


(** *** Remediation cost *)

(** The cost table, in the order the dictionary lists its keys. *)
Definition cost_estimates : list (string * (Q * Q)) := [
  ("ldar", (3000, 8000)%Q);
  ("pneumatic", (500, 2000)%Q);
  ("storage", (25000, 75000)%Q);
  ("permit", (10000, 25000)%Q);
  ("dehydrator", (40000, 80000)%Q);
  ("monitoring", (5000, 15000)%Q);
  ("documentation", (2000, 5000)%Q)
].

(** Step 1 of the cost method: the first key of the table that occurs in
    the title, with its range; otherwise the default range. *)
Definition identify_gap_type (gap_title : string) : string * (Q * Q) :=
  match List.find (fun kv => Text.contains (fst kv) gap_title) cost_estimates
  with
  | Some (gap_type_key, (low, high)) => (gap_type_key, (low, high))
  | None => ("unknown", (5000, 20000)%Q)
  end.

Definition unit_words : list string :=
  ["controller"; "tank"; "vessel"; "source"; "unit"].

(** The first match of the pattern
    [\b(\d+)\s*(?:controller|tank|vessel|source|unit)], scanning from the
    left; [prev_word] tells whether the character before [s] is a word
    character.  A match can only start at a digit that follows a non-word
    character, then takes the whole run of digits and the whole run of white
    space after it: giving back a digit or a space leaves a digit or a space
    where a unit word has to start. *)
Fixpoint first_quantity (prev_word : bool) (s : string) : option string :=
  match s with
  | EmptyString => None
  | String c t =>
      if negb prev_word && Text.is_digit c then
        let '(digits, rest) := Text.span Text.is_digit s in
        let '(_, rest') := Text.span Text.is_space rest in
        if existsb (fun u => String.prefix u rest') unit_words
        then Some digits
        else first_quantity (Text.is_word c) t
      else first_quantity (Text.is_word c) t
  end.

(** Step 2 of the cost method: [numbers[0]] as an integer, when the pattern
    matches. *)
Definition quantity_multiplier (description_lower : string) : option Z :=
  Text.int_of_digits <$> first_quantity false description_lower.

(** The costs of the similar gaps that carry one. *)
Definition similar_costs_of (similar_gaps : list dict) : list pyval :=
  (fun g => Py.or_ (Py.get g "actual_cost")
                   (Py.get_or g "estimated_cost" (VInt 0)))
    <$> List.filter
          (fun g => Py.truthy (Py.or_ (Py.get g "actual_cost")
                                      (Py.get g "estimated_cost")))
          similar_gaps.

(** [sum(l)] on values: adding a number and anything else raises. *)
Fixpoint sum_values {S} (acc : Q) (l : list pyval) : M S Q :=
  match l with
  | [] => mret acc
  | v :: l' =>
      match Py.number v with
      | Some q => sum_values (acc + q)%Q l'
      | None => raise TypeError
      end
  end.

(** The blend of the base range with the historical average. *)
Definition blend (base : Q * Q) (avg_similar : Q) : Q * Q :=
  (((fst base + avg_similar * 0.8) / 2)%Q,
   ((snd base + avg_similar * 1.2) / 2)%Q).

(** [if similar_gaps:]: the argument is given and is not the empty list. *)
Definition supplied (similar_gaps : option (list dict)) : bool :=
  match similar_gaps with
  | Some (_ :: _) => true
  | _ => false
  end.

(** Step 3 of the cost method. *)
Definition historical_analysis (w : World) (similar_gaps : option (list dict))
    (base : Q * Q) : M ReasoningChain (Q * Q) :=
  if supplied similar_gaps then
    let similar_costs := similar_costs_of (default [] similar_gaps) in
    if bool_decide (similar_costs = []) then mret base
    else
      total ← sum_values 0 similar_costs;
      let avg_similar := (total / Py.len similar_costs)%Q in
      _ ← Chain.add_step w ANALYSIS
            ("Found " ++ pretty (length similar_costs)
               ++ " similar historical gaps")
            0.85
            (Some ["Average historical cost: $" ++ Fmt.f0_comma avg_similar]);
      mret (blend base avg_similar)
  else mret base.

Definition estimated_cost_of (base : Q * Q) (multiplier : Z) : Q :=
  ((fst base + snd base) / 2 * inject_Z multiplier)%Q.

Definition cost_range_of (base : Q * Q) (multiplier : Z) : Q * Q :=
  ((fst base * inject_Z multiplier)%Q, (snd base * inject_Z multiplier)%Q).

(** The confidence of the estimate, from the quality of the information. *)
Definition cost_confidence (gap_type : string)
    (similar_gaps : option (list dict)) (multiplier : Z) : Q :=
  let c := 0.7%Q in
  let c := if negb (String.eqb gap_type "unknown") then (c + 0.1)%Q else c in
  let c := if supplied similar_gaps then (c + 0.1)%Q else c in
  let c := if (multiplier >? 1)%Z then (c - 0.05)%Q else c in
  c.

Definition cost_body (w : World) (gap : dict)
    (similar_gaps : option (list dict))
  : M ReasoningChain (Q * Q * ReasoningChain) :=
  (* Step 1: identify the gap type *)
  gap_title ← Dyn.lower (Py.get_or gap "title" (VStr ""));
  let '(gap_type, base) := identify_gap_type gap_title in
  _ ← Chain.add_step w OBSERVATION
        ("Gap type identified: "
           ++ (if negb (String.eqb gap_type "unknown") then gap_type
               else "general compliance"))
        (if negb (String.eqb gap_type "unknown") then 0.8 else 0.5)%Q
        (Some ["Title keywords: " ++ Text.take 50 gap_title]);
  (* Step 2: quantity multiplier *)
  let description := Py.get_or gap "description" (VStr "") in
  description_lower ← Dyn.lower description;
  multiplier ←
    match quantity_multiplier description_lower with
    | Some n =>
        shown ← Dyn.take 100 description;
        _ ← Chain.add_step w ANALYSIS
              ("Found quantity multiplier: " ++ pretty n ++ " units")
              0.75
              (Some ["Extracted from: '" ++ shown ++ "...'"]);
        mret n
    | None => mret 1%Z
    end;
  (* Step 3: similar gaps *)
  base ← historical_analysis w similar_gaps base;
  (* Step 4: the estimate *)
  let estimated_cost := estimated_cost_of base multiplier in
  let cost_range := cost_range_of base multiplier in
  let conf := cost_confidence gap_type similar_gaps multiplier in
  _ ← Chain.add_step w INFERENCE
        ("Estimated cost: $" ++ Fmt.f0_comma estimated_cost
           ++ " (range: $" ++ Fmt.f0_comma (fst cost_range)
           ++ " - $" ++ Fmt.f0_comma (snd cost_range) ++ ")")
        conf
        (Some ["Base range: $" ++ Fmt.f0_comma (fst base)
                 ++ " - $" ++ Fmt.f0_comma (snd base);
               "Multiplier: " ++ pretty multiplier ++ "x";
               "Gap type: " ++ gap_type]);
  _ ← Chain.complete w ("$" ++ Fmt.f0_comma estimated_cost) conf;
  chain ← Chain.this;
  mret (estimated_cost, conf, chain).

(** [ChainOfThoughtReasoner.reason_about_remediation_cost]. *)
Definition reason_about_remediation_cost (w : World) (gap : dict)
    (similar_gaps : option (list dict))
  : M ChainOfThoughtReasoner (Q * Q * ReasoningChain) :=
  with_new_chain w
    ("cost_" ++ Py.str w (Py.get_or gap "id" (VStr "unknown")))
    ("What is the estimated remediation cost for: "
       ++ Py.str w (Py.get_or gap "title" (VStr "Unknown")) ++ "?")
    (cost_body w gap similar_gaps).

(** [ChainOfThoughtReasoner.export_chains]. *)
Definition export_chains (w : World) (self : ChainOfThoughtReasoner)
  : list json :=
  Chain.to_dict w <$> chains self.

(** [ChainOfThoughtReasoner.get_all_explanations]. *)
Definition get_all_explanations (self : ChainOfThoughtReasoner)
  : list string :=
  Chain.to_explanation <$> chains self.

End Reasoner.

(** ** Binary64 arithmetic *)

Module Binary64.

Import Floats.

(** The rational a finite binary64 number stands for. *)
Definition to_Q (f : float) : Q :=
  match Prim2SF f with
  | S754_finite negative mantissa exponent =>
      ((if negative then -1 else 1) * inject_Z (Z.pos mantissa)
       * Qpower 2 exponent)%Q
  | _ => 0%Q
  end.

(** The confidence of the estimate, as Python computes it: the literals
    are the binary64 numbers nearest to 0.7, 0.1 and 0.05 and each [+=]
    and [-=] rounds. *)
#[warnings="-inexact-float"] Definition cost_confidence (gap_type : string)
    (similar_gaps : option (list dict)) (multiplier : Z) : float :=
  let c := 0.7%float in
  let c := if negb (String.eqb gap_type "unknown") then (c + 0.1)%float else c in
  let c := if Reasoner.supplied similar_gaps then (c + 0.1)%float else c in
  let c := if (multiplier >? 1)%Z then (c - 0.05)%float else c in
  c.

End Binary64.

(** ** The confidence calibrator *)

(** A prediction record: the dictionary [record_prediction] builds. *)
Record prediction : Type := {
  pred_id : string;
  predicted : pyval;
  pred_confidence : Q;
  category : string;
  pred_timestamp : string;
  actual : pyval;
  correct : option bool
}.

Record ConfidenceCalibrator : Type := {
  predictions : list prediction;
  calibration_factor : Q
}.

Module Calibrator.

(** [ConfidenceCalibrator()]. *)
Definition new : ConfidenceCalibrator :=
  {| predictions := []; calibration_factor := 1.0 |}.

(** [ConfidenceCalibrator.record_prediction]. *)
Definition record_prediction (w : World) (prediction_id : string)
    (predicted_value : pyval) (conf : Q) (cat : string)
    (self : ConfidenceCalibrator) : ConfidenceCalibrator :=
  {| predictions :=
       predictions self ++ [
         {| pred_id := prediction_id;
            predicted := predicted_value;
            pred_confidence := conf;
            category := cat;
            pred_timestamp := isoformat w (utcnow w);
            actual := VNone;
            correct := None |}
       ];
     calibration_factor := calibration_factor self |}.

(** The two assignments [record_outcome] makes on the record it finds. *)
Definition resolve (actual_value : pyval) (pred : prediction) : prediction :=
  {| pred_id := pred_id pred;
     predicted := predicted pred;
     pred_confidence := pred_confidence pred;
     category := category pred;
     pred_timestamp := pred_timestamp pred;
     actual := actual_value;
     correct := Some (Py.eq (predicted pred) actual_value) |}.

(** The loop of [record_outcome]: it stops at the first record with the
    identifier. *)
Fixpoint resolve_first (prediction_id : string) (actual_value : pyval)
    (preds : list prediction) : list prediction :=
  match preds with
  | [] => []
  | pred :: rest =>
      if String.eqb (pred_id pred) prediction_id
      then resolve actual_value pred :: rest
      else pred :: resolve_first prediction_id actual_value rest
  end.

(** [ConfidenceCalibrator.record_outcome]. *)
Definition record_outcome (prediction_id : string) (actual_value : pyval)
    (self : ConfidenceCalibrator) : ConfidenceCalibrator :=
  {| predictions :=
       resolve_first prediction_id actual_value (predictions self);
     calibration_factor := calibration_factor self |}.

(** [p["correct"] is not None] and [if p["correct"]]. *)
Definition is_resolved (p : prediction) : bool :=
  match correct p with
  | Some _ => true
  | None => false
  end.

Definition is_correct (p : prediction) : bool :=
  match correct p with
  | Some b => b
  | None => false
  end.

(** Fraction of correct records and mean stated confidence of a non-empty
    list of records. *)
Definition accuracy_of (l : list prediction) : Q :=
  (Py.len (List.filter is_correct l) / Py.len l)%Q.

Definition avg_confidence_of (l : list prediction) : Q :=
  (Py.sum (pred_confidence <$> l) / Py.len l)%Q.

(** [accuracy / avg_confidence if avg_confidence > 0 else 1.0]. *)
Definition calibration_of (accuracy avg_confidence : Q) : Q :=
  if Py.gt avg_confidence 0 then (accuracy / avg_confidence)%Q else 1.0%Q.

(** The confidence buckets, in the order of the dictionary. *)
Definition buckets (resolved : list prediction)
  : list (string * list prediction) := [
  ("high", List.filter (fun p => Py.ge (pred_confidence p) 0.8) resolved);
  ("medium",
    List.filter
      (fun p => Qle_bool 0.5 (pred_confidence p)
                && Py.lt (pred_confidence p) 0.8)
      resolved);
  ("low", List.filter (fun p => Py.lt (pred_confidence p) 0.5) resolved)
].

(** The three entries a non-empty bucket adds to the results. *)
Definition add_bucket (results : gmap string pyval)
    (b : string * list prediction) : gmap string pyval :=
  let '(bucket_name, bucket) := b in
  if bool_decide (bucket = []) then results
  else
    let accuracy := accuracy_of bucket in
    let avg_confidence := avg_confidence_of bucket in
    <[bucket_name ++ "_calibration" :=
        VFloat (calibration_of accuracy avg_confidence)]>
      (<[bucket_name ++ "_avg_confidence" := VFloat avg_confidence]>
         (<[bucket_name ++ "_accuracy" := VFloat accuracy]> results)).

(** [ConfidenceCalibrator.calculate_calibration]: the statistics and the
    calibrator afterwards. *)
Definition calculate_calibration (self : ConfidenceCalibrator)
  : gmap string pyval * ConfidenceCalibrator :=
  let resolved := List.filter is_resolved (predictions self) in
  if bool_decide (resolved = []) then
    (<["calibration_factor" := VFloat 1.0]>
       (<["accuracy" := VNone]> (<["samples" := VInt 0]> ∅)),
     self)
  else
    let results : gmap string pyval :=
      <["samples" := VInt (Z.of_nat (length resolved))]> ∅ in
    let results := fold_left add_bucket (buckets resolved) results in
    let overall_accuracy := accuracy_of resolved in
    let avg_confidence := avg_confidence_of resolved in
    let factor := calibration_of overall_accuracy avg_confidence in
    let results := <["accuracy" := VFloat overall_accuracy]> results in
    let results := <["avg_confidence" := VFloat avg_confidence]> results in
    let results := <["calibration_factor" := VFloat factor]> results in
    (results,
     {| predictions := predictions self; calibration_factor := factor |}).

(** [ConfidenceCalibrator.adjust_confidence]. *)
Definition adjust_confidence (raw_confidence : Q) (self : ConfidenceCalibrator)
  : Q :=
  let adjusted := (raw_confidence * calibration_factor self)%Q in
  Py.max 0.0 (Py.min 1.0 adjusted).

End Calibrator.

(** ** Readings of the methods

    The factors the methods compute on the way, as functions of the
    records, and the inputs on which no dynamic type check fails.  The
    lemmas of the next part tie each of them to the method it reads. *)

Module Reading.

(** Whether field [k] of [d] is a string or is missing. *)
Definition str_or_missing (d : dict) (k : string) : bool :=
  match d !! k with
  | None | Some (VStr _) => true
  | Some _ => false
  end.

(** The string a field holds, [dflt] when the field is missing. *)
Definition str_field (d : dict) (k dflt : string) : string :=
  match d !! k with
  | Some (VStr s) => s
  | _ => dflt
  end.

(** The days to the deadline, when the field holds a date that parses. *)
Definition deadline_days (w : World) (deadline : pyval) : option Z :=
  match deadline with
  | VStr s =>
      if Py.truthy deadline then
        Reasoner.days_until_of w
          <$> fromisoformat w (Text.replace_char "Z" "+00:00" s)
      else None
  | _ => None
  end.

(** The deadline factor: severity and confidence. *)
Definition deadline_factor (w : World) (deadline : pyval) : string * Q :=
  match deadline_days w deadline with
  | Some days_until => (fst (fst (Reasoner.deadline_bucket days_until)),
                        snd (fst (Reasoner.deadline_bucket days_until)))
  | None => ("low", 0.5%Q)
  end.

Definition regulation_id_of (gap : dict) : string :=
  Text.lower (str_field gap "regulation_id" "").

Definition title_of (gap : dict) : string :=
  Text.lower (str_field gap "title" "").

(** Whether the gap falls under an EPA priority program. *)
Definition priority (gap : dict) : bool :=
  Text.contains "oooo" (regulation_id_of gap)
  || Text.contains "methane" (title_of gap).

(** The enforcement factor: risk and confidence. *)
Definition enforcement_factor (gap : dict) : string * Q :=
  if priority gap then ("high", 0.85%Q)
  else Reasoner.enforcement_by_keyword (regulation_id_of gap).

Definition is_major_source (facility : dict) : bool :=
  Py.truthy (Py.get facility "is_major_source").

(** The facility factor. *)
Definition facility_risk (facility : dict) : string :=
  if is_major_source facility then "high" else "medium".

Definition severity_factors (w : World) (gap facility : dict) : list string :=
  [fst (deadline_factor w (Py.get gap "regulatory_deadline"));
   fst (enforcement_factor gap);
   facility_risk facility].

Definition severity_of (w : World) (gap facility : dict) : string :=
  Reasoner.final_severity_of
    (Reasoner.avg_score_of (severity_factors w gap facility)).

Definition severity_confidence_of (w : World) (gap : dict) : Q :=
  Reasoner.final_confidence_of
    (snd (deadline_factor w (Py.get gap "regulatory_deadline")))
    (snd (enforcement_factor gap)).

(** The gaps on which the severity method raises nothing: the regulation
    id is a string, and so is the title when the method comes to read it. *)
Definition severity_inputs_ok (gap : dict) : bool :=
  str_or_missing gap "regulation_id"
  && (Text.contains "oooo" (regulation_id_of gap)
      || str_or_missing gap "title").

(** The types of the steps the severity method appends. *)
Definition severity_step_types (w : World) (gap facility : dict)
  : list ReasoningType :=
  [OBSERVATION]
  ++ match deadline_days w (Py.get gap "regulatory_deadline") with
     | Some _ => [ANALYSIS]
     | None => []
     end
  ++ [ANALYSIS]
  ++ (if is_major_source facility then [ANALYSIS] else [])
  ++ [INFERENCE; VALIDATION].

(** What the method finds in the deadline field when there is no date to
    read: the field is missing, is not a string, is the empty string, or is
    a string the parser rejects. *)
Definition no_deadline (w : World) (gap : dict) : Prop :=
  match gap !! "regulatory_deadline" with
  | Some (VStr s) =>
      s = "" \/ fromisoformat w (Text.replace_char "Z" "+00:00" s) = None
  | _ => True
  end.

(** The confidences of the steps the severity method appends. *)
Definition severity_step_confidences (w : World) (gap facility : dict)
  : list Q :=
  [1.0%Q]
  ++ match deadline_days w (Py.get gap "regulatory_deadline") with
     | Some _ => [snd (deadline_factor w (Py.get gap "regulatory_deadline"))]
     | None => []
     end
  ++ [snd (enforcement_factor gap)]
  ++ (if is_major_source facility then [0.85%Q] else [])
  ++ [severity_confidence_of w gap; severity_confidence_of w gap].

(** *** Relevance *)

(** The text the keywords are looked up in. *)
Definition text_to_search_of (regulation : dict) : string :=
  Text.lower (str_field regulation "title" "") ++ " "
    ++ Text.lower (str_field regulation "description" "").

Definition matched_keywords (regulation : dict) : list string :=
  Reasoner.found_keywords (text_to_search_of regulation).

Definition keyword_confidence_of (regulation : dict) : Q :=
  Reasoner.keyword_confidence (matched_keywords regulation).

Definition citation_of (regulation : dict) : string :=
  str_field regulation "citation" "".

(** The confidence the citation contributes; 0 when no marker occurs. *)
Definition cfr_relevance_of (regulation : dict) : Q :=
  if Text.contains "40 CFR 60" (citation_of regulation) then 0.8%Q
  else if Text.contains "40 CFR 63" (citation_of regulation) then 0.7%Q
  else if Text.contains "40 CFR 98" (citation_of regulation) then 0.6%Q
  else 0.0%Q.

Definition combined_score (regulation : dict) : Q :=
  Reasoner.combined_score_of (keyword_confidence_of regulation)
    (cfr_relevance_of regulation).

Definition is_relevant (regulation : dict) : bool :=
  Py.gt (combined_score regulation) 0.3.

(** Whether the method appends a step for the citation, and one for the
    validation. *)
Definition citation_step_fires (regulation : dict) : bool :=
  Py.gt (cfr_relevance_of regulation) 0.

Definition validation_step_fires (regulation : dict) : bool :=
  is_relevant regulation && Py.lt (combined_score regulation) 0.5.

Definition relevance_step_types (regulation : dict) : list ReasoningType :=
  [OBSERVATION; ANALYSIS]
  ++ (if citation_step_fires regulation then [ANALYSIS] else [])
  ++ [INFERENCE]
  ++ (if validation_step_fires regulation then [VALIDATION] else []).

(** The regulations on which the relevance method raises nothing. *)
Definition relevance_inputs_ok (regulation : dict) : bool :=
  str_or_missing regulation "title"
  && str_or_missing regulation "description"
  && str_or_missing regulation "citation".

(** *** Cost *)

Definition description_of (gap : dict) : string :=
  str_field gap "description" "".

(** The bucket the title falls in ("unknown" when in none) and its range. *)
Definition gap_type_of (gap : dict) : string :=
  fst (Reasoner.identify_gap_type (title_of gap)).

Definition base_range_of (gap : dict) : Q * Q :=
  snd (Reasoner.identify_gap_type (title_of gap)).

(** The quantity the description states, and the multiplier it gives. *)
Definition quantity_of (gap : dict) : option Z :=
  Reasoner.quantity_multiplier (Text.lower (description_of gap)).

Definition multiplier_of (gap : dict) : Z := default 1%Z (quantity_of gap).

(** The costs read off the similar gaps. *)
Definition historical_costs (similar_gaps : option (list dict)) : list pyval :=
  if Reasoner.supplied similar_gaps
  then Reasoner.similar_costs_of (default [] similar_gaps)
  else [].

(** Whether historical costs are blended into the base range. *)
Definition history_used (similar_gaps : option (list dict)) : bool :=
  negb (bool_decide (historical_costs similar_gaps = [])).

Definition avg_similar_of (similar_gaps : option (list dict)) : Q :=
  (Py.sum (omap Py.number (historical_costs similar_gaps))
   / Py.len (historical_costs similar_gaps))%Q.

(** The range the estimate is made from. *)
Definition range_of (gap : dict) (similar_gaps : option (list dict)) : Q * Q :=
  if history_used similar_gaps
  then Reasoner.blend (base_range_of gap) (avg_similar_of similar_gaps)
  else base_range_of gap.

Definition estimated_cost (gap : dict) (similar_gaps : option (list dict))
  : Q :=
  Reasoner.estimated_cost_of (range_of gap similar_gaps) (multiplier_of gap).

Definition cost_range (gap : dict) (similar_gaps : option (list dict))
  : Q * Q :=
  Reasoner.cost_range_of (range_of gap similar_gaps) (multiplier_of gap).

Definition cost_confidence_of (gap : dict) (similar_gaps : option (list dict))
  : Q :=
  Reasoner.cost_confidence (gap_type_of gap) similar_gaps (multiplier_of gap).

(** The text of the inference step, where the method shows the range. *)
Definition cost_inference_text (gap : dict)
    (similar_gaps : option (list dict)) : string :=
  "Estimated cost: $" ++ Fmt.f0_comma (estimated_cost gap similar_gaps)
    ++ " (range: $" ++ Fmt.f0_comma (fst (cost_range gap similar_gaps))
    ++ " - $" ++ Fmt.f0_comma (snd (cost_range gap similar_gaps)) ++ ")".

(** Whether the title falls in a bucket of the cost table. *)
Definition type_matched (gap : dict) : bool :=
  existsb (fun kv => Text.contains (fst kv) (title_of gap))
    Reasoner.cost_estimates.

(** The confidence of the estimate as the specification words it, with the
    historical increment granted when costs of similar gaps were blended
    into the range. *)
Definition specified_cost_confidence (gap : dict)
    (similar_gaps : option (list dict)) : Q :=
  (0.7 + (if type_matched gap then 0.1 else 0)
   + (if history_used similar_gaps then 0.1 else 0)
   - (if (multiplier_of gap >? 1)%Z then 0.05 else 0))%Q.

(** The same confidence as binary64 arithmetic gives it. *)
Definition cost_confidence_binary64 (gap : dict)
    (similar_gaps : option (list dict)) : Q :=
  Binary64.to_Q
    (Binary64.cost_confidence (gap_type_of gap) similar_gaps
       (multiplier_of gap)).

Definition is_number (v : pyval) : bool :=
  match Py.number v with
  | Some _ => true
  | None => false
  end.

(** The inputs on which the cost method raises nothing: title and
    description are strings and every historical cost is a number. *)
Definition cost_inputs_ok (gap : dict) (similar_gaps : option (list dict))
  : bool :=
  str_or_missing gap "title"
  && str_or_missing gap "description"
  && forallb is_number (historical_costs similar_gaps).

Definition cost_step_types (gap : dict) (similar_gaps : option (list dict))
  : list ReasoningType :=
  [OBSERVATION]
  ++ match quantity_of gap with
     | Some _ => [ANALYSIS]
     | None => []
     end
  ++ (if history_used similar_gaps then [ANALYSIS] else [])
  ++ [INFERENCE].

End Reading.

(** ** Sample records *)

Module Sample.

Definition day : Z := Reasoner.microseconds_per_day.

(** A world whose clock stands at 0 and whose parser knows two dates. *)
Definition world : World :=
  {| utcnow := 0;
     fromisoformat := fun s =>
       if String.eqb s "1970-01-11T00:00:00+00:00" then Some (10 * day)%Z
       else if String.eqb s "1970-07-01T00:00:00" then Some (181 * day)%Z
       else None;
     isoformat := fun t => pretty t;
     float_repr := fun q => Fmt.f2 q |}.

Definition reasoner : ChainOfThoughtReasoner :=
  {| self_agent_type := "gap_analyzer"; chains := [] |}.

Definition ldar_gap : dict :=
  <["id" := VStr "g-1"]>
    (<["title" := VStr "Quarterly survey overdue"]>
       (<["regulation_id" := VStr "State LDAR program"]>
          (<["regulatory_deadline" := VStr "1970-01-11T00:00:00Z"]> ∅))).

Definition major_facility : dict :=
  <["name" := VStr "Permian Basin Station"]>
    (<["is_major_source" := VBool true]> ∅).

Definition minor_facility : dict := <["name" := VStr "Well pad 7"]> ∅.

(** A gap whose deadline is not a date. *)
Definition undated_gap : dict :=
  <["title" := VStr "Flare log incomplete"]>
    (<["regulation_id" := VStr "permit 12"]>
       (<["regulatory_deadline" := VStr "next spring"]> ∅)).

(** A rule with three keywords in its title and a part-60 citation. *)
Definition methane_rule : dict :=
  <["id" := VStr "r-60"]>
    (<["title" := VStr "Oil and Gas Sector: Methane Standards"]>
       (<["description" := VStr "New source performance standards"]>
          (<["citation" := VStr "40 CFR 60 Subpart OOOOb"]> ∅))).

Definition pneumatic_gap : dict :=
  <["title" := VStr "Pneumatic controller retrofit"]>
    (<["description" := VStr "15 controllers"]> ∅).


(** A gap outside every bucket, with no quantity in its description. *)
Definition flare_gap : dict :=
  <["title" := VStr "Flare log incomplete"]>
    (<["description" := VStr "Entries missing since March"]> ∅).

(** One similar gap on record, without any cost. *)
Definition costless_history : option (list dict) :=
  Some [<["title" := VStr "Flare log gaps at a sister site"]> ∅].

(** Two similar gaps, one with an actual and one with an estimated cost. *)
Definition priced_history : option (list dict) :=
  Some [<["actual_cost" := VInt 1000]> ∅;
        <["estimated_cost" := VFloat 3000]> ∅].



(** Two predictions under one identifier, after a third one. *)
Definition twice_predicted : ConfidenceCalibrator :=
  Calibrator.record_prediction world "dup" (VInt 2) (0.6)%Q "cost"
    (Calibrator.record_prediction world "dup" (VInt 1) (0.7)%Q "cost"
       (Calibrator.record_prediction world "one" (VBool true) (0.9)%Q
          "relevance" Calibrator.new)).


(** A gap outside every bucket whose description states two units. *)
Definition two_tanks_gap : dict := <["description" := VStr "2 tanks"]> ∅.

(** A rule with one keyword ("gas") in its title and a part-98 citation. *)
Definition reporting_rule : dict :=
  <["id" := VStr "r-98"]>
    (<["title" := VStr "Greenhouse Gas Reporting"]>
       (<["citation" := VStr "40 CFR 98 Subpart W"]> ∅)).

(** A rule whose title is set to None. *)
Definition untitled_rule : dict :=
  <["title" := VNone]> (<["citation" := VStr "40 CFR 60"]> ∅).

(** A rule that mentions natural gas and cites nothing. *)
Definition pipeline_rule : dict :=
  <["description" := VStr "Safety of natural gas pipelines"]> ∅.

(** A gap whose regulation id is a number. *)
Definition numbered_gap : dict :=
  <["title" := VStr "Quarterly survey overdue"]>
    (<["regulation_id" := VInt 60]>
       (<["regulatory_deadline" := VStr "1970-01-11T00:00:00Z"]> ∅)).

(** A similar gap whose cost was entered as text. *)
Definition quoted_history : option (list dict) :=
  Some [<["actual_cost" := VStr "1000"]> ∅].

(** One prediction, resolved and wrong. *)
Definition one_wrong : ConfidenceCalibrator :=
  Calibrator.record_outcome "p1" (VStr "low")
    (Calibrator.record_prediction world "p1" (VStr "high") (0.9)%Q "severity"
       Calibrator.new).

End Sample.

(** ** Traces of chain computations *)

Local Open Scope list_scope.

(** The arguments of the [add_step] calls among [cs], in order. *)
Definition added (cs : list chain_call)
  : list (ReasoningType * string * Q * option (list string)) :=
  omap (fun c =>
          match c with
          | CallAddStep ty text conf ev => Some (ty, text, conf, ev)
          | CallComplete _ _ => None
          end) cs.

Definition added_types (cs : list chain_call) : list ReasoningType :=
  (fun a => fst (fst (fst a))) <$> added cs.

Definition added_confidences (cs : list chain_call) : list Q :=
  (fun a => snd (fst a)) <$> added cs.

Definition added_contents (cs : list chain_call) : list string :=
  (fun a => snd (fst (fst a))) <$> added cs.

(** The step [add_step] builds when the chain holds [n] steps. *)
Definition step_at (w : World) (n : nat)
    (a : ReasoningType * string * Q * option (list string)) : ReasoningStep :=
  let '(ty, text, conf, ev) := a in
  {| step_number := n + 1;
     step_type := ty;
     content := text;
     confidence := conf;
     evidence := default [] ev;
     timestamp := utcnow w |}.

(** [m] run on [c] ends with [r] and has made the calls [cs] on [c]. *)
Definition trace (w : World) {A} (m : M ReasoningChain A) (c : ReasoningChain)
    (r : result A) (cs : list chain_call) : Prop :=
  m c = (r, run_calls w cs c).

(** ** Outcomes of chain computations *)

(** The confidence a call hands to the chain. *)
Definition call_confidence (c : chain_call) : Q :=
  match c with
  | CallAddStep _ _ conf _ => conf
  | CallComplete _ conf => conf
  end.

(** A confidence within [0, 1]. *)
Definition in_unit (q : Q) : Prop := (0 <= q /\ q <= 1)%Q.

Definition confidence_ok (c : chain_call) : Prop :=
  in_unit (call_confidence c).

(** [m], on whatever chain it runs and whether it returns or raises, makes
    only calls that satisfy [P]; a value it returns satisfies [R]. *)
Definition yields (w : World) {A} (P : chain_call -> Prop) (R : A -> Prop)
    (m : M ReasoningChain A) : Prop :=
  forall c, exists r cs,
    trace w m c r cs /\ Forall P cs /\ (forall a, r = Ok a -> R a).

(** A call of [add_step] with a confidence within [0, 1]. *)
Definition step_ok (c : chain_call) : Prop :=
  is_add_step c = true /\ confidence_ok c.

(** [m], on whatever chain it runs, adds steps with confidences within
    [0, 1] and then either raises, or calls [complete] once, as its last
    call, and returns the confidence it completed with and the chain as it
    then is. *)
Definition completes_last (w : World) {X}
    (m : M ReasoningChain (X * Q * ReasoningChain)) : Prop :=
  forall c, exists r cs,
    trace w m c r cs
    /\ match r with
       | Raise _ => Forall step_ok cs
       | Ok (_, conf, chain) =>
           chain = run_calls w cs c
           /\ in_unit conf
           /\ exists cs' answer,
                cs = cs' ++ [CallComplete answer conf] /\ Forall step_ok cs'
       end.

(** The world of a call made at the instant [t]: every call reads the
    clock for itself. *)
Definition at_time (t : Z) (w : World) : World :=
  {| utcnow := t;
     fromisoformat := fromisoformat w;
     isoformat := isoformat w;
     float_repr := float_repr w |}.

(** The calls of [cs] made one after the other, each at its own instant. *)
Definition run_timed_calls (w : World) (cs : list (Z * chain_call))
    (self : ReasoningChain) : ReasoningChain :=
  fold_left (fun c call => run_call (at_time (fst call) w) (snd call) c)
    cs self.

(** The arguments of the last [complete] among the calls, if any. *)
Definition last_complete (cs : list chain_call) : option (string * Q) :=
  last (omap (fun c =>
                match c with
                | CallComplete answer conf => Some (answer, conf)
                | CallAddStep _ _ _ _ => None
                end) cs).

Definition is_null (j : option json) : Prop := j = Some JNull.






(** The calls of a list one after the other on a calibrator. *)
Definition record_outcomes (outcomes : list (string * pyval))
    (self : ConfidenceCalibrator) : ConfidenceCalibrator :=
  fold_left (fun s o => Calibrator.record_outcome (fst o) (snd o) s)
    outcomes self.

(** * Properties *)

Lemma added_types_app cs1 cs2 :
  added_types (cs1 ++ cs2) = added_types cs1 ++ added_types cs2.
Proof. unfold added_types, added. by rewrite omap_app, fmap_app. Qed.

Lemma added_contents_app cs1 cs2 :
  added_contents (cs1 ++ cs2) = added_contents cs1 ++ added_contents cs2.
Proof. unfold added_contents, added. by rewrite omap_app, fmap_app. Qed.

Lemma added_confidences_app cs1 cs2 :
  added_confidences (cs1 ++ cs2)
  = added_confidences cs1 ++ added_confidences cs2.
Proof. unfold added_confidences, added. by rewrite omap_app, fmap_app. Qed.

Section Trace.

Context (w : World).

Lemma run_calls_app cs1 cs2 c :
  run_calls w (cs1 ++ cs2) c = run_calls w cs2 (run_calls w cs1 c).
Proof. unfold run_calls. apply fold_left_app. Qed.

Lemma run_calls_nil c : run_calls w [] c = c.
Proof. reflexivity. Qed.

Lemma trace_ret {A} (a : A) c : trace w (mret a) c (Ok a) [].
Proof. reflexivity. Qed.

Lemma trace_raise {A} e c : trace w (raise e : M _ A) c (Raise e) [].
Proof. reflexivity. Qed.

Lemma trace_this c : trace w Chain.this c (Ok c) [].
Proof. reflexivity. Qed.

Lemma trace_add_step ty text conf ev c :
  trace w (Chain.add_step w ty text conf ev) c
    (Ok (step_at w (length (steps c)) (ty, text, conf, ev)))
    [CallAddStep ty text conf ev].
Proof. reflexivity. Qed.

Lemma trace_complete answer conf c :
  trace w (Chain.complete w answer conf) c (Ok tt) [CallComplete answer conf].
Proof. reflexivity. Qed.

Lemma trace_bind {A B} (m : M ReasoningChain A) (k : A -> M ReasoningChain B)
    c a cs1 r cs2 :
  trace w m c (Ok a) cs1 ->
  trace w (k a) (run_calls w cs1 c) r cs2 ->
  trace w (m ≫= k) c r (cs1 ++ cs2).
Proof.
  unfold trace, mbind, M_bind, bind. intros -> ->.
  by rewrite run_calls_app.
Qed.

Lemma trace_bind_raise {A B} (m : M ReasoningChain A)
    (k : A -> M ReasoningChain B) c e cs :
  trace w m c (Raise e) cs -> trace w (m ≫= k) c (Raise e) cs.
Proof. unfold trace, mbind, M_bind, bind. by intros ->. Qed.

Lemma trace_try_ok {A} (body handler : M ReasoningChain A) c a cs :
  trace w body c (Ok a) cs -> trace w (try_except body handler) c (Ok a) cs.
Proof. unfold trace, try_except. by intros ->. Qed.

Lemma trace_try_handler {A} (body handler : M ReasoningChain A) c e cs1 r cs2 :
  trace w body c (Raise e) cs1 ->
  trace w handler (run_calls w cs1 c) r cs2 ->
  trace w (try_except body handler) c r (cs1 ++ cs2).
Proof.
  unfold trace, try_except. intros -> ->. by rewrite run_calls_app.
Qed.

Lemma trace_if {A} (b : bool) (m1 m2 : M ReasoningChain A) c a1 a2 cs1 cs2 :
  trace w m1 c (Ok a1) cs1 ->
  trace w m2 c (Ok a2) cs2 ->
  trace w (if b then m1 else m2) c (Ok (if b then a1 else a2))
    (if b then cs1 else cs2).
Proof. by destruct b. Qed.

(** A computation that leaves the chain alone has made no call. *)
Lemma trace_pure {A} (m : M ReasoningChain A) c r :
  m c = (r, c) -> trace w m c r [].
Proof. done. Qed.

(** What the calls leave in the chain. *)
Lemma steps_run_calls cs c :
  steps (run_calls w cs c)
  = steps c ++ imap (fun i a => step_at w (length (steps c) + i) a) (added cs).
Proof.
  revert c. induction cs as [|call cs IH]; intros c.
  - cbn. by rewrite app_nil_r.
  - change (run_calls w (call :: cs) c)
      with (run_calls w cs (run_call w call c)).
    rewrite IH. destruct call as [ty text conf ev|answer conf]; cbn.
    + rewrite length_app, <- app_assoc. cbn. f_equal.
      rewrite Nat.add_0_r. f_equal.
      apply imap_ext. intros i a _. cbn. f_equal. lia.
    + done.
Qed.

Lemma step_type_step_at n a : step_type (step_at w n a) = fst (fst (fst a)).
Proof. by destruct a as [[[??]?]?]. Qed.

Lemma step_number_step_at n a : step_number (step_at w n a) = n + 1.
Proof. by destruct a as [[[??]?]?]. Qed.

Lemma step_types_run_calls cs c :
  step_type <$> steps (run_calls w cs c)
  = (step_type <$> steps c) ++ added_types cs.
Proof.
  rewrite steps_run_calls, fmap_app, fmap_imap. f_equal.
  unfold added_types. rewrite <- imap_const.
  apply imap_ext. intros i a _. cbn. apply step_type_step_at.
Qed.

Lemma confidence_step_at n a : confidence (step_at w n a) = snd (fst a).
Proof. by destruct a as [[[??]?]?]. Qed.

Lemma confidences_run_calls cs c :
  confidence <$> steps (run_calls w cs c)
  = (confidence <$> steps c) ++ added_confidences cs.
Proof.
  rewrite steps_run_calls, fmap_app, fmap_imap. f_equal.
  unfold added_confidences. rewrite <- imap_const.
  apply imap_ext. intros i a _. cbn. apply confidence_step_at.
Qed.

Lemma content_step_at n a : content (step_at w n a) = snd (fst (fst a)).
Proof. by destruct a as [[[??]?]?]. Qed.

Lemma contents_run_calls cs c :
  content <$> steps (run_calls w cs c)
  = (content <$> steps c) ++ added_contents cs.
Proof.
  rewrite steps_run_calls, fmap_app, fmap_imap. f_equal.
  unfold added_contents. rewrite <- imap_const.
  apply imap_ext. intros i a _. cbn. apply content_step_at.
Qed.

Lemma step_numbers_run_calls cs c :
  step_number <$> steps (run_calls w cs c)
  = (step_number <$> steps c)
    ++ seq (length (steps c) + 1) (length (added cs)).
Proof.
  rewrite steps_run_calls, fmap_app, fmap_imap. f_equal.
  rewrite <- (list_fmap_id (seq _ _)), <- (imap_seq (added cs) id).
  apply imap_ext. intros i a _. cbn. rewrite step_number_step_at. lia.
Qed.

(** The other fields change at [complete] only. *)
Lemma final_run_calls_complete cs answer conf c :
  final_answer (run_calls w (cs ++ [CallComplete answer conf]) c) = Some answer
  /\ final_confidence (run_calls w (cs ++ [CallComplete answer conf]) c) = conf
  /\ completed_at (run_calls w (cs ++ [CallComplete answer conf]) c)
     = Some (utcnow w).
Proof. by rewrite run_calls_app. Qed.

End Trace.

(** Tactics that follow a computation call by call. *)
Ltac trace_leaf :=
  lazymatch goal with
  | |- trace _ (mret _) _ _ _ => apply trace_ret
  | |- trace _ Chain.this _ _ _ => apply trace_this
  | |- trace _ (Chain.add_step _ _ _ _ _) _ _ _ => apply trace_add_step
  | |- trace _ (Chain.complete _ _ _) _ _ _ => apply trace_complete
  | |- trace _ (raise _) _ _ _ => apply trace_raise
  end.

Ltac trace_run :=
  repeat lazymatch goal with
    | |- trace _ (_ ≫= _) _ _ _ =>
        eapply trace_bind; [trace_leaf|]; cbn beta iota
    | |- _ => trace_leaf
    end.

(** ** Dynamic checks on record fields *)

Section Fields.

Context {S : Type}.

Lemma lower_field (d : dict) (k : string) :
  Reading.str_or_missing d k = true ->
  Dyn.lower (S := S) (Py.get_or d k (VStr ""))
  = mret (Text.lower (Reading.str_field d k "")).
Proof.
  unfold Reading.str_or_missing, Reading.str_field, Py.get_or.
  destruct (d !! k) as [[]|]; intros; first [discriminate | reflexivity].
Qed.

Lemma take_field (n : nat) (d : dict) (k : string) :
  Reading.str_or_missing d k = true ->
  Dyn.take (S := S) n (Py.get_or d k (VStr ""))
  = mret (Text.take n (Reading.str_field d k "")).
Proof.
  unfold Reading.str_or_missing, Reading.str_field, Py.get_or.
  destruct (d !! k) as [[]|]; intros; first [discriminate | reflexivity].
Qed.

Lemma lower_field_raises (d : dict) (k : string) (s : S) :
  Reading.str_or_missing d k = false ->
  Dyn.lower (Py.get_or d k (VStr "")) s = (Raise AttributeError, s).
Proof.
  unfold Reading.str_or_missing, Py.get_or.
  destruct (d !! k) as [[]|]; intros; first [discriminate | reflexivity].
Qed.

End Fields.

(** ** The severity method *)

Section Severity.

Context (w : World).

Import Reasoner Reading.

(** Step 2 returns the deadline factor; it appends its step exactly when
    the deadline parses. *)
Lemma deadline_analysis_trace (deadline : pyval) :
  exists cs,
    (forall c,
       trace w (deadline_analysis w deadline) c
         (Ok (deadline_factor w deadline)) cs)
    /\ added_types cs
       = match deadline_days w deadline with
         | Some _ => [ANALYSIS]
         | None => []
         end
    /\ added_confidences cs
       = match deadline_days w deadline with
         | Some _ => [snd (deadline_factor w deadline)]
         | None => []
         end
    /\ (deadline_days w deadline = None -> cs = []).
Proof.
  unfold deadline_analysis, deadline_factor, deadline_days.
  destruct (Py.truthy deadline) eqn:Ht.
  - destruct deadline as [|b|z|q|s];
      try (exists []; split; [|done]; intros c;
           eapply (trace_try_handler _ _ _ _ _ []);
             [apply trace_bind_raise, trace_raise | apply trace_ret]).
    cbn [Dyn.replace_char].
    destruct (fromisoformat w (Text.replace_char "Z" "+00:00" s)) as [t|] eqn:Hp.
    + cbn [fmap option_fmap option_map].
      destruct (deadline_bucket (days_until_of w t)) as [[sev conf] ev] eqn:Hb.
      eexists. split; [|split; [|split]].
      * intros c. apply trace_try_ok.
        eapply trace_bind; [apply trace_ret|]. cbn beta.
        unfold parse_deadline. rewrite Hp.
        eapply trace_bind; [apply trace_ret|]. cbn beta zeta.
        rewrite Hb. trace_run.
      * reflexivity.
      * reflexivity.
      * discriminate.
    + exists []. split; [|done]. intros c.
      eapply (trace_try_handler _ _ _ _ _ []).
      * eapply (trace_bind _ _ _ _ _ []); [apply trace_ret|]. cbn beta.
        unfold parse_deadline. rewrite Hp. apply trace_bind_raise, trace_raise.
      * apply trace_ret.
  - exists []. split; [|split; [|split; [|done]]].
    + intros c. destruct deadline; apply trace_ret.
    + by destruct deadline.
    + by destruct deadline.
Qed.

(** Step 3 returns the enforcement factor and leaves the chain alone. *)
Lemma enforcement_analysis_ok {S} (gap : dict) (s : S) :
  severity_inputs_ok gap = true ->
  enforcement_analysis (regulation_id_of gap) gap s
  = (Ok (enforcement_factor gap), s).
Proof.
  unfold severity_inputs_ok, enforcement_analysis, enforcement_factor,
    is_priority_program, priority.
  intros [Hr Ht]%andb_prop.
  destruct (enforcement_by_keyword (regulation_id_of gap)) as [risk conf].
  destruct (Text.contains "oooo" (regulation_id_of gap)); [done|].
  cbn in Ht. rewrite (lower_field _ _ Ht). reflexivity.
Qed.


(** The body of the method on a chain [c]: what it returns, and the calls
    it has made on [c] by then. *)
Lemma severity_body_ok (gap facility : dict) (c : ReasoningChain) :
  severity_inputs_ok gap = true ->
  exists cs c',
    severity_body w gap facility c
    = (Ok (severity_of w gap facility, severity_confidence_of w gap, c'), c')
    /\ c' = run_calls w cs c
    /\ added_types cs = severity_step_types w gap facility
    /\ added_confidences cs = severity_step_confidences w gap facility
    /\ final_confidence c' = severity_confidence_of w gap
    /\ final_answer c' = Some (Text.upper (severity_of w gap facility)).
Proof.
  intros Hok.
  destruct (deadline_analysis_trace (Py.get gap "regulatory_deadline"))
    as (cs2 & Hd & Hty & Hco & _).
  pose proof Hok as [Hr _]%andb_prop.
  unfold severity_of, severity_confidence_of, severity_factors,
    severity_step_types, severity_step_confidences, severity_confidence_of,
    facility_risk, is_major_source.
  rewrite <- Hty, <- Hco. clear Hty Hco.
  destruct (deadline_factor w (Py.get gap "regulatory_deadline"))
    as [dsev dconf].
  destruct (enforcement_factor gap) as [erisk econf] eqn:He.
  cbn [fst snd].
  eassert (trace w (severity_body w gap facility) c (Ok _) _) as Htr.
  { unfold severity_body.
    eapply trace_bind; [apply trace_add_step|]. cbn beta.
    eapply trace_bind; [apply Hd|]. cbn beta iota.
    rewrite (lower_field _ _ Hr).
    eapply trace_bind; [apply trace_ret|]. cbn beta.
    eapply trace_bind;
      [apply trace_pure, (enforcement_analysis_ok gap _ Hok)|].
    rewrite He. cbn beta iota.
    eapply trace_bind; [apply trace_add_step|]. cbn beta.
    eapply trace_bind; [apply trace_if; trace_run|].
    cbn beta. trace_run. }
  unfold trace in Htr.
  match type of Htr with
  | _ = (_, run_calls _ ?cs _) => exists cs, (run_calls w cs c)
  end.
  split; [|split; [reflexivity|]].
  - rewrite Htr, !run_calls_app, !run_calls_nil. reflexivity.
  - rewrite !added_types_app, !added_confidences_app, !run_calls_app,
      !run_calls_nil.
    by destruct (Py.truthy (Py.get facility "is_major_source")).
Qed.

(** On any other gap the method raises [AttributeError]. *)
Lemma severity_body_raises (gap facility : dict) (c : ReasoningChain) :
  severity_inputs_ok gap = false ->
  exists c', severity_body w gap facility c = (Raise AttributeError, c').
Proof.
  intros Hbad.
  destruct (deadline_analysis_trace (Py.get gap "regulatory_deadline"))
    as (cs2 & Hd & _).
  destruct (deadline_factor w (Py.get gap "regulatory_deadline"))
    as [dsev dconf].
  eassert (trace w (severity_body w gap facility) c (Raise AttributeError) _)
    as Htr; [|by eexists; apply Htr].
  unfold severity_body.
  eapply trace_bind; [apply trace_add_step|]. cbn beta.
  eapply trace_bind; [apply Hd|]. cbn beta iota.
  unfold severity_inputs_ok in Hbad.
  destruct (str_or_missing gap "regulation_id") eqn:Hr.
  - rewrite (lower_field _ _ Hr).
    eapply trace_bind; [apply trace_ret|]. cbn beta.
    apply trace_bind_raise, trace_pure.
    unfold enforcement_analysis, is_priority_program.
    destruct (enforcement_by_keyword _) as [risk conf].
    cbn in Hbad. apply orb_false_elim in Hbad as [Ho Ht].
    unfold regulation_id_of in Ho. rewrite Ho.
    unfold mbind at 1, M_bind, bind. unfold mbind, M_bind, bind.
    by rewrite (lower_field_raises _ _ _ Ht).
  - apply trace_bind_raise, trace_pure. by apply lower_field_raises.
Qed.

(** A method that opens a chain leaves it, as its body left it, at the end
    of [self.chains]. *)
Lemma with_new_chain_run {A} (task quest : string) (body : M ReasoningChain A)
    (self : ChainOfThoughtReasoner) :
  with_new_chain w task quest body self
  = (fst (body (Chain.new w task (self_agent_type self) quest)),
     set_chains
       (chains self
        ++ [snd (body (Chain.new w task (self_agent_type self) quest))])
       self).
Proof.
  unfold with_new_chain, start_chain, on_chain, mbind, M_bind, bind.
  destruct (body _) as [r c']. cbn. unfold set_chains. cbn. f_equal. f_equal.
  rewrite insert_app_r_alt, Nat.sub_diag by lia. done.
Qed.

(** The method on a well-formed gap. *)
Lemma gap_severity_run (gap facility : dict) (self : ChainOfThoughtReasoner) :
  severity_inputs_ok gap = true ->
  exists chain,
    reason_about_gap_severity w gap facility self
    = (Ok (severity_of w gap facility, severity_confidence_of w gap, chain),
       set_chains (chains self ++ [chain]) self)
    /\ step_type <$> steps chain = severity_step_types w gap facility
    /\ confidence <$> steps chain = severity_step_confidences w gap facility
    /\ step_number <$> steps chain
       = seq 1 (length (severity_step_types w gap facility))
    /\ final_confidence chain = severity_confidence_of w gap
    /\ final_answer chain = Some (Text.upper (severity_of w gap facility)).
Proof.
  intros Hok. unfold reason_about_gap_severity. rewrite with_new_chain_run.
  destruct (severity_body_ok gap facility (Chain.new w
              ("sev_" +:+ Py.str w (Py.get_or gap "id" (VStr "unknown")))
              (self_agent_type self)
              ("What is the severity of gap: "
                 +:+ Py.str w (Py.get_or gap "title" (VStr "Unknown"))
                 +:+ "?")) Hok)
    as (cs & c' & Hrun & Hc' & Hty & Hco & Hfc & Hfa).
  exists c'. rewrite Hrun. cbn [fst snd]. split; [done|].
  rewrite Hc' in *.
  rewrite step_types_run_calls, confidences_run_calls,
    step_numbers_run_calls.
  cbn [steps Chain.new fmap list_fmap length app Nat.add].
  rewrite <- Hty. unfold added_types. rewrite length_fmap. done.
Qed.

(** The method returns exactly on the well-formed gaps. *)
Lemma gap_severity_returns (gap facility : dict) (self : ChainOfThoughtReasoner)
    r self' :
  reason_about_gap_severity w gap facility self = (Ok r, self') ->
  severity_inputs_ok gap = true.
Proof.
  intros Hrun. destruct (severity_inputs_ok gap) eqn:Hok; [done|].
  unfold reason_about_gap_severity in Hrun.
  rewrite with_new_chain_run in Hrun.
  match type of Hrun with
  | context [severity_body w gap facility ?c] =>
      destruct (severity_body_raises gap facility c Hok) as [c' Hc']
  end.
  rewrite Hc' in Hrun. discriminate.
Qed.

End Severity.

(** ** Severity: the specification *)

Section SeveritySpec.

Import Reasoner Reading.

Local Open Scope Q_scope.

Lemma Qle_by_bool (x y : Q) : Qle_bool x y = true -> x <= y.
Proof. apply Qle_bool_iff. Qed.

Lemma Qlt_by_bool (x y : Q) : Qle_bool y x = false -> x < y.
Proof.
  intros H. apply Qnot_le_lt. intros Hle%Qle_bool_iff. congruence.
Qed.

(** The three factors take their values among the four labels. *)
Lemma deadline_factor_label (w : World) (deadline : pyval) :
  fst (deadline_factor w deadline) ∈ ["critical"; "high"; "medium"; "low"].
Proof.
  unfold deadline_factor, deadline_bucket.
  destruct (deadline_days w deadline) as [d|]; cbn; [|set_solver].
  repeat case_match; cbn; set_solver.
Qed.

Lemma enforcement_factor_label (gap : dict) :
  fst (enforcement_factor gap) = "medium"
  \/ fst (enforcement_factor gap) = "high".
Proof.
  unfold enforcement_factor, enforcement_by_keyword.
  repeat case_match; cbn; auto.
Qed.

Lemma facility_risk_label (facility : dict) :
  facility_risk facility = "medium" \/ facility_risk facility = "high".
Proof. unfold facility_risk. case_match; auto. Qed.

(** C3: on every gap and facility record the severity returned by
    [reason_about_gap_severity] is "medium" or "high", never "critical" and
    never "low": the enforcement and facility factors are "medium" or "high"
    (scores 2 or 3), so the average of the three scores lies in
    [5/3, 10/3], at least the medium threshold 1.5 and strictly below the
    critical threshold 3.5.  (The method returns exactly on the gaps
    whose fields are strings: [gap_severity_run], [gap_severity_returns].) *)
Theorem gap_severity_medium_or_high (w : World) (gap facility : dict)
    (self : ChainOfThoughtReasoner) :
  severity_inputs_ok gap = true ->
  exists sev conf chain self',
    reason_about_gap_severity w gap facility self
    = (Ok (sev, conf, chain), self')
    /\ (let enforcement_risk := fst (enforcement_factor gap) in
        let facility_risk := facility_risk facility in
        let avg_score := avg_score_of (severity_factors w gap facility) in
        (enforcement_risk = "medium" \/ enforcement_risk = "high")
        /\ (facility_risk = "medium" \/ facility_risk = "high")
        /\ (score_of enforcement_risk = 2 \/ score_of enforcement_risk = 3)%Z
        /\ (score_of facility_risk = 2 \/ score_of facility_risk = 3)%Z
        /\ 5 # 3 <= avg_score /\ avg_score <= 10 # 3
        /\ 1.5 <= avg_score /\ avg_score < 3.5
        /\ sev = final_severity_of avg_score
        /\ (sev = "medium" \/ sev = "high")
        /\ sev <> "critical" /\ sev <> "low").
Proof.
  intros Hok.
  destruct (gap_severity_run w gap facility self Hok) as (chain & Hrun & _).
  eexists _, _, _, _. split; [exact Hrun|]. cbn zeta.
  unfold severity_of, severity_factors.
  pose proof (deadline_factor_label w (Py.get gap "regulatory_deadline")) as Hd.
  destruct (enforcement_factor_label gap) as [-> | ->],
    (facility_risk_label facility) as [-> | ->].
  all: repeat (apply elem_of_cons in Hd as [-> | Hd]);
    [..|by apply elem_of_nil in Hd].
  all: repeat split; auto;
    try (apply Qle_by_bool; reflexivity);
    try (apply Qlt_by_bool; reflexivity);
    try (by vm_compute; auto);
    try discriminate.
Qed.

Lemma gap_severity_medium_or_high_witness :
  exists sev conf chain self',
    reason_about_gap_severity Sample.world Sample.ldar_gap
      Sample.minor_facility Sample.reasoner
    = (Ok (sev, conf, chain), self')
    /\ (sev = "medium" \/ sev = "high").
Proof.
  destruct (gap_severity_medium_or_high Sample.world Sample.ldar_gap
              Sample.minor_facility Sample.reasoner)
    as (sev & conf & chain & self' & Hrun & H).
  - vm_compute. reflexivity.
  - exists sev, conf, chain, self'. split; [exact Hrun|]. apply H.
Defined.






Lemma no_deadline_days (w : World) (gap : dict) :
  no_deadline w gap ->
  deadline_days w (Py.get gap "regulatory_deadline") = None.
Proof.
  unfold no_deadline, deadline_days, Py.get.
  destruct (gap !! "regulatory_deadline") as [[]|]; cbn; try done.
  intros [-> | ->]; [done|]. by case_match.
Qed.

(** C7: a missing or unparseable [regulatory_deadline] never raises: step 2
    returns the defaults "low" and 0.5 and leaves the chain as it found it
    (no deadline step), and the method goes on to return, with the deadline
    factor "low" at confidence 0.5 in its result. *)
Theorem missing_deadline_defaults (w : World) (gap facility : dict)
    (self : ChainOfThoughtReasoner) :
  no_deadline w gap ->
  severity_inputs_ok gap = true ->
  (forall c,
     deadline_analysis w (Py.get gap "regulatory_deadline") c
     = (Ok ("low", 0.5), c))
  /\ exists sev conf chain self',
       reason_about_gap_severity w gap facility self
       = (Ok (sev, conf, chain), self')
       /\ conf = (0.5 + snd (enforcement_factor gap) + 0.7) / 3
       /\ sev = final_severity_of
                  (avg_score_of ["low"; fst (enforcement_factor gap);
                                 facility_risk facility])
       /\ step_type <$> steps chain
          = [OBSERVATION; ANALYSIS]
            ++ (if is_major_source facility then [ANALYSIS] else [])
            ++ [INFERENCE; VALIDATION]
       /\ confidence <$> steps chain
          = [1.0; snd (enforcement_factor gap)]
            ++ (if is_major_source facility then [0.85] else [])
            ++ [conf; conf].
Proof.
  intros Hnone%no_deadline_days Hok. split.
  - intros c.
    destruct (deadline_analysis_trace w (Py.get gap "regulatory_deadline"))
      as (cs & Htr & _ & _ & Hcs).
    specialize (Htr c). rewrite (Hcs Hnone) in Htr. unfold trace in Htr.
    rewrite Htr. unfold deadline_factor. rewrite Hnone. reflexivity.
  - destruct (gap_severity_run w gap facility self Hok)
      as (chain & Hrun & Hty & Hco & _).
    eexists _, _, _, _. split; [exact Hrun|].
    rewrite Hty, Hco.
    unfold severity_of, severity_confidence_of, severity_step_types,
      severity_step_confidences, severity_factors, severity_confidence_of,
      deadline_factor.
    rewrite Hnone. cbn [fst snd app]. done.
Qed.

Lemma missing_deadline_defaults_witness :
  exists sev conf chain self',
    reason_about_gap_severity Sample.world Sample.undated_gap
      Sample.minor_facility Sample.reasoner
    = (Ok (sev, conf, chain), self')
    /\ conf == (0.5 + 0.5 + 0.7) / 3
    /\ step_type <$> steps chain
       = [OBSERVATION; ANALYSIS; INFERENCE; VALIDATION].
Proof.
  destruct (missing_deadline_defaults Sample.world Sample.undated_gap
              Sample.minor_facility Sample.reasoner)
    as (_ & sev & conf & chain & self' & Hrun & Hconf & _ & Hty & _).
  - right. vm_compute. reflexivity.
  - vm_compute. reflexivity.
  - exists sev, conf, chain, self'. split; [exact Hrun|].
    split; [rewrite Hconf; vm_compute; reflexivity | exact Hty].
Defined.

End SeveritySpec.

(** ** The relevance method *)

Section Relevance.

Context (w : World).

Import Reasoner Reading.

Lemma cfr_analysis_ok (regulation : dict) :
  str_or_missing regulation "citation" = true ->
  exists ev, forall c : ReasoningChain,
    cfr_analysis (Py.get_or regulation "citation" (VStr "")) c
    = (Ok (cfr_relevance_of regulation, ev), c).
Proof.
  unfold str_or_missing, cfr_relevance_of, citation_of, str_field, Py.get_or,
    cfr_analysis.
  destruct (regulation !! "citation") as [[| | | |s]|]; try discriminate;
    intros _; cbn -[Text.contains];
    repeat case_match; eexists; intros c; reflexivity.
Qed.

Lemma relevance_body_ok (regulation : dict) (c : ReasoningChain) :
  relevance_inputs_ok regulation = true ->
  exists cs c',
    relevance_body w regulation c
    = (Ok (is_relevant regulation, combined_score regulation, c'), c')
    /\ c' = run_calls w cs c
    /\ added_types cs = relevance_step_types regulation
    /\ final_confidence c' = combined_score regulation.
Proof.
  intros [[Ht Hd]%andb_prop Hc]%andb_prop.
  destruct (cfr_analysis_ok regulation Hc) as [ev Hcfr].
  eassert (trace w (relevance_body w regulation) c (Ok _) _) as Htr.
  { unfold relevance_body.
    rewrite (lower_field _ _ Ht).
    eapply trace_bind; [apply trace_ret|]. cbn beta.
    rewrite (lower_field _ _ Hd).
    eapply trace_bind; [apply trace_ret|]. cbn beta zeta.
    eapply trace_bind; [apply trace_add_step|]. cbn beta.
    eapply trace_bind; [apply trace_add_step|]. cbn beta.
    eapply trace_bind; [apply trace_pure, Hcfr|]. cbn beta iota.
    eapply trace_bind; [apply trace_if; trace_run|]. cbn beta.
    eapply trace_bind; [apply trace_add_step|]. cbn beta.
    eapply trace_bind; [apply trace_if; trace_run|]. cbn beta.
    trace_run. }
  unfold trace in Htr.
  match type of Htr with
  | _ = (_, run_calls _ ?cs _) => exists cs, (run_calls w cs c)
  end.
  unfold relevance_step_types, citation_step_fires, validation_step_fires,
    is_relevant, combined_score, keyword_confidence_of, matched_keywords,
    text_to_search_of.
  split; [|split; [reflexivity|]].
  - rewrite Htr, !run_calls_app, !run_calls_nil. reflexivity.
  - rewrite !added_types_app, !run_calls_app, !run_calls_nil.
    split; [|reflexivity].
    by repeat case_match.
Qed.

Lemma relevance_run (regulation : dict) (target_industry : string)
    (self : ChainOfThoughtReasoner) :
  relevance_inputs_ok regulation = true ->
  exists chain,
    reason_about_regulation_relevance w regulation target_industry self
    = (Ok (is_relevant regulation, combined_score regulation, chain),
       set_chains (chains self ++ [chain]) self)
    /\ step_type <$> steps chain = relevance_step_types regulation
    /\ final_confidence chain = combined_score regulation.
Proof.
  intros Hok. unfold reason_about_regulation_relevance.
  rewrite with_new_chain_run.
  match goal with
  | |- context [relevance_body w regulation ?c] =>
      destruct (relevance_body_ok regulation c Hok)
        as (cs & c' & Hrun & Hc' & Hty & Hfc)
  end.
  exists c'. rewrite Hrun. cbn [fst snd]. split; [done|].
  rewrite Hc' in *. by rewrite step_types_run_calls.
Qed.

(** On any other regulation the method raises. *)
Lemma relevance_body_raises (regulation : dict) (c : ReasoningChain) :
  relevance_inputs_ok regulation = false ->
  exists e c', relevance_body w regulation c = (Raise e, c').
Proof.
  intros Hbad. unfold relevance_inputs_ok in Hbad.
  eassert (exists e cs, trace w (relevance_body w regulation) c (Raise e) cs)
    as (e & cs & Htr); [|by eexists _, _; apply Htr].
  unfold relevance_body.
  destruct (str_or_missing regulation "title") eqn:Ht.
  2: { eexists _, _. apply trace_bind_raise, trace_pure.
       by apply lower_field_raises. }
  rewrite (lower_field _ _ Ht).
  destruct (str_or_missing regulation "description") eqn:Hd.
  2: { eexists _, _. eapply trace_bind; [apply trace_ret|]. cbn beta.
       apply trace_bind_raise, trace_pure. by apply lower_field_raises. }
  rewrite (lower_field _ _ Hd). cbn in Hbad.
  eexists _, _.
  eapply trace_bind; [apply trace_ret|]. cbn beta.
  eapply trace_bind; [apply trace_ret|]. cbn beta zeta.
  eapply trace_bind; [apply trace_add_step|]. cbn beta.
  eapply trace_bind; [apply trace_add_step|]. cbn beta.
  apply trace_bind_raise, trace_pure.
  unfold str_or_missing, Py.get_or in *.
  destruct (regulation !! "citation") as [[]|]; try discriminate; reflexivity.
Qed.

Lemma relevance_returns (regulation : dict) (target_industry : string)
    (self : ChainOfThoughtReasoner) r self' :
  reason_about_regulation_relevance w regulation target_industry self
  = (Ok r, self') ->
  relevance_inputs_ok regulation = true.
Proof.
  intros Hrun. destruct (relevance_inputs_ok regulation) eqn:Hok; [done|].
  unfold reason_about_regulation_relevance in Hrun.
  rewrite with_new_chain_run in Hrun.
  match type of Hrun with
  | context [relevance_body w regulation ?c] =>
      destruct (relevance_body_raises regulation c Hok) as (e & c' & Hc')
  end.
  rewrite Hc' in Hrun. discriminate.
Qed.

End Relevance.

(** ** Relevance: the specification *)

Section RelevanceSpec.

Import Reasoner Reading.

Local Open Scope Q_scope.

Lemma gt_iff (a b : Q) : Py.gt a b = true <-> b < a.
Proof.
  unfold Py.gt, Py.lt. rewrite negb_true_iff. split.
  - apply Qlt_by_bool.
  - intros Hlt. destruct (Qle_bool a b) eqn:Hle; [|done].
    apply Qle_bool_iff in Hle. by apply Qlt_not_le in Hlt.
Qed.

Lemma lt_iff (a b : Q) : Py.lt a b = true <-> a < b.
Proof. apply (gt_iff b a). Qed.

(** Three keywords or more saturate the keyword confidence. *)
Lemma keyword_confidence_saturates (found : list string) :
  (3 <= length found)%nat -> keyword_confidence found == 1.
Proof.
  intros Hlen. unfold keyword_confidence, Py.min, Py.len.
  assert (1 <= inject_Z (Z.of_nat (length found)) / 3) as Hge.
  { apply Qle_shift_div_l; [reflexivity|].
    change (1 * 3) with (inject_Z 3). rewrite <- Zle_Qle. lia. }
  destruct (Py.lt 1.0 _) eqn:Hlt; [reflexivity|].
  apply Qle_antisym; [|exact Hge].
  destruct (Qlt_le_dec 1.0 (inject_Z (Z.of_nat (length found)) / 3))
    as [Hlt'%lt_iff|Hle]; [congruence|].
  eapply Qle_trans; [exact Hle|]. by apply Qle_by_bool.
Qed.

(** C2, as the code has it: on every regulation record
    [reason_about_regulation_relevance] computes
    combined_score = keyword_confidence * 0.6 + citation_confidence * 0.4,
    where keyword_confidence = min(matched_count / 3, 1.0) and
    citation_confidence is 0 when no citation step fires, and returns
    is_relevant = (combined_score > 0.3); a validation step is appended
    exactly when is_relevant holds and combined_score < 0.5.  With three
    keywords or more and a citation containing "40 CFR 60" the score is
    0.6 * 1.0 + 0.4 * 0.8 = 0.92, is_relevant is true and no validation
    step is appended. *)
Theorem relevance_combined_score (w : World) (regulation : dict)
    (target_industry : string) (self : ChainOfThoughtReasoner) :
  relevance_inputs_ok regulation = true ->
  exists relevant score chain self',
    reason_about_regulation_relevance w regulation target_industry self
    = (Ok (relevant, score, chain), self')
    /\ (let matched_count := Py.len (matched_keywords regulation) in
        let keyword_confidence := Py.min (matched_count / 3) 1.0 in
        let citation_confidence := cfr_relevance_of regulation in
        score = keyword_confidence * 0.6 + citation_confidence * 0.4
        /\ (citation_step_fires regulation = false ->
            citation_confidence == 0)
        /\ step_type <$> steps chain
           = [OBSERVATION; ANALYSIS]
             ++ (if citation_step_fires regulation then [ANALYSIS] else [])
             ++ [INFERENCE]
             ++ (if relevant && Py.lt score 0.5 then [VALIDATION] else []))
    /\ (relevant = true <-> 0.3 < score)
    /\ (VALIDATION ∈ step_type <$> steps chain
        <-> relevant = true /\ score < 0.5)
    /\ ((3 <= length (matched_keywords regulation))%nat ->
        Text.contains "40 CFR 60" (citation_of regulation) = true ->
        score == 0.6 * 1.0 + 0.4 * 0.8
        /\ score == 0.92
        /\ relevant = true
        /\ VALIDATION ∉ step_type <$> steps chain).
Proof.
  intros Hok.
  destruct (relevance_run w regulation target_industry self Hok)
    as (chain & Hrun & Hty & _).
  eexists _, _, _, _. split; [exact Hrun|].
  rewrite Hty. unfold relevance_step_types, validation_step_fires.
  assert (VALIDATION ∈ [OBSERVATION; ANALYSIS]
            ++ (if citation_step_fires regulation then [ANALYSIS] else [])
            ++ [INFERENCE]
            ++ (if is_relevant regulation
                   && Py.lt (combined_score regulation) 0.5
                then [VALIDATION] else [])
          <-> is_relevant regulation = true
              /\ combined_score regulation < 0.5) as Hval.
  { rewrite <- lt_iff, <- andb_true_iff.
    destruct (citation_step_fires regulation),
      (is_relevant regulation && Py.lt (combined_score regulation) 0.5);
      cbn;
      (split; [intros Hin | intros Hb; first [discriminate Hb | repeat constructor]]);
      try done;
      repeat (apply elem_of_cons in Hin as [Hin|Hin]; [discriminate Hin|]);
      by apply elem_of_nil in Hin. }
  split; [|split; [|split]].
  - cbn zeta. split; [reflexivity|]. split; [|reflexivity].
    unfold citation_step_fires, cfr_relevance_of.
    repeat case_match; intros Hf; try reflexivity; discriminate.
  - apply gt_iff.
  - exact Hval.
  - intros Hlen H60.
    assert (combined_score regulation == 0.92) as Hscore.
    { unfold combined_score, combined_score_of, keyword_confidence_of,
        cfr_relevance_of.
      rewrite H60, (keyword_confidence_saturates _ Hlen). reflexivity. }
    split; [rewrite Hscore; reflexivity|]. split; [exact Hscore|].
    assert (is_relevant regulation = true) as Hrel.
    { apply gt_iff. rewrite Hscore. reflexivity. }
    split; [exact Hrel|].
    rewrite Hval. intros [_ Hlt]. rewrite Hscore in Hlt. discriminate Hlt.
Qed.

Lemma relevance_combined_score_witness :
  exists relevant score chain self',
    reason_about_regulation_relevance Sample.world Sample.methane_rule
      "oil_and_gas" Sample.reasoner
    = (Ok (relevant, score, chain), self')
    /\ score == 0.92 /\ relevant = true.
Proof.
  destruct (relevance_combined_score Sample.world Sample.methane_rule
              "oil_and_gas" Sample.reasoner)
    as (relevant & score & chain & self' & Hrun & _ & _ & _ & H).
  - vm_compute. reflexivity.
  - exists relevant, score, chain, self'. split; [exact Hrun|].
    destruct H as (_ & Hscore & Hrel & _).
    + vm_compute. lia.
    + vm_compute. reflexivity.
    + split; [exact Hscore | exact Hrel].
Defined.

(** The figure 0.68 fails on a rule with three keywords in its title and a
    citation of part 60: the score returned is 0.92. *)
Lemma relevance_score_counterexample :
  (3 <= length (matched_keywords Sample.methane_rule))%nat
  /\ Text.contains "40 CFR 60" (citation_of Sample.methane_rule) = true
  /\ exists relevant score chain self',
       reason_about_regulation_relevance Sample.world Sample.methane_rule
         "oil_and_gas" Sample.reasoner
       = (Ok (relevant, score, chain), self')
       /\ score == 0.92
       /\ ~ score == 0.68.
Proof.
  split; [vm_compute; lia|]. split; [vm_compute; reflexivity|].
  eexists _, _, _, _. split; [vm_compute; reflexivity|].
  split; [reflexivity|]. intros H. vm_compute in H. discriminate H.
Qed.

End RelevanceSpec.

(** ** The cost method *)

Section Cost.

Context (w : World).

Import Reasoner Reading.

Lemma sum_values_ok {S} (l : list pyval) (acc : Q) (s : S) :
  forallb is_number l = true ->
  sum_values acc l s = (Ok (fold_left Qplus (omap Py.number l) acc), s).
Proof.
  revert acc. induction l as [|v l IH]; intros acc Hall; [done|].
  cbn in Hall. apply andb_prop in Hall as [Hv Hl].
  unfold is_number in Hv. cbn.
  destruct (Py.number v) as [q|]; [|discriminate]. cbn. by apply IH.
Qed.

Lemma sum_values_raises {S} (l : list pyval) (acc : Q) (s : S) :
  forallb is_number l = false ->
  sum_values acc l s = (Raise TypeError, s).
Proof.
  revert acc. induction l as [|v l IH]; intros acc Hall; [done|].
  cbn in Hall. unfold is_number in Hall at 1. cbn.
  destruct (Py.number v) as [q|]; [|done]. by apply IH.
Qed.

(** Step 3 blends the historical average into the range, and appends its
    step, exactly when the similar gaps carry a cost. *)
Lemma historical_analysis_trace (similar_gaps : option (list dict))
    (base : Q * Q) :
  forallb is_number (historical_costs similar_gaps) = true ->
  exists cs,
    (forall c,
       trace w (historical_analysis w similar_gaps base) c
         (Ok (if history_used similar_gaps
              then blend base (avg_similar_of similar_gaps)
              else base))
         cs)
    /\ added_types cs = (if history_used similar_gaps then [ANALYSIS] else []).
Proof.
  unfold historical_analysis, history_used, avg_similar_of, historical_costs.
  destruct (supplied similar_gaps); [|by exists []].
  intros Hnum.
  destruct (bool_decide (similar_costs_of (default [] similar_gaps) = []));
    [by exists []|].
  cbn [negb]. eexists. split.
  - intros c. eapply trace_bind.
    { apply trace_pure, sum_values_ok, Hnum. }
    cbn beta zeta. trace_run.
  - reflexivity.
Qed.

(** The end of a trace whose last [add_step] is followed by [complete]. *)
Lemma last_added (cs : list chain_call) (ty : ReasoningType) (text : string)
    (conf : Q) (ev : option (list string)) (answer : string) (conf' : Q) :
  last (added_contents
          (cs ++ [CallAddStep ty text conf ev; CallComplete answer conf']))
  = Some text
  /\ last (added_confidences
             (cs ++ [CallAddStep ty text conf ev; CallComplete answer conf']))
     = Some conf.
Proof.
  rewrite added_contents_app, added_confidences_app.
  change (added_contents [CallAddStep ty text conf ev; CallComplete answer conf'])
    with [text].
  change (added_confidences
            [CallAddStep ty text conf ev; CallComplete answer conf'])
    with [conf].
  by rewrite !last_snoc.
Qed.

Lemma cost_body_ok (gap : dict) (similar_gaps : option (list dict))
    (c : ReasoningChain) :
  cost_inputs_ok gap similar_gaps = true ->
  exists cs c',
    cost_body w gap similar_gaps c
    = (Ok (estimated_cost gap similar_gaps,
           cost_confidence_of gap similar_gaps, c'), c')
    /\ c' = run_calls w cs c
    /\ added_types cs = cost_step_types gap similar_gaps
    /\ last (added_contents cs) = Some (cost_inference_text gap similar_gaps)
    /\ last (added_confidences cs) = Some (cost_confidence_of gap similar_gaps)
    /\ final_confidence c' = cost_confidence_of gap similar_gaps.
Proof.
  intros [[Ht Hd]%andb_prop Hnum]%andb_prop.
  destruct (historical_analysis_trace similar_gaps (base_range_of gap) Hnum)
    as (csh & Hh & Hhty).
  unfold estimated_cost, cost_confidence_of, cost_step_types,
    cost_inference_text, cost_range, estimated_cost, range_of, multiplier_of,
    gap_type_of, base_range_of, quantity_of, description_of, title_of in *.
  rewrite <- Hhty. clear Hhty.
  destruct (identify_gap_type (Text.lower (str_field gap "title" "")))
    as [gap_type base] eqn:Hid.
  cbn [fst snd] in *.
  destruct (quantity_multiplier (Text.lower (str_field gap "description" "")))
    as [n|] eqn:Hq.
  - change (default 1%Z (Some n)) with n.
    eassert (trace w (cost_body w gap similar_gaps) c (Ok _) _) as Htr.
    { unfold cost_body.
      rewrite (lower_field _ _ Ht).
      eapply trace_bind; [apply trace_ret|]. cbn beta.
      rewrite Hid.
      eapply trace_bind; [apply trace_add_step|]. cbn beta zeta.
      rewrite (lower_field _ _ Hd).
      eapply trace_bind; [apply trace_ret|]. cbn beta.
      rewrite Hq, (take_field _ _ _ Hd).
      eapply trace_bind; [trace_run|]. cbn beta.
      eapply trace_bind; [apply Hh|]. cbn beta zeta.
      trace_run. }
    unfold trace in Htr.
    match type of Htr with
    | _ = (_, run_calls _ ?cs _) => exists cs, (run_calls w cs c)
    end.
    split; [rewrite Htr, !run_calls_app, !run_calls_nil; reflexivity|].
    split; [reflexivity|].
    rewrite !app_nil_r, !app_nil_l.
    split; [rewrite !added_types_app; reflexivity|].
    rewrite !app_assoc, <- (app_assoc _ [CallAddStep INFERENCE _ _ _]).
    split; [apply last_added|]. split; [apply last_added|].
    by rewrite !run_calls_app.
  - change (default 1%Z None) with 1%Z.
    eassert (trace w (cost_body w gap similar_gaps) c (Ok _) _) as Htr.
    { unfold cost_body.
      rewrite (lower_field _ _ Ht).
      eapply trace_bind; [apply trace_ret|]. cbn beta.
      rewrite Hid.
      eapply trace_bind; [apply trace_add_step|]. cbn beta zeta.
      rewrite (lower_field _ _ Hd).
      eapply trace_bind; [apply trace_ret|]. cbn beta.
      rewrite Hq.
      eapply trace_bind; [trace_run|]. cbn beta.
      eapply trace_bind; [apply Hh|]. cbn beta zeta.
      trace_run. }
    unfold trace in Htr.
    match type of Htr with
    | _ = (_, run_calls _ ?cs _) => exists cs, (run_calls w cs c)
    end.
    split; [rewrite Htr, !run_calls_app, !run_calls_nil; reflexivity|].
    split; [reflexivity|].
    rewrite !app_nil_r, !app_nil_l.
    split; [rewrite !added_types_app; reflexivity|].
    rewrite !app_assoc, <- (app_assoc _ [CallAddStep INFERENCE _ _ _]).
    split; [apply last_added|]. split; [apply last_added|].
    by rewrite !run_calls_app.
Qed.

(** The method on well-formed inputs. *)
Lemma cost_run (gap : dict) (similar_gaps : option (list dict))
    (self : ChainOfThoughtReasoner) :
  cost_inputs_ok gap similar_gaps = true ->
  exists chain,
    reason_about_remediation_cost w gap similar_gaps self
    = (Ok (estimated_cost gap similar_gaps,
           cost_confidence_of gap similar_gaps, chain),
       set_chains (chains self ++ [chain]) self)
    /\ step_type <$> steps chain = cost_step_types gap similar_gaps
    /\ last (content <$> steps chain)
       = Some (cost_inference_text gap similar_gaps)
    /\ last (confidence <$> steps chain)
       = Some (cost_confidence_of gap similar_gaps)
    /\ final_confidence chain = cost_confidence_of gap similar_gaps.
Proof.
  intros Hok. unfold reason_about_remediation_cost.
  rewrite with_new_chain_run.
  match goal with
  | |- context [cost_body w gap similar_gaps ?c] =>
      destruct (cost_body_ok gap similar_gaps c Hok)
        as (cs & c' & Hrun & Hc' & Hty & Hco & Hcf & Hfc)
  end.
  exists c'. rewrite Hrun. cbn [fst snd]. split; [done|].
  rewrite Hc' in *.
  by rewrite step_types_run_calls, contents_run_calls, confidences_run_calls.
Qed.

Lemma historical_analysis_raises (similar_gaps : option (list dict))
    (base : Q * Q) (c : ReasoningChain) :
  forallb is_number (historical_costs similar_gaps) = false ->
  historical_analysis w similar_gaps base c = (Raise TypeError, c).
Proof.
  unfold historical_analysis, historical_costs.
  destruct (supplied similar_gaps); [|discriminate].
  intros Hnum.
  destruct (bool_decide_reflect
              (similar_costs_of (default [] similar_gaps) = []))
    as [Heq|_]; [by rewrite Heq in Hnum|].
  unfold mbind, M_bind, bind. by rewrite (sum_values_raises _ _ _ Hnum).
Qed.

(** On any other input the method raises. *)
Lemma cost_body_raises (gap : dict) (similar_gaps : option (list dict))
    (c : ReasoningChain) :
  cost_inputs_ok gap similar_gaps = false ->
  exists e c', cost_body w gap similar_gaps c = (Raise e, c').
Proof.
  intros Hbad. unfold cost_inputs_ok in Hbad.
  eassert (exists e cs, trace w (cost_body w gap similar_gaps) c (Raise e) cs)
    as (e & cs & Htr); [|by eexists _, _; apply Htr].
  unfold cost_body.
  destruct (str_or_missing gap "title") eqn:Ht.
  2: { eexists _, _. apply trace_bind_raise, trace_pure.
       by apply lower_field_raises. }
  rewrite (lower_field _ _ Ht).
  destruct (identify_gap_type (Text.lower (str_field gap "title" "")))
    as [gap_type base] eqn:Hid.
  destruct (str_or_missing gap "description") eqn:Hd.
  2: { eexists _, _. eapply trace_bind; [apply trace_ret|]. cbn beta.
       rewrite Hid.
       eapply trace_bind; [apply trace_add_step|]. cbn beta zeta.
       apply trace_bind_raise, trace_pure. by apply lower_field_raises. }
  rewrite (lower_field _ _ Hd). cbn in Hbad.
  destruct (quantity_multiplier (Text.lower (str_field gap "description" "")))
    as [n|] eqn:Hq.
  - eexists _, _.
    eapply trace_bind; [apply trace_ret|]. cbn beta.
    rewrite Hid.
    eapply trace_bind; [apply trace_add_step|]. cbn beta zeta.
    eapply trace_bind; [apply trace_ret|]. cbn beta.
    rewrite Hq, (take_field _ _ _ Hd).
    eapply trace_bind; [trace_run|]. cbn beta.
    apply trace_bind_raise, trace_pure.
    by apply historical_analysis_raises.
  - eexists _, _.
    eapply trace_bind; [apply trace_ret|]. cbn beta.
    rewrite Hid.
    eapply trace_bind; [apply trace_add_step|]. cbn beta zeta.
    eapply trace_bind; [apply trace_ret|]. cbn beta.
    rewrite Hq.
    eapply trace_bind; [trace_run|]. cbn beta.
    apply trace_bind_raise, trace_pure.
    by apply historical_analysis_raises.
Qed.

Lemma cost_returns (gap : dict) (similar_gaps : option (list dict))
    (self : ChainOfThoughtReasoner) r self' :
  reason_about_remediation_cost w gap similar_gaps self = (Ok r, self') ->
  cost_inputs_ok gap similar_gaps = true.
Proof.
  intros Hrun. destruct (cost_inputs_ok gap similar_gaps) eqn:Hok; [done|].
  unfold reason_about_remediation_cost in Hrun.
  rewrite with_new_chain_run in Hrun.
  match type of Hrun with
  | context [cost_body w gap similar_gaps ?c] =>
      destruct (cost_body_raises gap similar_gaps c Hok) as (e & c' & Hc')
  end.
  rewrite Hc' in Hrun. discriminate.
Qed.

End Cost.

(** ** Cost: the specification *)

Section CostSpec.

Import Reasoner Reading.

Local Open Scope Q_scope.

(** The type is "unknown" exactly when no bucket matches the title. *)
Lemma gap_type_matched (gap : dict) :
  negb (String.eqb (gap_type_of gap) "unknown") = type_matched gap.
Proof.
  unfold gap_type_of, type_matched, identify_gap_type, cost_estimates.
  cbn [List.find existsb fst snd].
  repeat (destruct (Text.contains _ (title_of gap)); [reflexivity|]).
  reflexivity.
Qed.

(** The confidence of the estimate, whatever the inputs. *)
Lemma cost_confidence_cases (gap_type : string)
    (similar_gaps : option (list dict)) (multiplier : Z) :
  cost_confidence gap_type similar_gaps multiplier
  == 0.7 + (if negb (String.eqb gap_type "unknown") then 0.1 else 0)
     + (if supplied similar_gaps then 0.1 else 0)
     - (if (multiplier >? 1)%Z then 0.05 else 0).
Proof.
  unfold cost_confidence.
  destruct (negb _), (supplied _), (multiplier >? 1)%Z; reflexivity.
Qed.

(** The binary64 confidence, whatever the inputs: it is the exact sum
    rounded, within 2^-52 of it, and falls below 0.65 in one case. *)
Lemma cost_confidence_binary64_cases (gap_type : string)
    (similar_gaps : option (list dict)) (multiplier : Z) :
  let b :=
    Binary64.to_Q
      (Binary64.cost_confidence gap_type similar_gaps multiplier) in
  Qabs (b - cost_confidence gap_type similar_gaps multiplier) <= 1 # 2 ^ 52
  /\ 0.6499999999999999 <= b /\ b <= 0.9
  /\ (b < 0.65
      <-> negb (String.eqb gap_type "unknown") = false
          /\ supplied similar_gaps = false
          /\ (multiplier >? 1)%Z = true).
Proof.
  cbn zeta. unfold cost_confidence, Binary64.cost_confidence.
  destruct (negb _), (supplied _), (multiplier >? 1)%Z;
    (split; [by vm_compute|]); (split; [by vm_compute|]);
    (split; [by vm_compute|]);
    (split; [intros H; first [by vm_compute in H | done]
            |intros (? & ? & ?); first [done | by vm_compute]]).
Qed.

(** C10, as the code has it: for every gap record and every
    [similar_gaps] argument the confidence returned by
    [reason_about_remediation_cost] lies in [0.6499999999999999, 0.9],
    hence in [0, 1].  The sum 0.7 (+ 0.1) (+ 0.1) (- 0.05) is at least 0.65
    in exact arithmetic, but Python computes it in binary64, within 2^-52
    of the exact sum, and 0.7 - 0.05 comes out as 0.6499999999999999: the
    confidence is below 0.65 exactly when no bucket matched, no similar
    gaps were given and the multiplier exceeds 1. *)
Theorem cost_confidence_bounds (w : World) (gap : dict)
    (similar_gaps : option (list dict)) (self : ChainOfThoughtReasoner) :
  cost_inputs_ok gap similar_gaps = true ->
  exists cost conf chain self',
    reason_about_remediation_cost w gap similar_gaps self
    = (Ok (cost, conf, chain), self')
    /\ conf == 0.7 + (if type_matched gap then 0.1 else 0)
               + (if supplied similar_gaps then 0.1 else 0)
               - (if (multiplier_of gap >? 1)%Z then 0.05 else 0)
    /\ let b := cost_confidence_binary64 gap similar_gaps in
       Qabs (b - conf) <= 1 # 2 ^ 52
       /\ 0.6499999999999999 <= b /\ b <= 0.9
       /\ 0 <= b /\ b <= 1
       /\ (b < 0.65
           <-> type_matched gap = false
               /\ supplied similar_gaps = false
               /\ (multiplier_of gap >? 1)%Z = true).
Proof.
  intros Hok.
  destruct (cost_run w gap similar_gaps self Hok) as (chain & Hrun & _).
  eexists _, _, _, _. split; [exact Hrun|].
  unfold cost_confidence_of, cost_confidence_binary64.
  split; [by rewrite cost_confidence_cases, gap_type_matched|].
  destruct (cost_confidence_binary64_cases (gap_type_of gap) similar_gaps
              (multiplier_of gap)) as (Hnear & Hlo & Hhi & Hbelow).
  cbn zeta. rewrite <- gap_type_matched.
  split; [exact Hnear|]. split; [exact Hlo|]. split; [exact Hhi|].
  split; [|split; [|exact Hbelow]].
  - eapply Qle_trans; [|exact Hlo]. by apply Qle_by_bool.
  - eapply Qle_trans; [exact Hhi|]. by apply Qle_by_bool.
Qed.

Lemma cost_confidence_bounds_witness :
  exists cost conf chain self',
    reason_about_remediation_cost Sample.world Sample.pneumatic_gap
      Sample.priced_history Sample.reasoner
    = (Ok (cost, conf, chain), self')
    /\ 0.6499999999999999
       <= cost_confidence_binary64 Sample.pneumatic_gap Sample.priced_history
    /\ cost_confidence_binary64 Sample.pneumatic_gap Sample.priced_history
       <= 0.9.
Proof.
  destruct (cost_confidence_bounds Sample.world Sample.pneumatic_gap
              Sample.priced_history Sample.reasoner)
    as (cost & conf & chain & self' & Hrun & _ & H).
  - vm_compute. reflexivity.
  - cbn zeta in H. destruct H as (_ & Hlo & Hhi & _).
    exists cost, conf, chain, self'. split; [exact Hrun|].
    split; [exact Hlo | exact Hhi].
Defined.

(** The bound 0.65 fails on a gap outside every bucket with two units in
    its description and no similar gaps: the method returns, and the
    confidence it computes, 0.7 - 0.05 in binary64, is below 0.65. *)
Lemma cost_confidence_bound_counterexample :
  exists cost conf chain self',
    reason_about_remediation_cost Sample.world Sample.two_tanks_gap None
      Sample.reasoner
    = (Ok (cost, conf, chain), self')
    /\ conf == 0.7 - 0.05
    /\ cost_confidence_binary64 Sample.two_tanks_gap None
       == 5854679515581644 # 9007199254740992
    /\ cost_confidence_binary64 Sample.two_tanks_gap None < 0.65
    /\ 0.6499999999999999 <= cost_confidence_binary64 Sample.two_tanks_gap None.
Proof.
  eexists _, _, _, _. split; [vm_compute; reflexivity|].
  split; [reflexivity|]. split; [reflexivity|]. split; [reflexivity|].
  by apply Qle_by_bool.
Qed.

(** C4, as the code has it: the confidence of the estimate starts at 0.7
    and receives +0.1 exactly when the gap type matched a bucket, +0.1
    exactly when a non-empty list of similar gaps was passed (whether or
    not any of them carried a cost that was blended into the range), and
    -0.05 exactly when the multiplier exceeds 1; nothing clamps it. *)
Theorem cost_confidence_adjustments (w : World) (gap : dict)
    (similar_gaps : option (list dict)) (self : ChainOfThoughtReasoner) :
  cost_inputs_ok gap similar_gaps = true ->
  exists cost conf chain self',
    reason_about_remediation_cost w gap similar_gaps self
    = (Ok (cost, conf, chain), self')
    /\ conf == 0.7
               + (if type_matched gap then 0.1 else 0)
               + (if supplied similar_gaps then 0.1 else 0)
               - (if (multiplier_of gap >? 1)%Z then 0.05 else 0)
    /\ (history_used similar_gaps = true -> supplied similar_gaps = true)
    /\ final_confidence chain = conf
    /\ last (confidence <$> steps chain) = Some conf.
Proof.
  intros Hok.
  destruct (cost_run w gap similar_gaps self Hok)
    as (chain & Hrun & _ & _ & Hcf & Hfc).
  eexists _, _, _, _. split; [exact Hrun|].
  split; [|split; [|split; [exact Hfc | exact Hcf]]].
  - unfold cost_confidence_of.
    rewrite cost_confidence_cases, gap_type_matched. reflexivity.
  - unfold history_used, historical_costs.
    by destruct (supplied similar_gaps).
Qed.

Lemma cost_confidence_adjustments_witness :
  exists cost conf chain self',
    reason_about_remediation_cost Sample.world Sample.pneumatic_gap
      Sample.priced_history Sample.reasoner
    = (Ok (cost, conf, chain), self')
    /\ conf == 0.85.
Proof.
  destruct (cost_confidence_adjustments Sample.world Sample.pneumatic_gap
              Sample.priced_history Sample.reasoner)
    as (cost & conf & chain & self' & Hrun & Hconf & _).
  - vm_compute. reflexivity.
  - exists cost, conf, chain, self'. split; [exact Hrun|].
    rewrite Hconf. vm_compute. reflexivity.
Defined.

(** One similar gap without a cost: nothing is blended into the range, yet
    the confidence is 0.8, not the 0.7 of the specification's wording. *)
Lemma cost_confidence_counterexample :
  history_used Sample.costless_history = false
  /\ range_of Sample.flare_gap Sample.costless_history
     = base_range_of Sample.flare_gap
  /\ specified_cost_confidence Sample.flare_gap Sample.costless_history == 0.7
  /\ exists cost conf chain self',
       reason_about_remediation_cost Sample.world Sample.flare_gap
         Sample.costless_history Sample.reasoner
       = (Ok (cost, conf, chain), self')
       /\ conf == 0.8
       /\ ~ conf
            == specified_cost_confidence Sample.flare_gap
                 Sample.costless_history.
Proof.
  split; [vm_compute; reflexivity|]. split; [vm_compute; reflexivity|].
  split; [vm_compute; reflexivity|].
  eexists _, _, _, _. split; [vm_compute; reflexivity|].
  split; [reflexivity|]. intros H. vm_compute in H. discriminate H.
Qed.




End CostSpec.

(** ** The trace: the specification *)

Section ChainSpec.

Lemma length_added (cs : list chain_call) :
  length (added cs) = length (List.filter is_add_step cs).
Proof.
  induction cs as [|[] cs IH]; cbn; [done| |done]. by rewrite <- IH.
Qed.

Lemma added_add_steps
    (args : list (ReasoningType * string * Q * option (list string))) :
  added ((fun a => CallAddStep a.1.1.1 a.1.1.2 a.1.2 a.2) <$> args) = args.
Proof.
  induction args as [|[[[ty text] conf] ev] args IH]; [done|].
  cbn. f_equal. apply IH.
Qed.

Lemma to_dict_steps (w : World) (c : ReasoningChain) :
  json_get "steps" (Chain.to_dict w c)
  = Some (JList (Step.to_dict w <$> steps c)).
Proof. reflexivity. Qed.

(** C9: each [add_step] gives the new step the number after the current
    length and appends it; so on a chain as [start_chain] makes it, after
    any sequence of calls, the step numbers are 1..n in creation order and
    [to_dict()["steps"]] has n entries, n the number of [add_step] calls;
    in particular after n [add_step] calls followed by [complete]. *)
Theorem step_numbers_dense (w : World) (task agent quest : string)
    (cs : list chain_call) :
  let chain := run_calls w cs (Chain.new w task agent quest) in
  let n := length (List.filter is_add_step cs) in
  (forall c ty text conf ev,
     exists step,
       Chain.add_step w ty text conf ev c
       = (Ok step, Chain.set_steps (steps c ++ [step]) c)
       /\ step_number step = length (steps c) + 1)
  /\ step_number <$> steps chain = seq 1 n
  /\ (exists l,
        json_get "steps" (Chain.to_dict w chain) = Some (JList l)
        /\ length l = n)
  /\ (forall args answer conf,
        let completed :=
          run_calls w
            (((fun a => CallAddStep a.1.1.1 a.1.1.2 a.1.2 a.2) <$> args)
             ++ [CallComplete answer conf])
            (Chain.new w task agent quest) in
        final_answer completed = Some answer
        /\ step_number <$> steps completed = seq 1 (length args)
        /\ exists l,
             json_get "steps" (Chain.to_dict w completed) = Some (JList l)
             /\ length l = length args).
Proof.
  cbn zeta. split; [|split; [|split]].
  - intros c ty text conf ev. eexists. split; reflexivity.
  - by rewrite step_numbers_run_calls, length_added.
  - eexists. split; [apply to_dict_steps|].
    by rewrite length_fmap, steps_run_calls, length_app, length_imap,
      length_added.
  - intros args answer conf. split; [apply final_run_calls_complete|].
    assert (added (((fun a => CallAddStep a.1.1.1 a.1.1.2 a.1.2 a.2) <$> args)
                   ++ [CallComplete answer conf]) = args) as Hadded.
    { unfold added. rewrite omap_app. cbn. rewrite app_nil_r.
      apply added_add_steps. }
    split.
    + by rewrite step_numbers_run_calls, Hadded.
    + eexists. split; [apply to_dict_steps|].
      by rewrite length_fmap, steps_run_calls, length_app, length_imap, Hadded.
Qed.

End ChainSpec.

(** ** The calibrator: the specification *)

Section CalibratorSpec.

Import Calibrator.

Local Open Scope Q_scope.

Lemma resolve_first_no_match (prediction_id : string) (actual_value : pyval)
    (preds : list prediction) :
  Forall (fun p => pred_id p <> prediction_id) preds ->
  resolve_first prediction_id actual_value preds = preds.
Proof.
  induction 1 as [|p preds Hp _ IH]; [done|]. cbn.
  apply String.eqb_neq in Hp. by rewrite Hp, IH.
Qed.

Lemma resolve_first_match (prediction_id : string) (actual_value : pyval)
    (before : list prediction) (pred : prediction) (after : list prediction) :
  Forall (fun p => pred_id p <> prediction_id) before ->
  pred_id pred = prediction_id ->
  resolve_first prediction_id actual_value (before ++ pred :: after)
  = before ++ resolve actual_value pred :: after.
Proof.
  intros Hbefore Hpred.
  induction Hbefore as [|p before Hp _ IH]; cbn.
  - apply String.eqb_eq in Hpred. by rewrite Hpred.
  - apply String.eqb_neq in Hp. by rewrite Hp, IH.
Qed.

(** C8: [record_outcome] changes the first record with the identifier, and
    only that one, whether or not it was resolved before: it sets [actual]
    and [correct = (predicted == actual)] and keeps the other fields and
    the other records; with no record under the identifier it changes
    nothing and raises nothing. *)
Theorem record_outcome_first_match (prediction_id : string)
    (actual_value : pyval) (self : ConfidenceCalibrator) :
  let self' := record_outcome prediction_id actual_value self in
  calibration_factor self' = calibration_factor self
  /\ (forall before pred after,
        predictions self = before ++ pred :: after ->
        Forall (fun p => pred_id p <> prediction_id) before ->
        pred_id pred = prediction_id ->
        exists pred',
          predictions self' = before ++ pred' :: after
          /\ actual pred' = actual_value
          /\ correct pred' = Some (Py.eq (predicted pred) actual_value)
          /\ pred_id pred' = pred_id pred
          /\ predicted pred' = predicted pred
          /\ pred_confidence pred' = pred_confidence pred
          /\ category pred' = category pred
          /\ pred_timestamp pred' = pred_timestamp pred)
  /\ (Forall (fun p => pred_id p <> prediction_id) (predictions self) ->
      self' = self).
Proof.
  cbn zeta. split; [reflexivity|]. split.
  - intros before pred after Hpreds Hbefore Hpred.
    exists (resolve actual_value pred). unfold record_outcome.
    cbn [predictions]. rewrite Hpreds.
    by rewrite resolve_first_match.
  - intros Hnone. unfold record_outcome.
    rewrite resolve_first_no_match by done. by destruct self.
Qed.

Lemma record_outcome_first_match_witness :
  (exists first second,
     predictions (record_outcome "dup" (VFloat 1) Sample.twice_predicted)
     = [first; second]
       ++ [{| pred_id := "dup";
              predicted := VInt 2;
              pred_confidence := 0.6;
              category := "cost";
              pred_timestamp := "0";
              actual := VNone;
              correct := None |}]
     /\ correct first = None
     /\ actual second = VFloat 1
     /\ correct second = Some true)
  /\ record_outcome "none" VNone Sample.twice_predicted
     = Sample.twice_predicted.
Proof.
  split.
  - destruct (record_outcome_first_match "dup" (VFloat 1) Sample.twice_predicted)
      as (_ & Hfirst & _).
    destruct (Hfirst
                [{| pred_id := "one";
                    predicted := VBool true;
                    pred_confidence := 0.9;
                    category := "relevance";
                    pred_timestamp := "0";
                    actual := VNone;
                    correct := None |}]
                {| pred_id := "dup";
                   predicted := VInt 1;
                   pred_confidence := 0.7;
                   category := "cost";
                   pred_timestamp := "0";
                   actual := VNone;
                   correct := None |}
                [{| pred_id := "dup";
                    predicted := VInt 2;
                    pred_confidence := 0.6;
                    category := "cost";
                    pred_timestamp := "0";
                    actual := VNone;
                    correct := None |}])
      as (pred' & Hpreds & Hact & Hcor & _).
    + vm_compute. reflexivity.
    + repeat constructor. discriminate.
    + reflexivity.
    + eexists _, pred'. split; [exact Hpreds|].
      split; [reflexivity|]. split; [exact Hact | exact Hcor].
  - destruct (record_outcome_first_match "none" VNone Sample.twice_predicted)
      as (_ & _ & Hnone).
    apply Hnone. repeat constructor; discriminate.
Defined.

Lemma sum_nonneg (l : list Q) (acc : Q) :
  0 <= acc -> Forall (fun q => 0 <= q) l -> 0 <= fold_left Qplus l acc.
Proof.
  intros Hacc Hl. revert acc Hacc.
  induction Hl as [|q l Hq _ IH]; intros acc Hacc; [done|].
  cbn. apply IH.
  rewrite <- (Qplus_0_r 0). by apply Qplus_le_compat.
Qed.

Lemma len_nonneg {A} (l : list A) : 0 <= Py.len l.
Proof.
  unfold Py.len. change 0 with (inject_Z 0). rewrite <- Zle_Qle. lia.
Qed.

Lemma len_pos {A} (l : list A) : l <> [] -> 0 < Py.len l.
Proof.
  intros Hl. unfold Py.len. change 0 with (inject_Z 0). rewrite <- Zlt_Qlt.
  destruct l; [done|]. cbn [length]. lia.
Qed.




End CalibratorSpec.

(** * Further properties *)

(** ** Outcomes of chain computations *)

Section Yields.

Context (w : World) (P : chain_call -> Prop).

Lemma yields_ret {A} (R : A -> Prop) (a : A) :
  R a -> yields w P R (mret a).
Proof.
  intros HR c. exists (Ok a), []. split; [apply trace_ret|].
  split; [constructor|]. by intros ? [= <-].
Qed.

Lemma yields_raise {A} (R : A -> Prop) (e : exn) :
  yields w P R (raise e : M ReasoningChain A).
Proof.
  intros c. exists (Raise e), []. split; [apply trace_raise|].
  split; [constructor|]. discriminate.
Qed.

(** A computation that does not touch the chain. *)
Lemma yields_pure {A} (R : A -> Prop) (m : M ReasoningChain A) :
  (forall c, exists r, m c = (r, c) /\ forall a, r = Ok a -> R a) ->
  yields w P R m.
Proof.
  intros Hm c. destruct (Hm c) as (r & Hr & HR).
  exists r, []. split; [by apply trace_pure|]. split; [constructor|done].
Qed.

Lemma yields_this (R : ReasoningChain -> Prop) :
  (forall c, R c) -> yields w P R Chain.this.
Proof.
  intros HR c. exists (Ok c), []. split; [apply trace_this|].
  split; [constructor|]. by intros ? [= <-].
Qed.

Lemma yields_add_step (R : ReasoningStep -> Prop) ty text conf ev :
  P (CallAddStep ty text conf ev) ->
  (forall step, R step) ->
  yields w P R (Chain.add_step w ty text conf ev).
Proof.
  intros HP HR c. eexists _, _. split; [apply trace_add_step|].
  split; [by repeat constructor|]. intros; apply HR.
Qed.

Lemma yields_complete (R : unit -> Prop) answer conf :
  P (CallComplete answer conf) ->
  R tt ->
  yields w P R (Chain.complete w answer conf).
Proof.
  intros HP HR c. eexists _, _. split; [apply trace_complete|].
  split; [by repeat constructor|]. by intros [] _.
Qed.

Lemma yields_bind {A B} (R1 : A -> Prop) (R : B -> Prop)
    (m : M ReasoningChain A) (k : A -> M ReasoningChain B) :
  yields w P R1 m ->
  (forall a, R1 a -> yields w P R (k a)) ->
  yields w P R (m ≫= k).
Proof.
  intros Hm Hk c. destruct (Hm c) as (r & cs1 & Htr & HP & HR).
  destruct r as [a|e].
  - destruct (Hk a (HR a eq_refl) (run_calls w cs1 c))
      as (r & cs2 & Htr2 & HP2 & HR2).
    exists r, (cs1 ++ cs2). split; [by eapply trace_bind|].
    split; [by apply Forall_app|done].
  - exists (Raise e), cs1. split; [by apply trace_bind_raise|].
    split; [done|discriminate].
Qed.

Lemma yields_try {A} (R1 R : A -> Prop) (body handler : M ReasoningChain A) :
  yields w P R1 body ->
  (forall a, R1 a -> R a) ->
  yields w P R handler ->
  yields w P R (try_except body handler).
Proof.
  intros Hb HR Hh c. destruct (Hb c) as (r & cs1 & Htr & HP & HR1).
  destruct r as [a|e].
  - exists (Ok a), cs1. split; [by apply trace_try_ok|].
    split; [done|]. intros ? [= <-]. by apply HR, HR1.
  - destruct (Hh (run_calls w cs1 c)) as (r & cs2 & Htr2 & HP2 & HR2).
    exists r, (cs1 ++ cs2). split; [by eapply trace_try_handler|].
    split; [by apply Forall_app|done].
Qed.

Lemma yields_weaken {A} (R1 R : A -> Prop) (m : M ReasoningChain A) :
  yields w P R1 m -> (forall a, R1 a -> R a) -> yields w P R m.
Proof.
  intros Hm HR c. destruct (Hm c) as (r & cs & Htr & HP & HR1).
  exists r, cs. split; [done|]. split; [done|]. intros a ->. by apply HR, HR1.
Qed.

Lemma yields_lower (v : pyval) :
  yields w P (fun _ => True) (Dyn.lower v).
Proof. apply yields_pure. intros c. destruct v; by eexists. Qed.

Lemma yields_take (n : nat) (v : pyval) :
  yields w P (fun _ => True) (Dyn.take n v).
Proof. apply yields_pure. intros c. destruct v; by eexists. Qed.

Lemma yields_replace_char (a : ascii) (by_ : string) (v : pyval) :
  yields w P (fun _ => True) (Dyn.replace_char a by_ v).
Proof. apply yields_pure. intros c. destruct v; by eexists. Qed.

End Yields.

Section Completes.

Context (w : World).

Lemma yields_step (R : ReasoningStep -> Prop) ty text conf ev :
  in_unit conf ->
  (forall step, R step) ->
  yields w step_ok R (Chain.add_step w ty text conf ev).
Proof. intros Hc HR. by apply yields_add_step. Qed.

Lemma completes_bind {A X} (R1 : A -> Prop) (m : M ReasoningChain A)
    (k : A -> M ReasoningChain (X * Q * ReasoningChain)) :
  yields w step_ok R1 m ->
  (forall a, R1 a -> completes_last w (k a)) ->
  completes_last w (m ≫= k).
Proof.
  intros Hm Hk c. destruct (Hm c) as (r & cs1 & Htr & HP & HR).
  destruct r as [a|e].
  - destruct (Hk a (HR a eq_refl) (run_calls w cs1 c)) as (r & cs2 & Htr2 & H2).
    exists r, (cs1 ++ cs2). split; [by eapply trace_bind|].
    destruct r as [[[x conf] chain]|e].
    + destruct H2 as (-> & Hconf & cs' & answer & -> & Hcs').
      split; [symmetry; apply run_calls_app|]. split; [done|].
      exists (cs1 ++ cs'), answer. split; [by rewrite app_assoc|].
      by apply Forall_app.
    + by apply Forall_app.
  - exists (Raise e), cs1. split; [by apply trace_bind_raise|done].
Qed.

Lemma completes_end {X} (answer : string) (conf : Q) (x : X) :
  in_unit conf ->
  completes_last w
    (Chain.complete w answer conf ≫= fun _ =>
     Chain.this ≫= fun chain => mret (x, conf, chain)).
Proof.
  intros Hconf c.
  exists (Ok (x, conf, run_calls w [CallComplete answer conf] c)),
    [CallComplete answer conf].
  split; [done|]. split; [done|]. split; [done|].
  exists [], answer. split; [done|constructor].
Qed.

(** What a computation that completes last leaves of the chain. *)
Lemma completes_last_raise {X}
    (m : M ReasoningChain (X * Q * ReasoningChain)) (c : ReasoningChain) :
  completes_last w m ->
  exists r cs,
    m c = (r, run_calls w cs c)
    /\ Forall confidence_ok cs
    /\ (forall e, r = Raise e -> Forall (fun c => is_add_step c = true) cs)
    /\ (forall x conf chain, r = Ok (x, conf, chain) ->
         chain = run_calls w cs c /\ in_unit conf
         /\ exists cs' answer,
              cs = cs' ++ [CallComplete answer conf]
              /\ Forall (fun c => is_add_step c = true) cs').
Proof.
  intros Hm. destruct (Hm c) as (r & cs & Htr & H). exists r, cs.
  split; [exact Htr|].
  destruct r as [[[x conf] chain]|e].
  - destruct H as (-> & Hconf & cs' & answer & -> & Hcs').
    split.
    { apply Forall_app. split; [|by apply Forall_singleton].
      eapply Forall_impl; [exact Hcs'|]. by intros ? []. }
    split; [discriminate|]. intros ? ? ? [= <- <- <-].
    split; [done|]. split; [done|]. exists cs', answer. split; [done|].
    eapply Forall_impl; [exact Hcs'|]. by intros ? [].
  - split; [eapply Forall_impl; [exact H|]; by intros ? []|].
    split; [|discriminate]. intros _ _.
    eapply Forall_impl; [exact H|]. by intros ? [].
Qed.

End Completes.

(** Follows a computation whose steps need nothing from the values
    computed before them. *)
Ltac yields_run :=
  repeat lazymatch goal with
    | |- yields _ _ _ (mret _) => apply yields_ret
    | |- yields _ _ _ (raise _) => apply yields_raise
    | |- yields _ _ _ Chain.this => apply yields_this
    | |- yields _ _ _ (Dyn.lower _) => apply yields_lower
    | |- yields _ _ _ (Dyn.take _ _) => apply yields_take
    | |- yields _ _ _ (Dyn.replace_char _ _ _) => apply yields_replace_char
    | |- yields _ step_ok _ (Chain.add_step _ _ _ _ _) =>
        apply yields_step
    | |- yields _ _ _ (Chain.add_step _ _ _ _ _) =>
        apply yields_add_step
    | |- yields _ _ _ (Chain.complete _ _ _) => apply yields_complete
    | |- yields _ _ _ (_ ≫= _) =>
        eapply (yields_bind _ _ (fun _ => True)); [|intros ? _]
    | |- yields _ _ _ (if _ then _ else _) => case_match
    | |- yields _ _ _ (match _ with _ => _ end) => case_match
    end.

(** Follows a computation to the [complete] it ends with. *)
Ltac completes_run :=
  repeat lazymatch goal with
    | |- completes_last _ (Chain.complete _ _ _ ≫= _) => apply completes_end
    | |- completes_last _ (_ ≫= _) =>
        eapply (completes_bind _ (fun _ => True)); [yields_run|intros ? _]
    | |- completes_last _ (if _ then _ else _) => case_match
    | |- completes_last _ (match _ with _ => _ end) => case_match
    end.

(** ** Confidences handed to the chain *)

Section Confidences.

Context (w : World).

Import Reasoner Reading.

Local Open Scope Q_scope.

Lemma in_unit_by_bool (q : Q) :
  Qle_bool 0 q && Qle_bool q 1 = true -> in_unit q.
Proof.
  intros [H0 H1]%andb_prop. split; by apply Qle_bool_iff.
Qed.

Lemma deadline_bucket_confidence (days_until : Z) :
  in_unit (snd (fst (deadline_bucket days_until))).
Proof.
  unfold deadline_bucket. repeat case_match; by apply in_unit_by_bool.
Qed.

Lemma deadline_analysis_yields (deadline : pyval) :
  yields w step_ok (fun r => in_unit (snd r))
    (deadline_analysis w deadline).
Proof.
  unfold deadline_analysis.
  assert (in_unit 0.5) as Hdefault by by apply in_unit_by_bool.
  case_match; [|by apply yields_ret].
  eapply yields_try; [|intros a Ha; exact Ha|by apply yields_ret].
  eapply (yields_bind _ _ (fun _ => True)); [apply yields_replace_char|].
  intros text _.
  eapply (yields_bind _ _ (fun _ => True)).
  { unfold parse_deadline. case_match; [by apply yields_ret|apply yields_raise]. }
  intros deadline_date _. cbn zeta.
  pose proof (deadline_bucket_confidence (days_until_of w deadline_date)) as Hb.
  destruct (deadline_bucket (days_until_of w deadline_date))
    as [[severity conf] deadline_evidence].
  eapply (yields_bind _ _ (fun _ => True)); [by apply yields_step|].
  intros _ _. by apply yields_ret.
Qed.

Lemma enforcement_analysis_yields (regulation_id : string) (gap : dict) :
  yields w step_ok (fun r => in_unit (snd r))
    (enforcement_analysis regulation_id gap).
Proof.
  unfold enforcement_analysis, enforcement_by_keyword, is_priority_program.
  repeat case_match; simplify_eq.
  all: eapply (yields_bind _ _ (fun _ => True));
    [yields_run; done|intros [] _; apply yields_ret; by apply in_unit_by_bool].
Qed.

Lemma final_confidence_in_unit (deadline_confidence enforcement_confidence : Q) :
  in_unit deadline_confidence ->
  in_unit enforcement_confidence ->
  in_unit (final_confidence_of deadline_confidence enforcement_confidence).
Proof.
  intros [] []. unfold final_confidence_of.
  split; [apply Qle_shift_div_l|apply Qle_shift_div_r]; try reflexivity; lra.
Qed.

Lemma severity_body_completes (gap facility : dict) :
  completes_last w (severity_body w gap facility).
Proof.
  unfold severity_body.
  eapply (completes_bind _ (fun _ => True));
    [apply yields_step; [by apply in_unit_by_bool|done]|].
  intros _ _.
  eapply completes_bind; [apply deadline_analysis_yields|].
  intros [deadline_severity deadline_confidence] Hd. cbn [snd] in Hd.
  eapply (completes_bind _ (fun _ => True)); [apply yields_lower|].
  intros regulation_id _.
  eapply completes_bind; [apply enforcement_analysis_yields|].
  intros [enforcement_risk enforcement_confidence] He. cbn [snd] in He.
  pose proof (final_confidence_in_unit _ _ Hd He) as Hf.
  eapply (completes_bind _ (fun _ => True)); [by apply yields_step|].
  intros _ _.
  eapply (completes_bind _ (fun _ => True)).
  { case_match; yields_run; done. }
  intros facility_risk _. cbn zeta.
  completes_run; done.
Qed.

Lemma keyword_confidence_in_unit (found : list string) :
  in_unit (keyword_confidence found).
Proof.
  unfold keyword_confidence, Py.min.
  assert (0 <= Py.len found / 3) as Hge.
  { apply Qle_shift_div_l; [reflexivity|]. rewrite Qmult_0_l. apply len_nonneg. }
  destruct (Py.lt 1.0 _) eqn:Hlt; [by apply in_unit_by_bool|].
  split; [exact Hge|].
  destruct (Qlt_le_dec 1.0 (Py.len found / 3)) as [Hlt'%lt_iff|Hle];
    [congruence|].
  eapply Qle_trans; [exact Hle|]. by apply Qle_by_bool.
Qed.

Lemma cfr_analysis_yields (citation : pyval) :
  yields w step_ok (fun r => in_unit (fst r)) (cfr_analysis citation).
Proof.
  apply yields_pure. intros c. unfold cfr_analysis.
  destruct citation; try by (eexists; split; [reflexivity|discriminate]).
  cbv [mbind M_bind bind ret mret M_ret Dyn.contains].
  repeat case_match; eexists; (split; [reflexivity|]);
    intros ? [= <-]; by apply in_unit_by_bool.
Qed.

Lemma combined_score_in_unit (keyword_conf cfr_relevance : Q) :
  in_unit keyword_conf -> in_unit cfr_relevance ->
  in_unit (combined_score_of keyword_conf cfr_relevance).
Proof. intros [] []. unfold combined_score_of. split; lra. Qed.

Lemma relevance_body_completes (regulation : dict) :
  completes_last w (relevance_body w regulation).
Proof.
  unfold relevance_body.
  eapply (completes_bind _ (fun _ => True)); [apply yields_lower|].
  intros title _.
  eapply (completes_bind _ (fun _ => True)); [apply yields_lower|].
  intros description _. cbn zeta.
  pose proof (keyword_confidence_in_unit
                (found_keywords (title +:+ " " +:+ description))) as Hk.
  eapply (completes_bind _ (fun _ => True));
    [apply yields_step; [by apply in_unit_by_bool|done]|].
  intros _ _.
  eapply (completes_bind _ (fun _ => True)); [by apply yields_step|].
  intros _ _.
  eapply completes_bind; [apply cfr_analysis_yields|].
  intros [cfr_relevance cfr_evidence] Hc. cbn [fst] in Hc.
  pose proof (combined_score_in_unit _ _ Hk Hc) as Hs.
  completes_run; done.
Qed.

Lemma sum_values_yields (acc : Q) (l : list pyval) :
  yields w step_ok (fun _ => True) (sum_values acc l).
Proof.
  apply yields_pure. intros c.
  destruct (forallb is_number l) eqn:Hnum.
  - rewrite sum_values_ok by done. by eexists.
  - rewrite sum_values_raises by done. by eexists.
Qed.

Lemma cost_confidence_in_unit (gap_type : string)
    (similar_gaps : option (list dict)) (multiplier : Z) :
  in_unit (cost_confidence gap_type similar_gaps multiplier).
Proof.
  unfold in_unit. rewrite cost_confidence_cases.
  destruct (negb _), (supplied _), (multiplier >? 1)%Z;
    split; by apply Qle_by_bool.
Qed.

Lemma cost_body_completes (gap : dict) (similar_gaps : option (list dict)) :
  completes_last w (cost_body w gap similar_gaps).
Proof.
  unfold cost_body.
  eapply (completes_bind _ (fun _ => True)); [apply yields_lower|].
  intros gap_title _.
  destruct (identify_gap_type gap_title) as [gap_type base].
  eapply (completes_bind _ (fun _ => True)).
  { apply yields_step; [|done]. case_match; by apply in_unit_by_bool. }
  intros _ _. cbn zeta.
  eapply (completes_bind _ (fun _ => True)); [apply yields_lower|].
  intros description_lower _.
  eapply (completes_bind _ (fun _ => True)).
  { case_match; yields_run; done. }
  intros multiplier _.
  pose proof (cost_confidence_in_unit gap_type similar_gaps multiplier) as Hc.
  eapply (completes_bind _ (fun _ => True)).
  { unfold historical_analysis. repeat case_match; try by apply yields_ret.
    eapply (yields_bind _ _ (fun _ => True)); [apply sum_values_yields|].
    intros total _. cbn zeta. yields_run; done. }
  intros base' _. cbn zeta.
  completes_run; done.
Qed.

End Confidences.

(** ** The chain: completion and rendering *)

Section ChainLife.

Context (w : World).

Local Open Scope Q_scope.

Lemma run_calls_identity (cs : list chain_call) (c : ReasoningChain) :
  task_id (run_calls w cs c) = task_id c
  /\ agent_type (run_calls w cs c) = agent_type c
  /\ question (run_calls w cs c) = question c
  /\ started_at (run_calls w cs c) = started_at c.
Proof.
  revert c. induction cs as [|call cs IH]; intros c; [done|].
  change (run_calls w (call :: cs) c) with (run_calls w cs (run_call w call c)).
  destruct (IH (run_call w call c)) as (-> & -> & -> & ->). by destruct call.
Qed.

Lemma run_calls_snoc (cs : list chain_call) (call : chain_call)
    (c : ReasoningChain) :
  run_calls w (cs ++ [call]) c = run_call w call (run_calls w cs c).
Proof. by rewrite run_calls_app. Qed.

(** The final fields after any calls on a chain not yet completed. *)
Lemma run_calls_final (cs : list chain_call) (c : ReasoningChain) :
  final_answer c = None -> completed_at c = None ->
  final_answer (run_calls w cs c) = fst <$> last_complete cs
  /\ completed_at (run_calls w cs c)
     = (fun _ => utcnow w) <$> last_complete cs
  /\ final_confidence (run_calls w cs c)
     = default (final_confidence c) (snd <$> last_complete cs).
Proof.
  intros Ha Hc. induction cs as [|call cs IH] using rev_ind; [done|].
  rewrite run_calls_snoc. unfold last_complete in *. rewrite omap_app.
  destruct call as [ty text conf ev|answer conf]; cbn.
  - by rewrite app_nil_r.
  - by rewrite last_snoc.
Qed.

Lemma last_complete_none (cs : list chain_call) :
  last_complete cs = None <-> Forall (fun c => is_add_step c = true) cs.
Proof.
  unfold last_complete. induction cs as [|call cs IH] using rev_ind.
  - split; [constructor|done].
  - rewrite omap_app, Forall_app, Forall_singleton.
    destruct call as [ty text conf ev|answer conf]; cbn.
    + rewrite app_nil_r, IH. clear. tauto.
    + rewrite last_snoc. split; [done|]. by intros [_ ?].
Qed.

End ChainLife.

Section ChainCompletion.

Local Open Scope Q_scope.

Lemma run_timed_calls_app (w : World) (cs1 cs2 : list (Z * chain_call))
    (c : ReasoningChain) :
  run_timed_calls w (cs1 ++ cs2) c
  = run_timed_calls w cs2 (run_timed_calls w cs1 c).
Proof. unfold run_timed_calls. apply fold_left_app. Qed.

(** Steps added do not touch the answer, its confidence or the completion
    time. *)
Lemma timed_add_steps_keep_final (w : World) (cs : list (Z * chain_call))
    (c : ReasoningChain) :
  Forall (fun call => is_add_step (snd call) = true) cs ->
  final_answer (run_timed_calls w cs c) = final_answer c
  /\ final_confidence (run_timed_calls w cs c) = final_confidence c
  /\ completed_at (run_timed_calls w cs c) = completed_at c.
Proof.
  intros Hcs. revert c.
  induction Hcs as [|[t call] cs Hcall _ IH]; intros c; [done|].
  change (run_timed_calls w ((t, call) :: cs) c)
    with (run_timed_calls w cs (run_call (at_time t w) call c)).
  destruct (IH (run_call (at_time t w) call c)) as (-> & -> & ->).
  by destruct call.
Qed.

(** The steps after some calls depend on the steps before them only. *)
Lemma timed_steps_ext (w : World) (cs : list (Z * chain_call))
    (c c' : ReasoningChain) :
  steps c = steps c' ->
  steps (run_timed_calls w cs c) = steps (run_timed_calls w cs c').
Proof.
  revert c c'. induction cs as [|[t call] cs IH]; intros c c' Hsteps; [done|].
  change (run_timed_calls w ((t, call) :: cs) c)
    with (run_timed_calls w cs (run_call (at_time t w) call c)).
  change (run_timed_calls w ((t, call) :: cs) c')
    with (run_timed_calls w cs (run_call (at_time t w) call c')).
  apply IH. destruct call as [ty text conf ev|answer conf]; cbn; [|done].
  by rewrite Hsteps.
Qed.

Lemma timed_steps_length (w : World) (cs : list (Z * chain_call))
    (c : ReasoningChain) :
  length (steps (run_timed_calls w cs c))
  = (length (steps c)
     + length (List.filter (fun call => is_add_step (snd call)) cs))%nat.
Proof.
  revert c. induction cs as [|[t call] cs IH]; intros c; [cbn; lia|].
  change (run_timed_calls w ((t, call) :: cs) c)
    with (run_timed_calls w cs (run_call (at_time t w) call c)).
  rewrite IH. destruct call as [ty text conf ev|answer conf]; cbn.
  - rewrite length_app. cbn. lia.
  - done.
Qed.

(** X1: [complete] may be called again and the last call wins.  With every
    call reading the clock for itself: whatever calls came before it, and
    whatever steps are added after it, the final answer and confidence are
    the arguments of the last [complete] and the completion time is the
    instant of that call, not of an earlier one.  Nothing seals the chain:
    the steps are those of all the [add_step] calls, those after the
    [complete] included. *)
Theorem last_complete_wins (w : World) (task agent quest : string)
    (before after : list (Z * chain_call)) (t : Z) (answer : string)
    (conf : Q) :
  Forall (fun call => is_add_step (snd call) = true) after ->
  let new := Chain.new w task agent quest in
  let chain :=
    run_timed_calls w (before ++ (t, CallComplete answer conf) :: after) new in
  final_answer chain = Some answer
  /\ final_confidence chain = conf
  /\ completed_at chain = Some t
  /\ steps chain = steps (run_timed_calls w (before ++ after) new)
  /\ length (steps chain)
     = (length (List.filter (fun call => is_add_step (snd call)) before)
        + length after)%nat.
Proof.
  intros Hafter. cbn zeta.
  rewrite !run_timed_calls_app.
  set (opened := run_timed_calls w before (Chain.new w task agent quest)).
  change (run_timed_calls w ((t, CallComplete answer conf) :: after) opened)
    with (run_timed_calls w after
            (run_call (at_time t w) (CallComplete answer conf) opened)).
  destruct (timed_add_steps_keep_final w after
              (run_call (at_time t w) (CallComplete answer conf) opened)
              Hafter) as (-> & -> & ->).
  do 3 (split; [reflexivity|]).
  split; [by apply timed_steps_ext|].
  rewrite timed_steps_length.
  change (steps (run_call (at_time t w) (CallComplete answer conf) opened))
    with (steps opened).
  subst opened. rewrite timed_steps_length.
  cbn [steps Chain.new length]. rewrite Nat.add_0_l. f_equal. clear -Hafter.
  induction Hafter as [|c after Hc _ IH]; [done|]. cbn. by rewrite Hc, <- IH.
Qed.

Lemma last_complete_wins_witness :
  let chain :=
    run_timed_calls Sample.world
      ([(5, CallComplete "first" 0.5);
        (6, CallAddStep OBSERVATION "seen" 0.9 None)]
       ++ (9, CallComplete "second" 0.7)
       :: [(12, CallAddStep VALIDATION "late" 0.4 None)])%Z
      (Chain.new Sample.world "t" "a" "q") in
  final_answer chain = Some "second"
  /\ completed_at chain = Some 9%Z
  /\ length (steps chain) = 2%nat.
Proof.
  pose proof (last_complete_wins Sample.world "t" "a" "q"
    [(5, CallComplete "first" 0.5);
     (6, CallAddStep OBSERVATION "seen" 0.9 None)]%Z
    [(12, CallAddStep VALIDATION "late" 0.4 None)]%Z 9 "second" 0.7) as H.
  cbn zeta in H. intros chain.
  destruct H as (Ha & _ & Hc & _ & Hl); [by repeat constructor|].
  split; [exact Ha|]. split; [exact Hc|exact Hl].
Defined.

(** X2: completion is atomic.  After any sequence of calls on a new chain
    the final answer and the completion time are set together, exactly when
    [complete] was called at least once; until then the final confidence
    is 0.0, and [to_dict] shows "final_answer", "completed_at" and
    "duration_ms" as null, all three or none. *)
Theorem completion_is_atomic (w : World) (task agent quest : string)
    (cs : list chain_call) :
  let chain := run_calls w cs (Chain.new w task agent quest) in
  let d := Chain.to_dict w chain in
  let never_completed := Forall (fun c => is_add_step c = true) cs in
  (final_answer chain = None <-> never_completed)
  /\ (completed_at chain = None <-> never_completed)
  /\ (never_completed -> final_confidence chain = 0)
  /\ (is_null (json_get "final_answer" d) <-> never_completed)
  /\ (is_null (json_get "completed_at" d) <-> never_completed)
  /\ (is_null (json_get "duration_ms" d) <-> never_completed).
Proof.
  cbn zeta. rewrite <- last_complete_none.
  destruct (run_calls_final w cs (Chain.new w task agent quest)) as (Ha & Hc & Hf);
    [done..|].
  unfold is_null, json_get, Chain.to_dict. cbn [List.find fst snd String.eqb
    Ascii.eqb Bool.eqb fmap option_fmap option_map].
  rewrite Ha, Hc, Hf.
  destruct (last_complete cs) as [[answer conf]|]; cbn; repeat split; done.
Qed.

End ChainCompletion.

(** ** What a method leaves in the reasoner *)

Section Bookkeeping.

Context (w : World).

Import Reasoner Reading.

Local Open Scope Q_scope.

Lemma confidences_in_unit (cs : list chain_call) (c : ReasoningChain) :
  Forall confidence_ok cs ->
  Forall in_unit (confidence <$> steps c) ->
  in_unit (final_confidence c) ->
  Forall in_unit (confidence <$> steps (run_calls w cs c))
  /\ in_unit (final_confidence (run_calls w cs c)).
Proof.
  intros Hcs. revert c. induction Hcs as [|call cs Hcall _ IH]; intros c Hs Hf.
  - done.
  - change (run_calls w (call :: cs) c)
      with (run_calls w cs (run_call w call c)).
    apply IH; destruct call as [ty text conf ev|answer conf]; cbn; try done.
    rewrite fmap_app, Forall_app. split; [done|]. cbn. by constructor.
Qed.

(** What any calls leave of a new chain. *)
Lemma new_chain_run_calls (task agent quest : string) (cs : list chain_call) :
  Forall confidence_ok cs ->
  let chain := run_calls w cs (Chain.new w task agent quest) in
  task_id chain = task
  /\ agent_type chain = agent
  /\ question chain = quest
  /\ started_at chain = utcnow w
  /\ step_number <$> steps chain = seq 1 (length (steps chain))
  /\ Forall in_unit (confidence <$> steps chain)
  /\ in_unit (final_confidence chain).
Proof.
  intros Hcs chain. subst chain.
  destruct (run_calls_identity w cs (Chain.new w task agent quest))
    as (-> & -> & -> & ->).
  destruct (confidences_in_unit cs (Chain.new w task agent quest) Hcs)
    as [Hs Hf]; [constructor|by apply in_unit_by_bool|].
  do 4 (split; [done|]). split; [|done].
  rewrite step_numbers_run_calls, steps_run_calls, length_app, length_imap.
  done.
Qed.

(** A method that opens a chain and completes it last, seen from the
    reasoner. *)
Lemma with_new_chain_completes {X} (task quest : string)
    (body : M ReasoningChain (X * Q * ReasoningChain))
    (self : ChainOfThoughtReasoner) :
  completes_last w body ->
  exists r chain,
    with_new_chain w task quest body self
    = (r, set_chains (chains self ++ [chain]) self)
    /\ (task_id chain = task /\ agent_type chain = self_agent_type self
        /\ question chain = quest /\ started_at chain = utcnow w)
    /\ step_number <$> steps chain = seq 1 (length (steps chain))
    /\ (Forall in_unit (confidence <$> steps chain)
        /\ in_unit (final_confidence chain))
    /\ (forall e, r = Raise e ->
        final_answer chain = None /\ completed_at chain = None)
    /\ (forall x conf returned, r = Ok (x, conf, returned) ->
        returned = chain
        /\ final_confidence chain = conf
        /\ final_answer chain <> None
        /\ completed_at chain = Some (utcnow w)).
Proof.
  intros Hbody. rewrite with_new_chain_run.
  set (new := Chain.new w task (self_agent_type self) quest).
  destruct (completes_last_raise w body new Hbody)
    as (r & cs & Hrun & Hcs & Hraise & Hok).
  exists r, (run_calls w cs new). rewrite Hrun. split; [done|].
  destruct (new_chain_run_calls task (self_agent_type self) quest cs Hcs)
    as (Ht & Ha & Hq & Hs & Hn & Hc & Hf).
  split; [done|]. split; [done|]. split; [done|].
  destruct (run_calls_final w cs new) as (Hfa & Hca & _); [done..|].
  split.
  - intros e He. apply Hraise, last_complete_none in He.
    by rewrite Hfa, Hca, He.
  - intros x conf returned Hr.
    destruct (Hok x conf returned Hr) as (-> & _ & cs' & answer & -> & Hcs').
    destruct (final_run_calls_complete w cs' answer conf new)
      as (Hfa' & Hfc' & Hca').
    split; [done|]. split; [done|]. split; [|done].
    fold new in Hfa'. by rewrite Hfa'.
Qed.

(** X3: [reason_about_gap_severity], on every gap and whether it returns
    or raises, appends exactly one chain to [self.chains] and leaves the
    earlier ones as they were.  The chain is named "sev_" and the gap's id,
    carries the reasoner's agent type, has steps numbered 1, 2, ... and
    only confidences within [0, 1].  When the method raises, the chain stays
    in the list without an answer; when it returns, the chain returned is
    that one, completed with the confidence returned. *)
Theorem gap_severity_leaves_chain (gap facility : dict)
    (self : ChainOfThoughtReasoner) :
  exists r chain,
    reason_about_gap_severity w gap facility self
    = (r, set_chains (chains self ++ [chain]) self)
    /\ (task_id chain
        = "sev_" +:+ Py.str w (Py.get_or gap "id" (VStr "unknown"))
        /\ agent_type chain = self_agent_type self
        /\ question chain
           = "What is the severity of gap: "
               +:+ Py.str w (Py.get_or gap "title" (VStr "Unknown")) +:+ "?"
        /\ started_at chain = utcnow w)
    /\ step_number <$> steps chain = seq 1 (length (steps chain))
    /\ (Forall in_unit (confidence <$> steps chain)
        /\ in_unit (final_confidence chain))
    /\ (forall e, r = Raise e ->
        final_answer chain = None /\ completed_at chain = None)
    /\ (forall severity conf returned, r = Ok (severity, conf, returned) ->
        returned = chain
        /\ final_confidence chain = conf
        /\ final_answer chain <> None
        /\ completed_at chain = Some (utcnow w)).
Proof.
  apply with_new_chain_completes, severity_body_completes.
Qed.

(** X4: [reason_about_regulation_relevance], on every regulation and
    whether it returns or raises, appends exactly one chain to
    [self.chains] and leaves the earlier ones as they were.  The chain is
    named "rel_" and the regulation's id, has steps numbered 1, 2, ... and
    only confidences within [0, 1].  When the method raises, the chain stays
    in the list without an answer; when it returns, the chain returned is
    that one, completed with the score returned. *)
Theorem relevance_leaves_chain (regulation : dict) (target_industry : string)
    (self : ChainOfThoughtReasoner) :
  exists r chain,
    reason_about_regulation_relevance w regulation target_industry self
    = (r, set_chains (chains self ++ [chain]) self)
    /\ (task_id chain
        = "rel_" +:+ Py.str w (Py.get_or regulation "id" (VStr "unknown"))
        /\ agent_type chain = self_agent_type self
        /\ question chain
           = "Is '" +:+ Py.str w (Py.get_or regulation "title" (VStr "Unknown"))
               +:+ "' relevant to " +:+ target_industry +:+ "?"
        /\ started_at chain = utcnow w)
    /\ step_number <$> steps chain = seq 1 (length (steps chain))
    /\ (Forall in_unit (confidence <$> steps chain)
        /\ in_unit (final_confidence chain))
    /\ (forall e, r = Raise e ->
        final_answer chain = None /\ completed_at chain = None)
    /\ (forall relevant score returned, r = Ok (relevant, score, returned) ->
        returned = chain
        /\ final_confidence chain = score
        /\ final_answer chain <> None
        /\ completed_at chain = Some (utcnow w)).
Proof.
  apply with_new_chain_completes, relevance_body_completes.
Qed.

(** X5: [reason_about_remediation_cost], on every gap and history and
    whether it returns or raises, appends exactly one chain to
    [self.chains] and leaves the earlier ones as they were.  The chain is
    named "cost_" and the gap's id, has steps numbered 1, 2, ... and only
    confidences within [0, 1].  When the method raises, the chain stays in
    the list without an answer; when it returns, the chain returned is that
    one, completed with the confidence returned. *)
Theorem remediation_cost_leaves_chain (gap : dict)
    (similar_gaps : option (list dict)) (self : ChainOfThoughtReasoner) :
  exists r chain,
    reason_about_remediation_cost w gap similar_gaps self
    = (r, set_chains (chains self ++ [chain]) self)
    /\ (task_id chain
        = "cost_" +:+ Py.str w (Py.get_or gap "id" (VStr "unknown"))
        /\ agent_type chain = self_agent_type self
        /\ question chain
           = "What is the estimated remediation cost for: "
               +:+ Py.str w (Py.get_or gap "title" (VStr "Unknown")) +:+ "?"
        /\ started_at chain = utcnow w)
    /\ step_number <$> steps chain = seq 1 (length (steps chain))
    /\ (Forall in_unit (confidence <$> steps chain)
        /\ in_unit (final_confidence chain))
    /\ (forall e, r = Raise e ->
        final_answer chain = None /\ completed_at chain = None)
    /\ (forall cost conf returned, r = Ok (cost, conf, returned) ->
        returned = chain
        /\ final_confidence chain = conf
        /\ final_answer chain <> None
        /\ completed_at chain = Some (utcnow w)).
Proof.
  apply with_new_chain_completes, cost_body_completes.
Qed.

End Bookkeeping.

(** ** Which regulations are relevant *)

Section RelevanceTable.

Import Reasoner Reading.

Local Open Scope Q_scope.

Lemma keyword_confidence_small (found : list string) :
  (length found <= 3)%nat ->
  keyword_confidence found == Py.len found / 3.
Proof.
  intros Hlen. unfold keyword_confidence, Py.min.
  destruct (Py.lt 1.0 _) eqn:Hlt; [|reflexivity].
  apply lt_iff in Hlt. unfold Py.len in *.
  assert (inject_Z (Z.of_nat (length found)) / 3 <= 1) as Hle.
  { apply Qle_shift_div_r; [reflexivity|].
    change (1 * 3) with (inject_Z 3). rewrite <- Zle_Qle. lia. }
  exfalso. apply (Qlt_irrefl 1.0).
  eapply Qlt_le_trans; [exact Hlt|].
  eapply Qle_trans; [exact Hle|]. by apply Qle_by_bool.
Qed.

(** The score by the number of keywords matched: 0.2 a keyword, at most
    0.6. *)
Lemma combined_score_by_count (regulation : dict) :
  let n := length (matched_keywords regulation) in
  combined_score regulation
  == (if (3 <=? n)%nat then 0.6 else inject_Z (Z.of_nat n) * 0.2)
     + cfr_relevance_of regulation * 0.4.
Proof.
  cbn zeta. unfold combined_score, combined_score_of, keyword_confidence_of.
  destruct (Nat.leb_spec 3 (length (matched_keywords regulation))) as [Hge|Hlt].
  - rewrite (keyword_confidence_saturates _ Hge). reflexivity.
  - rewrite keyword_confidence_small by lia. unfold Py.len. field.
Qed.

(** X6: the decision of [reason_about_regulation_relevance] as a table.
    With n keywords matched in the title and description, the regulation
    is relevant exactly when n >= 2, or n = 1 and the citation holds one of
    "40 CFR 60", "40 CFR 63", "40 CFR 98", or n = 0 and the citation holds
    "40 CFR 60".  A relevant regulation gets the VALIDATION step (manual
    review) exactly when that is all there is: two keywords and no marker,
    one keyword and a first marker other than "40 CFR 60", or no keyword
    and "40 CFR 60". *)
Theorem relevance_decision_table (w : World) (regulation : dict)
    (target_industry : string) (self : ChainOfThoughtReasoner) :
  relevance_inputs_ok regulation = true ->
  exists relevant score chain self',
    reason_about_regulation_relevance w regulation target_industry self
    = (Ok (relevant, score, chain), self')
    /\ let n := length (matched_keywords regulation) in
       let cites marker := Text.contains marker (citation_of regulation) in
       let part60 := cites "40 CFR 60" in
       let other := negb part60 && (cites "40 CFR 63" || cites "40 CFR 98") in
       (relevant = true
        <-> (2 <= n)%nat
            \/ (n = 1%nat /\ (part60 || other) = true)
            \/ (n = 0%nat /\ part60 = true))
       /\ (VALIDATION ∈ step_type <$> steps chain
           <-> (n = 2%nat /\ (part60 || other) = false)
               \/ (n = 1%nat /\ other = true)
               \/ (n = 0%nat /\ part60 = true)).
Proof.
  intros Hok.
  destruct (relevance_run w regulation target_industry self Hok)
    as (chain & Hrun & Hty & _).
  eexists _, _, _, _. split; [exact Hrun|]. cbn zeta.
  assert (VALIDATION ∈ step_type <$> steps chain
          <-> validation_step_fires regulation = true) as ->.
  { rewrite Hty. unfold relevance_step_types.
    destruct (citation_step_fires regulation),
      (validation_step_fires regulation); cbn;
      (split; [intros Hin | intros Hb; first [discriminate Hb | repeat constructor]]);
      try done;
      repeat (apply elem_of_cons in Hin as [Hin|Hin]; [discriminate Hin|]);
      by apply elem_of_nil in Hin. }
  unfold validation_step_fires, is_relevant.
  rewrite andb_true_iff, !gt_iff, lt_iff.
  pose proof (combined_score_by_count regulation) as Hscore. cbn zeta in Hscore.
  rewrite Hscore. clear Hscore. unfold cfr_relevance_of.
  destruct (length (matched_keywords regulation)) as [|[|[|n]]];
    destruct (Text.contains "40 CFR 60" (citation_of regulation)),
      (Text.contains "40 CFR 63" (citation_of regulation)),
      (Text.contains "40 CFR 98" (citation_of regulation));
    cbn [Nat.leb negb andb orb];
    (split; [split; [intros H|intros H]|split; [intros H|intros H]]);
    first [ reflexivity
          | (left; lia) | (right; left; split; [lia|reflexivity])
          | (right; right; split; [lia|reflexivity])
          | (left; split; [lia|reflexivity])
          | (split; reflexivity)
          | (exfalso; vm_compute in H; discriminate H)
          | (exfalso; destruct H as [H1 H2]; vm_compute in H1, H2;
             first [discriminate H1|discriminate H2])
          | (exfalso; destruct H as [H|[H|H]]; first [lia | destruct H; first [lia|discriminate]])
          | idtac ].
Qed.

End RelevanceTable.

(** ** Fields of the wrong type *)

Section Raises.

Import Reasoner Reading.

Local Open Scope Q_scope.

(** X7: [reason_about_regulation_relevance] raises exactly on a record that
    holds something other than a string under "title", "description" or
    "citation" (a missing key is fine, a key set to None is not).  For the
    title or the description it raises AttributeError before any step is
    added; for the citation it raises TypeError after the first two steps.
    Either way the chain it opened stays in [self.chains], without an
    answer. *)
Theorem relevance_raises (w : World) (regulation : dict)
    (target_industry : string) (self : ChainOfThoughtReasoner) :
  relevance_inputs_ok regulation = false ->
  let text_ok :=
    str_or_missing regulation "title"
    && str_or_missing regulation "description" in
  exists chain,
    reason_about_regulation_relevance w regulation target_industry self
    = (Raise (if text_ok then TypeError else AttributeError),
       set_chains (chains self ++ [chain]) self)
    /\ step_type <$> steps chain
       = (if text_ok then [OBSERVATION; ANALYSIS] else [])
    /\ final_answer chain = None
    /\ completed_at chain = None.
Proof.
  intros Hbad. cbn zeta. unfold reason_about_regulation_relevance.
  rewrite with_new_chain_run. unfold relevance_inputs_ok in Hbad.
  match goal with
  | |- context [relevance_body w regulation ?c] => set (new := c)
  end.
  assert (exists cs,
    trace w (relevance_body w regulation) new
      (Raise (if str_or_missing regulation "title"
                 && str_or_missing regulation "description"
              then TypeError else AttributeError)) cs
    /\ added_types cs
       = (if str_or_missing regulation "title"
             && str_or_missing regulation "description"
          then [OBSERVATION; ANALYSIS] else [])
    /\ last_complete cs = None) as (cs & Htr & Hty & Hlast).
  { unfold relevance_body.
    destruct (str_or_missing regulation "title") eqn:Ht.
    2: { exists []. split; [|done].
         apply trace_bind_raise, trace_pure. by apply lower_field_raises. }
    rewrite (lower_field _ _ Ht).
    destruct (str_or_missing regulation "description") eqn:Hd.
    2: { exists []. split; [|done].
         eapply (trace_bind _ _ _ _ _ [] _ []); [apply trace_ret|]. cbn beta.
         apply trace_bind_raise, trace_pure. by apply lower_field_raises. }
    rewrite (lower_field _ _ Hd). cbn in Hbad. cbn [andb].
    eexists. split.
    - eapply trace_bind; [apply trace_ret|]. cbn beta.
      eapply trace_bind; [apply trace_ret|]. cbn beta zeta.
      eapply trace_bind; [apply trace_add_step|]. cbn beta.
      eapply trace_bind; [apply trace_add_step|]. cbn beta.
      apply trace_bind_raise, trace_pure.
      unfold str_or_missing, Py.get_or in *.
      destruct (regulation !! "citation") as [[]|]; try discriminate;
        reflexivity.
    - done. }
  unfold trace in Htr. rewrite Htr. eexists. split; [reflexivity|].
  cbn [fst snd].
  split; [by rewrite step_types_run_calls|].
  destruct (run_calls_final w cs new) as (Hfa & Hca & _); [done..|].
  by rewrite Hfa, Hca, Hlast.
Qed.

End Raises.

Section RaisesMore.

Import Reasoner Reading.

Local Open Scope Q_scope.

(** A computation that completes last leaves no answer when it raises. *)
Lemma raise_leaves_unanswered {X} (w : World)
    (body : M ReasoningChain (X * Q * ReasoningChain))
    (c c' : ReasoningChain) (e : exn) :
  completes_last w body ->
  body c = (Raise e, c') ->
  final_answer c = None -> completed_at c = None ->
  final_answer c' = None /\ completed_at c' = None.
Proof.
  intros Hbody Hrun Ha Hc.
  destruct (completes_last_raise w body c Hbody)
    as (r & cs & Hrun' & _ & Hraise & _).
  rewrite Hrun in Hrun'. injection Hrun' as <- ->.
  specialize (Hraise e eq_refl). apply last_complete_none in Hraise.
  destruct (run_calls_final w cs c Ha Hc) as (Hfa & Hca & _).
  by rewrite Hfa, Hca, Hraise.
Qed.

(** X8: [reason_about_gap_severity] raises exactly when "regulation_id"
    holds something other than a string, or "title" does and the regulation
    id does not contain "oooo" (then the title is never read).  It raises
    AttributeError after the observation step and, for a deadline that
    parses, the deadline step; the chain stays in [self.chains] with these
    steps and without an answer. *)
Theorem gap_severity_raises (w : World) (gap facility : dict)
    (self : ChainOfThoughtReasoner) :
  severity_inputs_ok gap = false ->
  exists chain,
    reason_about_gap_severity w gap facility self
    = (Raise AttributeError, set_chains (chains self ++ [chain]) self)
    /\ step_type <$> steps chain
       = [OBSERVATION]
         ++ match deadline_days w (Py.get gap "regulatory_deadline") with
            | Some _ => [ANALYSIS]
            | None => []
            end
    /\ final_answer chain = None
    /\ completed_at chain = None.
Proof.
  intros Hbad. unfold reason_about_gap_severity.
  rewrite with_new_chain_run.
  match goal with
  | |- context [severity_body w gap facility ?c] => set (new := c)
  end.
  destruct (deadline_analysis_trace w (Py.get gap "regulatory_deadline"))
    as (cs2 & Hd & Hty2 & _).
  assert (exists cs,
    trace w (severity_body w gap facility) new (Raise AttributeError) cs
    /\ added_types cs
       = [OBSERVATION]
         ++ match deadline_days w (Py.get gap "regulatory_deadline") with
            | Some _ => [ANALYSIS]
            | None => []
            end) as (cs & Htr & Hty).
  { destruct (deadline_factor w (Py.get gap "regulatory_deadline"))
      as [dsev dconf].
    eexists. split.
    - unfold severity_body.
      eapply trace_bind; [apply trace_add_step|]. cbn beta.
      eapply trace_bind; [apply Hd|]. cbn beta iota.
      unfold severity_inputs_ok in Hbad.
      destruct (str_or_missing gap "regulation_id") eqn:Hr.
      + rewrite (lower_field _ _ Hr).
        eapply (trace_bind _ _ _ _ _ [] _ []); [apply trace_ret|]. cbn beta.
        apply trace_bind_raise, trace_pure.
        unfold enforcement_analysis, is_priority_program.
        destruct (enforcement_by_keyword _) as [risk conf].
        cbn in Hbad. apply orb_false_elim in Hbad as [Ho Ht].
        unfold regulation_id_of in Ho. rewrite Ho.
        unfold mbind at 1, M_bind, bind. unfold mbind, M_bind, bind.
        by rewrite (lower_field_raises _ _ _ Ht).
      + apply trace_bind_raise, trace_pure. by apply lower_field_raises.
    - destruct (str_or_missing gap "regulation_id");
        rewrite !added_types_app, Hty2; cbn; by rewrite ?app_nil_r. }
  unfold trace in Htr.
  destruct (raise_leaves_unanswered w _ _ _ _
              (severity_body_completes w gap facility) Htr) as [Hfa Hca];
    [done..|].
  rewrite Htr. eexists. split; [reflexivity|]. cbn [fst snd].
  split; [by rewrite step_types_run_calls|done].
Qed.

(** X9: [reason_about_remediation_cost] raises exactly when "title" or
    "description" holds something other than a string, or a cost found in
    the similar gaps is not a number.  A bad title raises AttributeError
    before any step; a bad description raises it after the observation
    step; a bad historical cost raises TypeError after the observation
    step and, when the description states a quantity, the quantity step.
    The chain stays in [self.chains] with these steps and without an
    answer. *)
Theorem remediation_cost_raises (w : World) (gap : dict)
    (similar_gaps : option (list dict)) (self : ChainOfThoughtReasoner) :
  cost_inputs_ok gap similar_gaps = false ->
  let title_ok := str_or_missing gap "title" in
  let description_ok := str_or_missing gap "description" in
  exists chain,
    reason_about_remediation_cost w gap similar_gaps self
    = (Raise (if title_ok && description_ok then TypeError
              else AttributeError),
       set_chains (chains self ++ [chain]) self)
    /\ step_type <$> steps chain
       = (if negb title_ok then []
          else if negb description_ok then [OBSERVATION]
          else [OBSERVATION]
               ++ match quantity_of gap with
                  | Some _ => [ANALYSIS]
                  | None => []
                  end)
    /\ final_answer chain = None
    /\ completed_at chain = None.
Proof.
  intros Hbad. cbn zeta. unfold reason_about_remediation_cost.
  rewrite with_new_chain_run.
  match goal with
  | |- context [cost_body w gap similar_gaps ?c] => set (new := c)
  end.
  unfold cost_inputs_ok in Hbad.
  assert (exists cs,
    trace w (cost_body w gap similar_gaps) new
      (Raise (if str_or_missing gap "title"
                 && str_or_missing gap "description"
              then TypeError else AttributeError)) cs
    /\ added_types cs
       = (if negb (str_or_missing gap "title") then []
          else if negb (str_or_missing gap "description") then [OBSERVATION]
          else [OBSERVATION]
               ++ match quantity_of gap with
                  | Some _ => [ANALYSIS]
                  | None => []
                  end)) as (cs & Htr & Hty).
  { unfold cost_body.
    destruct (str_or_missing gap "title") eqn:Ht.
    2: { exists []. split; [|done].
         apply trace_bind_raise, trace_pure. by apply lower_field_raises. }
    rewrite (lower_field _ _ Ht).
    destruct (identify_gap_type (Text.lower (str_field gap "title" "")))
      as [gap_type base] eqn:Hid.
    destruct (str_or_missing gap "description") eqn:Hd.
    2: { eexists. split.
         - eapply (trace_bind _ _ _ _ _ [] _ _); [apply trace_ret|]. cbn beta.
           rewrite Hid.
           eapply (trace_bind _ _ _ _ _ _ _ []); [apply trace_add_step|].
           cbn beta zeta.
           apply trace_bind_raise, trace_pure. by apply lower_field_raises.
         - done. }
    rewrite (lower_field _ _ Hd). cbn in Hbad. cbn [andb negb].
    unfold quantity_of, description_of.
    destruct (quantity_multiplier (Text.lower (str_field gap "description" "")))
      as [n|] eqn:Hq.
    - eexists. split.
      + eapply (trace_bind _ _ _ _ _ [] _ _); [apply trace_ret|]. cbn beta.
        rewrite Hid.
        eapply trace_bind; [apply trace_add_step|]. cbn beta zeta.
        eapply (trace_bind _ _ _ _ _ [] _ _); [apply trace_ret|]. cbn beta.
        rewrite Hq, (take_field _ _ _ Hd).
        eapply (trace_bind _ _ _ _ _ _ _ []); [trace_run|]. cbn beta.
        apply trace_bind_raise, trace_pure.
        by apply historical_analysis_raises.
      + done.
    - eexists. split.
      + eapply (trace_bind _ _ _ _ _ [] _ _); [apply trace_ret|]. cbn beta.
        rewrite Hid.
        eapply trace_bind; [apply trace_add_step|]. cbn beta zeta.
        eapply (trace_bind _ _ _ _ _ [] _ _); [apply trace_ret|]. cbn beta.
        rewrite Hq.
        eapply (trace_bind _ _ _ _ _ _ _ []); [trace_run|]. cbn beta.
        apply trace_bind_raise, trace_pure.
        by apply historical_analysis_raises.
      + done. }
  unfold trace in Htr.
  destruct (raise_leaves_unanswered w _ _ _ _
              (cost_body_completes w gap similar_gaps) Htr) as [Hfa Hca];
    [done..|].
  rewrite Htr. eexists. split; [reflexivity|]. cbn [fst snd].
  split; [by rewrite step_types_run_calls|done].
Qed.

End RaisesMore.

(** ** The severity by its three factors *)

Section SeverityTable.

Import Reasoner Reading.

Local Open Scope Q_scope.

(** X10: the severity [reason_about_gap_severity] returns, as a table of
    its inputs.  With d the whole days to the deadline, "enforced" meaning
    a priority program or an enforcement keyword in the regulation id, and
    "major" a major-source facility: the severity is "high" when d < 30
    (a passed deadline included), when d < 90 and the gap is enforced or
    major, and when d < 180 and it is both; otherwise, and always without a
    readable deadline or with 180 days or more, it is "medium". *)
Theorem gap_severity_table (w : World) (gap facility : dict)
    (self : ChainOfThoughtReasoner) :
  severity_inputs_ok gap = true ->
  exists severity conf chain self',
    reason_about_gap_severity w gap facility self
    = (Ok (severity, conf, chain), self')
    /\ let enforced :=
         priority gap
         || existsb (fun kw => Text.contains kw (regulation_id_of gap))
              enforcement_keywords in
       let major := is_major_source facility in
       severity
       = match deadline_days w (Py.get gap "regulatory_deadline") with
         | Some d =>
             if (d <? 30)%Z then "high"
             else if (d <? 90)%Z then
               if enforced || major then "high" else "medium"
             else if (d <? 180)%Z then
               if enforced && major then "high" else "medium"
             else "medium"
         | None => "medium"
         end.
Proof.
  intros Hok.
  destruct (gap_severity_run w gap facility self Hok) as (chain & Hrun & _).
  eexists _, _, _, _. split; [exact Hrun|]. cbn zeta.
  unfold severity_of, severity_factors, deadline_factor, enforcement_factor,
    enforcement_by_keyword, facility_risk, deadline_bucket.
  destruct (deadline_days w (Py.get gap "regulatory_deadline")) as [d|];
    [destruct (Z.ltb_spec d 0), (Z.ltb_spec d 30), (Z.ltb_spec d 90),
       (Z.ltb_spec d 180); try lia|];
    destruct (priority gap),
      (existsb (fun kw => Text.contains kw (regulation_id_of gap))
         enforcement_keywords),
      (is_major_source facility); reflexivity.
Qed.

(** The bucket of a deadline by the instant it names. *)
Lemma deadline_bucket_by_instant (w : World) (t : Z) :
  let now := utcnow w in
  let day := microseconds_per_day in
  snd (fst (deadline_bucket (days_until_of w t)))
  = (if (t <? now)%Z then 0.95
     else if (t <? now + 30 * day)%Z then 0.9
     else if (t <? now + 90 * day)%Z then 0.8
     else if (t <? now + 180 * day)%Z then 0.7
     else 0.6).
Proof.
  cbn zeta. unfold deadline_bucket, days_until_of, microseconds_per_day.
  pose proof (Z.div_mod (t - utcnow w) 86400000000 ltac:(lia)) as Hdm.
  pose proof (Z.mod_pos_bound (t - utcnow w) 86400000000 ltac:(lia)) as Hm.
  repeat match goal with
         | |- context [(?a <? ?b)%Z] => destruct (Z.ltb_spec a b)
         end; first [reflexivity | exfalso; lia].
Qed.

(** X11: the deadline is bucketed by whole days rounded down, so by the
    instant it names: a deadline before the present moment, by however
    little, counts as passed (confidence 0.95); one less than 30 days ahead
    is critical (0.9), less than 90 days high (0.8), less than 180 days
    medium (0.7), and from 180 days on low (0.6).  The second step of the
    chain carries that confidence. *)
Theorem deadline_bucketed_by_instant (w : World) (gap facility : dict)
    (self : ChainOfThoughtReasoner) (s : string) (t : Z) :
  gap !! "regulatory_deadline" = Some (VStr s) ->
  s <> "" ->
  fromisoformat w (Text.replace_char "Z" "+00:00" s) = Some t ->
  severity_inputs_ok gap = true ->
  let now := utcnow w in
  let day := microseconds_per_day in
  exists severity conf chain self',
    reason_about_gap_severity w gap facility self
    = (Ok (severity, conf, chain), self')
    /\ (step_type <$> steps chain) !! 1%nat = Some ANALYSIS
    /\ (confidence <$> steps chain) !! 1%nat
       = Some (if (t <? now)%Z then 0.95
               else if (t <? now + 30 * day)%Z then 0.9
               else if (t <? now + 90 * day)%Z then 0.8
               else if (t <? now + 180 * day)%Z then 0.7
               else 0.6).
Proof.
  intros Hget Hs Hparse Hok. cbn zeta.
  destruct (gap_severity_run w gap facility self Hok)
    as (chain & Hrun & Hty & Hconf & _).
  eexists _, _, _, _. split; [exact Hrun|].
  rewrite Hty, Hconf.
  unfold severity_step_types, severity_step_confidences, deadline_factor.
  assert (deadline_days w (Py.get gap "regulatory_deadline")
          = Some (days_until_of w t)) as ->.
  { unfold Py.get. rewrite Hget. cbn.
    destruct (String.eqb_spec s ""); [done|]. cbn. by rewrite Hparse. }
  split; [reflexivity|]. cbn [app lookup list_lookup snd].
  f_equal. apply deadline_bucket_by_instant.
Qed.

End SeverityTable.

(** ** The cost estimate and its range *)

Section CostRange.

Import Reasoner Reading.

Local Open Scope Q_scope.

Lemma int_of_digits_from_nonneg (s : string) (acc : Z) :
  (0 <= acc)%Z -> (0 <= Text.int_of_digits_from acc s)%Z.
Proof.
  revert acc. induction s as [|c s IH]; intros acc Hacc; [done|].
  cbn. apply IH. unfold Text.digit_value. lia.
Qed.

Lemma multiplier_nonneg (gap : dict) : (0 <= multiplier_of gap)%Z.
Proof.
  unfold multiplier_of, quantity_of, quantity_multiplier.
  destruct (first_quantity false _); cbn; [|lia].
  by apply int_of_digits_from_nonneg.
Qed.

(** Every range of the table, and the default, is positive and ordered. *)
Lemma base_range_ordered (gap_title : string) :
  0 < fst (snd (identify_gap_type gap_title))
  /\ fst (snd (identify_gap_type gap_title))
     <= snd (snd (identify_gap_type gap_title)).
Proof.
  unfold identify_gap_type. cbn [List.find cost_estimates fst].
  repeat (destruct (Text.contains _ gap_title);
          [cbn; split; [reflexivity|by apply Qle_by_bool]|]).
  cbn; split; [reflexivity|by apply Qle_by_bool].
Qed.

Lemma blend_ordered (base : Q * Q) (avg_similar : Q) :
  0 < fst base -> fst base <= snd base -> 0 <= avg_similar ->
  0 < fst (blend base avg_similar)
  /\ fst (blend base avg_similar) <= snd (blend base avg_similar).
Proof.
  intros Hlo Hle Havg. unfold blend. cbn [fst snd]. unfold Qdiv.
  change (/ 2) with (1 # 2). split; lra.
Qed.

Lemma range_ordered (gap : dict) (similar_gaps : option (list dict)) :
  Forall (fun q => 0 <= q) (omap Py.number (historical_costs similar_gaps)) ->
  0 < fst (range_of gap similar_gaps)
  /\ fst (range_of gap similar_gaps) <= snd (range_of gap similar_gaps).
Proof.
  intros Hcosts. unfold range_of, base_range_of.
  destruct (base_range_ordered (title_of gap)) as [Hlo Hle].
  destruct (history_used similar_gaps) eqn:Hused; [|done].
  apply blend_ordered; [done..|].
  unfold avg_similar_of. apply Qle_shift_div_l.
  - apply len_pos. unfold history_used in Hused.
    apply negb_true_iff, bool_decide_eq_false in Hused. exact Hused.
  - rewrite Qmult_0_l. unfold Py.sum. apply sum_nonneg; [lra|done].
Qed.

(** X12: when no historical cost is negative, the cost
    [reason_about_remediation_cost] returns is not negative and lies
    within the range its inference step shows, low end first; a
    description that states a quantity of 0 ("0 tanks") brings the
    estimate to 0. *)
Theorem remediation_cost_within_range (w : World) (gap : dict)
    (similar_gaps : option (list dict)) (self : ChainOfThoughtReasoner) :
  cost_inputs_ok gap similar_gaps = true ->
  Forall (fun q => 0 <= q) (omap Py.number (historical_costs similar_gaps)) ->
  exists cost conf chain self',
    reason_about_remediation_cost w gap similar_gaps self
    = (Ok (cost, conf, chain), self')
    /\ 0 <= cost
    /\ fst (cost_range gap similar_gaps) <= cost
    /\ cost <= snd (cost_range gap similar_gaps)
    /\ last (content <$> steps chain)
       = Some ("Estimated cost: $" +:+ Fmt.f0_comma cost
               +:+ " (range: $"
               +:+ Fmt.f0_comma (fst (cost_range gap similar_gaps))
               +:+ " - $"
               +:+ Fmt.f0_comma (snd (cost_range gap similar_gaps)) +:+ ")")
    /\ (quantity_of gap = Some 0%Z -> cost == 0).
Proof.
  intros Hok Hcosts.
  destruct (cost_run w gap similar_gaps self Hok)
    as (chain & Hrun & _ & Htext & _).
  eexists _, _, _, _. split; [exact Hrun|].
  destruct (range_ordered gap similar_gaps Hcosts) as [Hlo Hle].
  pose proof (multiplier_nonneg gap) as Hm.
  rewrite Zle_Qle in Hm. change (inject_Z 0) with 0 in Hm.
  unfold estimated_cost, cost_range, estimated_cost_of, cost_range_of.
  cbn [fst snd].
  set (lo := fst (range_of gap similar_gaps)) in *.
  set (hi := snd (range_of gap similar_gaps)) in *.
  assert (lo <= (lo + hi) / 2 /\ (lo + hi) / 2 <= hi) as [Hmid1 Hmid2].
  { unfold Qdiv. change (/ 2) with (1 # 2). split; lra. }
  split; [|split; [|split; [|split]]].
  - apply Qmult_le_0_compat; [|exact Hm].
    eapply Qle_trans; [|exact Hmid1]. by apply Qlt_le_weak.
  - by apply Qmult_le_compat_r.
  - by apply Qmult_le_compat_r.
  - exact Htext.
  - unfold multiplier_of. intros ->. cbn. by rewrite Qmult_0_r.
Qed.

End CostRange.

(** ** The quantity a description states *)

Section Quantity.

Import Reasoner Reading.

Local Open Scope string_scope.

Lemma append_nil_l (s : string) : "" ++ s = s.
Proof. reflexivity. Qed.

Lemma append_cons (c : ascii) (s t : string) :
  String c s ++ t = String c (s ++ t).
Proof. reflexivity. Qed.


Lemma prefix_app (u rest : string) : String.prefix u (u ++ rest) = true.
Proof.
  induction u as [|c u IH]; [by destruct rest|].
  rewrite append_cons. cbn [String.prefix].
  destruct (Ascii.ascii_dec c c); [done|congruence].
Qed.




Lemma digit_not_space (c : ascii) :
  Text.is_digit c = true -> Text.is_space c = false.
Proof.
  destruct c as [[] [] [] [] [] [] [] []]; vm_compute; congruence.
Qed.


End Quantity.

(** ** The calibrator *)

Section CalibratorMore.

Import Calibrator.

Local Open Scope Q_scope.

Lemma clamp_spec (x : Q) :
  in_unit (Py.max 0.0 (Py.min 1.0 x))
  /\ (in_unit x -> Py.max 0.0 (Py.min 1.0 x) == x)
  /\ (1 < x -> Py.max 0.0 (Py.min 1.0 x) == 1)
  /\ (x < 0 -> Py.max 0.0 (Py.min 1.0 x) == 0).
Proof.
  unfold Py.max, Py.min, Py.gt, in_unit.
  assert (1.0 == 1) as E1 by reflexivity.
  assert (0.0 == 0) as E0 by reflexivity.
  destruct (Py.lt x 1.0) eqn:H1.
  - apply lt_iff in H1. rewrite E1 in H1.
    destruct (Py.lt 0.0 x) eqn:H0.
    + apply lt_iff in H0. rewrite E0 in H0.
      repeat split;
        first [lra | reflexivity | (intros [? ?]; lra) | (intros; lra)].
    + assert (x <= 0) as Hle0.
      { destruct (Qlt_le_dec 0.0 x) as [Hlt%lt_iff|Hle0]; [congruence|].
        eapply Qle_trans; [exact Hle0|]. by apply Qle_by_bool. }
      rewrite E0.
      repeat split;
        first [lra | reflexivity | (intros [? ?]; lra) | (intros; lra)].
  - assert (1 <= x) as Hge.
    { destruct (Qlt_le_dec x 1.0) as [Hlt%lt_iff|Hge]; [congruence|].
      eapply Qle_trans; [|exact Hge]. by apply Qle_by_bool. }
    assert (Py.lt 0.0 1.0 = true) as -> by reflexivity.
    rewrite E1.
    repeat split;
      first [lra | reflexivity | (intros [? ?]; lra) | (intros; lra)].
Qed.

(** X14: [adjust_confidence] returns a value within [0, 1] for every raw
    confidence and every calibration factor: the product itself when it
    lies within [0, 1], 1 when it is above and 0 when it is below. *)
Theorem adjust_confidence_clamps (raw_confidence : Q)
    (self : ConfidenceCalibrator) :
  let adjusted := raw_confidence * calibration_factor self in
  in_unit (adjust_confidence raw_confidence self)
  /\ (in_unit adjusted -> adjust_confidence raw_confidence self == adjusted)
  /\ (1 < adjusted -> adjust_confidence raw_confidence self == 1)
  /\ (adjusted < 0 -> adjust_confidence raw_confidence self == 0).
Proof. cbn zeta. unfold adjust_confidence. apply clamp_spec. Qed.

Lemma filter_resolved_record_prediction (w : World) (prediction_id : string)
    (predicted_value : pyval) (conf : Q) (cat : string)
    (self : ConfidenceCalibrator) :
  List.filter is_resolved
    (predictions (record_prediction w prediction_id predicted_value conf cat
                    self))
  = List.filter is_resolved (predictions self).
Proof.
  unfold record_prediction. cbn [predictions].
  rewrite List.filter_app. cbn. by rewrite app_nil_r.
Qed.

(** X15: a prediction without an outcome does not count: recording a
    prediction changes neither the statistics [calculate_calibration]
    returns nor the factor it stores, so nor any adjusted confidence. *)
Theorem pending_prediction_not_counted (w : World) (prediction_id : string)
    (predicted_value : pyval) (conf : Q) (cat : string)
    (self : ConfidenceCalibrator) :
  let recorded :=
    record_prediction w prediction_id predicted_value conf cat self in
  calibration_factor recorded = calibration_factor self
  /\ fst (calculate_calibration recorded) = fst (calculate_calibration self)
  /\ calibration_factor (snd (calculate_calibration recorded))
     = calibration_factor (snd (calculate_calibration self))
  /\ forall raw,
       adjust_confidence raw (snd (calculate_calibration recorded))
       = adjust_confidence raw (snd (calculate_calibration self)).
Proof.
  cbn zeta. split; [reflexivity|].
  assert (fst (calculate_calibration
                 (record_prediction w prediction_id predicted_value conf cat
                    self))
          = fst (calculate_calibration self)
          /\ calibration_factor
               (snd (calculate_calibration
                       (record_prediction w prediction_id predicted_value conf
                          cat self)))
             = calibration_factor (snd (calculate_calibration self)))
    as [Hres Hfac].
  { unfold calculate_calibration.
    rewrite filter_resolved_record_prediction.
    destruct (bool_decide (List.filter is_resolved (predictions self) = []));
      done. }
  split; [exact Hres|]. split; [exact Hfac|].
  intros raw. unfold adjust_confidence. by rewrite Hfac.
Qed.

Lemma resolve_first_length (prediction_id : string) (actual_value : pyval)
    (preds : list prediction) :
  length (resolve_first prediction_id actual_value preds) = length preds.
Proof.
  induction preds as [|p preds IH]; [done|]. cbn.
  destruct (String.eqb _ _); cbn; by rewrite ?IH.
Qed.

Lemma resolve_first_ids (prediction_id : string) (actual_value : pyval)
    (preds : list prediction) :
  pred_id <$> resolve_first prediction_id actual_value preds
  = pred_id <$> preds.
Proof.
  induction preds as [|p preds IH]; [done|]. cbn.
  destruct (String.eqb _ _); cbn; by rewrite ?IH.
Qed.

Lemma resolve_first_again (prediction_id : string) (v1 v2 : pyval)
    (preds : list prediction) :
  resolve_first prediction_id v2 (resolve_first prediction_id v1 preds)
  = resolve_first prediction_id v2 preds.
Proof.
  induction preds as [|p preds IH]; [done|]. cbn.
  destruct (String.eqb (pred_id p) prediction_id) eqn:E; cbn; rewrite E.
  - done.
  - by rewrite IH.
Qed.

Lemma resolve_first_comm (id1 id2 : string) (v1 v2 : pyval)
    (preds : list prediction) :
  id1 <> id2 ->
  resolve_first id1 v1 (resolve_first id2 v2 preds)
  = resolve_first id2 v2 (resolve_first id1 v1 preds).
Proof.
  intros Hne. induction preds as [|p preds IH]; [done|]. cbn.
  destruct (String.eqb_spec (pred_id p) id1) as [E1|E1],
    (String.eqb_spec (pred_id p) id2) as [E2|E2]; cbn.
  - congruence.
  - destruct (String.eqb_spec (pred_id p) id1), (String.eqb_spec (pred_id p) id2);
      congruence.
  - destruct (String.eqb_spec (pred_id p) id1), (String.eqb_spec (pred_id p) id2);
      congruence.
  - destruct (String.eqb_spec (pred_id p) id1), (String.eqb_spec (pred_id p) id2);
      congruence.
Qed.

(** X16: outcomes may be recorded again and in any order.  A second
    outcome for an identifier replaces the first one, as if the first had
    never been recorded; outcomes for different identifiers commute; and no
    outcome changes the number of records, their identifiers or the
    calibration factor. *)
Theorem record_outcome_order (id1 id2 : string) (v1 v2 : pyval)
    (self : ConfidenceCalibrator) :
  record_outcome id1 v2 (record_outcome id1 v1 self) = record_outcome id1 v2 self
  /\ (id1 <> id2 ->
      record_outcome id1 v1 (record_outcome id2 v2 self)
      = record_outcome id2 v2 (record_outcome id1 v1 self))
  /\ pred_id <$> predictions (record_outcome id1 v1 self)
     = pred_id <$> predictions self
  /\ calibration_factor (record_outcome id1 v1 self) = calibration_factor self.
Proof.
  unfold record_outcome. cbn [predictions calibration_factor].
  split; [by rewrite resolve_first_again|].
  split; [intros Hne; by rewrite resolve_first_comm|].
  split; [apply resolve_first_ids|done].
Qed.

Lemma resolve_first_other (prediction_id : string) (actual_value : pyval)
    (preds : list prediction) (j : nat) (p : prediction) :
  preds !! j = Some p ->
  pred_id p <> prediction_id ->
  resolve_first prediction_id actual_value preds !! j = Some p.
Proof.
  revert j. induction preds as [|x preds IH]; intros j Hj Hne; [done|].
  cbn. destruct (String.eqb_spec (pred_id x) prediction_id) as [E|E].
  - destruct j as [|j]; [|done]. cbn in Hj. congruence.
  - destruct j as [|j]; [done|]. cbn in *. by apply IH.
Qed.

Lemma resolve_first_shadowed (prediction_id : string) (actual_value : pyval)
    (preds : list prediction) (i j : nat) (p0 p : prediction) :
  (i < j)%nat ->
  preds !! i = Some p0 ->
  preds !! j = Some p ->
  pred_id p0 = pred_id p ->
  resolve_first prediction_id actual_value preds !! j = Some p.
Proof.
  revert i j. induction preds as [|x preds IH]; intros i j Hij Hi Hj Hid; [done|].
  cbn. destruct (String.eqb_spec (pred_id x) prediction_id) as [E|E].
  - destruct j as [|j]; [lia|]. done.
  - destruct j as [|j]; [lia|]. cbn in Hj |- *.
    destruct i as [|i].
    + cbn in Hi. injection Hi as ->.
      apply resolve_first_other; [done|congruence].
    + cbn in Hi. apply (IH i j); [lia|done..].
Qed.

(** X17: a prediction recorded under an identifier that an earlier record
    already carries can never get an outcome: whatever outcomes are
    recorded afterwards, in whatever order, the later record stays as it
    is, so it never counts in the calibration. *)
Theorem shadowed_prediction_never_resolved (self : ConfidenceCalibrator)
    (i j : nat) (earlier later : prediction)
    (outcomes : list (string * pyval)) :
  (i < j)%nat ->
  predictions self !! i = Some earlier ->
  predictions self !! j = Some later ->
  pred_id earlier = pred_id later ->
  predictions (record_outcomes outcomes self) !! j = Some later.
Proof.
  intros Hij Hi Hj Hid. revert self earlier Hi Hj Hid.
  induction outcomes as [|[prediction_id actual_value] outcomes IH];
    intros self earlier Hi Hj Hid; [done|].
  unfold record_outcomes in *. cbn [fold_left fst snd].
  assert (exists earlier',
            predictions (record_outcome prediction_id actual_value self) !! i
            = Some earlier' /\ pred_id earlier' = pred_id later)
    as (earlier' & Hi' & Hid').
  { pose proof (resolve_first_ids prediction_id actual_value
                  (predictions self)) as Hids.
    apply (f_equal (fun l => l !! i)) in Hids.
    rewrite !list_lookup_fmap, Hi in Hids. cbn in Hids.
    unfold record_outcome. cbn [predictions].
    destruct (resolve_first prediction_id actual_value (predictions self) !! i)
      as [e|]; [|done].
    exists e. split; [done|]. cbn in Hids. congruence. }
  apply (IH _ earlier'); [done| |done].
  unfold record_outcome. cbn [predictions].
  by eapply resolve_first_shadowed.
Qed.

End CalibratorMore.

Section CalibratorBounds.

Import Calibrator.

Local Open Scope Q_scope.

Lemma filter_partition3 {A} (f g h : A -> bool) (l : list A) :
  (forall a, a ∈ l ->
     (f a = true /\ g a = false /\ h a = false)
     \/ (f a = false /\ g a = true /\ h a = false)
     \/ (f a = false /\ g a = false /\ h a = true)) ->
  (length (List.filter f l) + length (List.filter g l)
   + length (List.filter h l))%nat = length l.
Proof.
  induction l as [|a l IH]; intros Hone; [done|].
  cbn [List.filter].
  destruct (Hone a) as [(-> & -> & ->)|[(-> & -> & ->)|(-> & -> & ->)]];
    [by left|..]; cbn [length];
    rewrite <- IH by (intros; apply Hone; by right); lia.
Qed.

Lemma bucket_of_confidence (c : Q) :
  (Py.ge c 0.8 = true
   /\ (Qle_bool 0.5 c && Py.lt c 0.8) = false /\ Py.lt c 0.5 = false)
  \/ (Py.ge c 0.8 = false
      /\ (Qle_bool 0.5 c && Py.lt c 0.8) = true /\ Py.lt c 0.5 = false)
  \/ (Py.ge c 0.8 = false
      /\ (Qle_bool 0.5 c && Py.lt c 0.8) = false /\ Py.lt c 0.5 = true).
Proof.
  unfold Py.ge, Py.lt.
  destruct (Qle_bool 0.8 c) eqn:H8, (Qle_bool 0.5 c) eqn:H5; cbn; auto.
  apply Qle_bool_iff in H8. apply Qlt_by_bool in H5.
  exfalso. apply (Qlt_irrefl c).
  eapply Qlt_le_trans; [exact H5|]. eapply Qle_trans; [|exact H8].
  by apply Qle_by_bool.
Qed.

(** X18: the three confidence buckets of [calculate_calibration] split the
    resolved predictions: every one of them falls in exactly one of
    "high" (confidence >= 0.8), "medium" (0.5 <= confidence < 0.8) and
    "low" (confidence < 0.5), so the bucket sizes add up to the number of
    samples. *)
Theorem buckets_partition (resolved : list prediction) :
  exists high medium low,
    buckets resolved = [("high", high); ("medium", medium); ("low", low)]
    /\ (length high + length medium + length low)%nat = length resolved
    /\ forall p, p ∈ resolved ->
         ((p ∈ high) /\ (p ∉ medium) /\ (p ∉ low)
          /\ 0.8 <= pred_confidence p)
         \/ ((p ∉ high) /\ (p ∈ medium) /\ (p ∉ low)
             /\ 0.5 <= pred_confidence p < 0.8)
         \/ ((p ∉ high) /\ (p ∉ medium) /\ (p ∈ low)
             /\ pred_confidence p < 0.5).
Proof.
  eexists _, _, _. split; [reflexivity|]. split.
  - apply filter_partition3. intros p _. apply bucket_of_confidence.
  - intros p Hp. rewrite !list_elem_of_In, !filter_In, <- !list_elem_of_In.
    destruct (bucket_of_confidence (pred_confidence p))
      as [(H1 & H2 & H3)|[(H1 & H2 & H3)|(H1 & H2 & H3)]];
      rewrite H1, H2, H3; [left|right; left|right; right];
      repeat split; try done; try (by intros [_ ?]).
    + by apply Qle_bool_iff.
    + apply andb_prop in H2 as [H5 _]. by apply Qle_bool_iff.
    + apply andb_prop in H2 as [_ H8]. by apply lt_iff.
    + by apply lt_iff.
Qed.

Lemma sum_le_len (l : list Q) (acc : Q) :
  Forall (fun q => q <= 1) l -> fold_left Qplus l acc <= acc + Py.len l.
Proof.
  intros Hl. revert acc. induction Hl as [|q l Hq _ IH]; intros acc.
  - cbn [fold_left]. unfold Py.len. cbn [length].
    change (inject_Z (Z.of_nat 0)) with 0. lra.
  - cbn [fold_left]. eapply Qle_trans; [apply IH|].
    unfold Py.len. cbn [length]. rewrite Nat2Z.inj_succ, <- Z.add_1_r.
    rewrite inject_Z_plus. change (inject_Z 1) with 1. lra.
Qed.

Lemma accuracy_in_unit (l : list prediction) :
  l <> [] -> in_unit (accuracy_of l).
Proof.
  intros Hne. unfold accuracy_of, in_unit. pose proof (len_pos l Hne) as Hpos.
  split.
  - apply Qle_shift_div_l; [done|]. rewrite Qmult_0_l. apply len_nonneg.
  - apply Qle_shift_div_r; [done|]. rewrite Qmult_1_l.
    unfold Py.len. rewrite <- Zle_Qle. apply inj_le, List.filter_length_le.
Qed.

Lemma calibration_factor_after (self : ConfidenceCalibrator) :
  List.filter is_resolved (predictions self) <> [] ->
  calibration_factor (snd (calculate_calibration self))
  = calibration_of
      (accuracy_of (List.filter is_resolved (predictions self)))
      (avg_confidence_of (List.filter is_resolved (predictions self))).
Proof.
  intros Hne. unfold calculate_calibration.
  by rewrite bool_decide_eq_false_2.
Qed.

(** X19: what the stored factor can be.  With confidences within [0, 1]
    and a positive mean over at least one resolved prediction, the
    accuracy lies within [0, 1] and the factor is not negative.  When
    every resolved prediction was wrong the factor is 0 and
    [adjust_confidence] returns 0 for every raw confidence; when every one
    was right the factor is at least 1 and [adjust_confidence] never
    lowers a confidence from [0, 1]. *)
Theorem calibration_factor_bounds (self : ConfidenceCalibrator) :
  let resolved := List.filter is_resolved (predictions self) in
  let self' := snd (calculate_calibration self) in
  Forall (fun p => in_unit (pred_confidence p)) (predictions self) ->
  resolved <> [] ->
  0 < avg_confidence_of resolved ->
  in_unit (accuracy_of resolved)
  /\ 0 <= calibration_factor self'
  /\ (Forall (fun p => is_correct p = false) resolved ->
      calibration_factor self' == 0
      /\ forall raw, adjust_confidence raw self' == 0)
  /\ (Forall (fun p => is_correct p = true) resolved ->
      1 <= calibration_factor self'
      /\ forall raw, in_unit raw -> raw <= adjust_confidence raw self').
Proof.
  intros resolved self' Hconf Hne Havg.
  pose proof (accuracy_in_unit resolved Hne) as [Hacc0 Hacc1].
  assert (calibration_factor self'
          = accuracy_of resolved / avg_confidence_of resolved) as Hfac.
  { subst self'. rewrite calibration_factor_after by done.
    unfold calibration_of. fold resolved. by apply gt_iff in Havg as ->. }
  assert (avg_confidence_of resolved <= 1) as Havg1.
  { unfold avg_confidence_of. apply Qle_shift_div_r; [by apply len_pos|].
    rewrite Qmult_1_l. unfold Py.sum.
    eapply Qle_trans;
      [apply sum_le_len|unfold Py.len; rewrite length_fmap; lra].
    apply Forall_fmap. subst resolved.
    apply List.Forall_forall. intros p [Hp _]%filter_In.
    eapply List.Forall_forall in Hconf; [|exact Hp]. by destruct Hconf. }
  split; [done|]. split; [|split].
  - rewrite Hfac. apply Qle_shift_div_l; [done|]. by rewrite Qmult_0_l.
  - intros Hwrong.
    assert (accuracy_of resolved == 0) as Hzero.
    { unfold accuracy_of.
      assert (List.filter is_correct resolved = []) as ->.
      { clear -Hwrong. induction Hwrong as [|p l Hp _ IH]; [done|].
        cbn. by rewrite Hp. }
      unfold Py.len at 1. cbn. unfold Qdiv. by rewrite Qmult_0_l. }
    assert (calibration_factor self' == 0) as Hf0.
    { rewrite Hfac, Hzero. unfold Qdiv. by rewrite Qmult_0_l. }
    split; [exact Hf0|]. intros raw. unfold adjust_confidence.
    destruct (clamp_spec (raw * calibration_factor self')) as (_ & Hin & _).
    rewrite Hin; [by rewrite Hf0, Qmult_0_r|].
    unfold in_unit. rewrite Hf0, Qmult_0_r. lra.
  - intros Hright.
    assert (accuracy_of resolved == 1) as Hone.
    { unfold accuracy_of.
      assert (List.filter is_correct resolved = resolved) as ->.
      { clear -Hright. induction Hright as [|p l Hp _ IH]; [done|].
        cbn. by rewrite Hp, IH. }
      unfold Qdiv. apply Qmult_inv_r.
      intros H0. pose proof (len_pos resolved Hne). lra. }
    assert (1 <= calibration_factor self') as Hf1.
    { rewrite Hfac, Hone. apply Qle_shift_div_l; [done|]. lra. }
    split; [exact Hf1|]. intros raw [Hr0 Hr1]. unfold adjust_confidence.
    set (x := raw * calibration_factor self').
    assert (raw <= x) as Hx.
    { subst x. rewrite <- (Qmult_1_r raw) at 1.
      rewrite (Qmult_comm raw 1), (Qmult_comm raw (calibration_factor self')).
      by apply Qmult_le_compat_r. }
    destruct (clamp_spec x) as (_ & Hin & Habove & _).
    destruct (Qlt_le_dec 1 x) as [Hgt|Hle].
    + rewrite Habove by done. done.
    + rewrite Hin; [done|]. split; [lra|done].
Qed.

End CalibratorBounds.

(** ** Explanations and exports *)

Section Explanations.

Import Reasoner Reading.

Local Open Scope Q_scope.

(** X20: the explanation of a chain only grows.  While the chain has no
    answer, each [add_step] appends the lines of its step and nothing else
    changes; [complete] appends the three lines of the conclusion, unless
    the answer is the empty string: then the explanation stays that of an
    open chain, although the chain is completed. *)
Theorem explanation_grows (w : World) (task agent quest : string)
    (cs : list chain_call) :
  Forall (fun c => is_add_step c = true) cs ->
  let new := Chain.new w task agent quest in
  let opened := run_calls w cs new in
  (forall ty text conf ev,
     let step :=
       {| step_number := length cs + 1;
          step_type := ty;
          content := text;
          confidence := conf;
          evidence := default [] ev;
          timestamp := utcnow w |} in
     Chain.explanation_lines
       (run_calls w (cs ++ [CallAddStep ty text conf ev]) new)
     = Chain.explanation_lines opened ++ Chain.step_lines step)
  /\ (forall answer conf,
        let closed := run_calls w (cs ++ [CallComplete answer conf]) new in
        completed_at closed = Some (utcnow w)
        /\ Chain.explanation_lines closed
           = Chain.explanation_lines opened
             ++ (if String.eqb answer "" then []
                 else ["---";
                       "**Conclusion:** " +:+ answer;
                       "**Overall Confidence:** "
                         +:+ Fmt.f0 (conf * 100) +:+ "%"])
        /\ (answer = "" ->
            Chain.to_explanation closed = Chain.to_explanation opened)).
Proof.
  intros Hcs. cbn zeta.
  assert (Chain.conclusion_lines
            (run_calls w cs (Chain.new w task agent quest)) = []) as Hopen.
  { unfold Chain.conclusion_lines.
    destruct (run_calls_final w cs (Chain.new w task agent quest))
      as (-> & _); [done..|].
    apply last_complete_none in Hcs. by rewrite Hcs. }
  assert (length (steps (run_calls w cs (Chain.new w task agent quest)))
          = length cs) as Hlen.
  { rewrite steps_run_calls, length_app, length_imap, length_added.
    cbn [steps Chain.new length]. rewrite Nat.add_0_l.
    clear -Hcs. induction Hcs as [|c cs Hc _ IH]; [done|].
    cbn. by rewrite Hc, <- IH. }
  split.
  - intros ty text conf ev. rewrite run_calls_snoc.
    set (opened := run_calls w cs (Chain.new w task agent quest)) in *.
    unfold Chain.explanation_lines.
    change (Chain.conclusion_lines (run_call w (CallAddStep ty text conf ev) opened))
      with (Chain.conclusion_lines opened).
    change (question (run_call w (CallAddStep ty text conf ev) opened))
      with (question opened).
    change (steps (run_call w (CallAddStep ty text conf ev) opened))
      with (steps opened
            ++ [{| step_number := length (steps opened) + 1;
                   step_type := ty;
                   content := text;
                   confidence := conf;
                   evidence := default [] ev;
                   timestamp := utcnow w |}]).
    rewrite Hopen, !app_nil_r, fmap_app, concat_app, Hlen.
    cbn [fmap list_fmap concat].
    by rewrite app_nil_r, <- !app_assoc.
  - intros answer conf. rewrite run_calls_snoc.
    assert (Chain.explanation_lines
              (run_call w (CallComplete answer conf)
                 (run_calls w cs (Chain.new w task agent quest)))
            = Chain.explanation_lines
                (run_calls w cs (Chain.new w task agent quest))
              ++ (if String.eqb answer "" then []
                  else ["---";
                        "**Conclusion:** " +:+ answer;
                        "**Overall Confidence:** "
                          +:+ Fmt.f0 (conf * 100) +:+ "%"])) as Hlines.
    { unfold Chain.explanation_lines. rewrite Hopen, app_nil_r.
      unfold Chain.conclusion_lines.
      cbn [run_call Chain.complete snd modify steps question final_answer
             final_confidence].
      by rewrite <- !app_assoc. }
    split; [done|]. split; [exact Hlines|].
    intros ->. unfold Chain.to_explanation. rewrite Hlines.
    cbn [String.eqb]. by rewrite app_nil_r.
Qed.

Lemma exports_after (w : World) (chain : ReasoningChain)
    (self : ChainOfThoughtReasoner) :
  let self' := set_chains (chains self ++ [chain]) self in
  chains self' = chains self ++ [chain]
  /\ export_chains w self' = export_chains w self ++ [Chain.to_dict w chain]
  /\ get_all_explanations self'
     = get_all_explanations self ++ [Chain.to_explanation chain].
Proof.
  cbn zeta. unfold export_chains, get_all_explanations. cbn [chains set_chains].
  by rewrite !fmap_app.
Qed.

(** X21: [export_chains] and [get_all_explanations] list the chains in the
    order the methods were called, and a call adds exactly one entry at
    the end and leaves the earlier entries as they were, whether the call
    returns or raises: this holds for each of the three methods on every
    input. *)
Theorem exports_grow_by_one (w : World) (self : ChainOfThoughtReasoner) :
  let grows (self' : ChainOfThoughtReasoner) :=
    exists chain,
      chains self' = chains self ++ [chain]
      /\ export_chains w self'
         = export_chains w self ++ [Chain.to_dict w chain]
      /\ get_all_explanations self'
         = get_all_explanations self ++ [Chain.to_explanation chain] in
  (forall regulation target_industry,
     grows (snd (reason_about_regulation_relevance w regulation
                   target_industry self)))
  /\ (forall gap facility,
        grows (snd (reason_about_gap_severity w gap facility self)))
  /\ (forall gap similar_gaps,
        grows (snd (reason_about_remediation_cost w gap similar_gaps self))).
Proof.
  cbn zeta. split; [|split]; intros.
  - unfold reason_about_regulation_relevance. rewrite with_new_chain_run.
    eexists. apply exports_after.
  - unfold reason_about_gap_severity. rewrite with_new_chain_run.
    eexists. apply exports_after.
  - unfold reason_about_remediation_cost. rewrite with_new_chain_run.
    eexists. apply exports_after.
Qed.

End Explanations.

(** ** Keywords are matched as substrings *)

Section Substrings.

Import Reasoner Reading.

Local Open Scope Q_scope.

Lemma prefix_inv (n h : string) :
  String.prefix n h = true -> exists b, h = (n ++ b)%string.
Proof.
  revert h. induction n as [|c n IH]; intros h Hp; [by exists h|].
  destruct h as [|c' h]; [done|]. cbn in Hp.
  destruct (Ascii.ascii_dec c c') as [->|]; [|done].
  destruct (IH h Hp) as [b ->]. by exists b.
Qed.

Lemma contains_inv (n h : string) :
  Text.contains n h = true -> exists a b, h = (a ++ n ++ b)%string.
Proof.
  induction h as [|c h IH]; cbn [Text.contains]; intros Hc.
  - rewrite orb_false_r in Hc. destruct (prefix_inv _ _ Hc) as [b ->].
    by exists ""%string, b.
  - apply orb_prop in Hc as [Hp|Hc].
    + destruct (prefix_inv _ _ Hp) as [b ->]. by exists ""%string, b.
    + destruct (IH Hc) as (a & b & ->). by exists (String c a), b.
Qed.

Lemma contains_app (a n b : string) :
  Text.contains n (a ++ n ++ b)%string = true.
Proof.
  induction a as [|c a IH].
  - rewrite append_nil_l. destruct (n ++ b)%string eqn:E; cbn [Text.contains];
      rewrite <- E, prefix_app; done.
  - rewrite append_cons. cbn [Text.contains]. by rewrite IH, orb_true_r.
Qed.

Lemma append_assoc (a b c : string) :
  ((a ++ b) ++ c = a ++ b ++ c)%string.
Proof.
  induction a as [|x a IH]; [done|]. by rewrite !append_cons, IH.
Qed.

(** A text that contains a phrase contains every end of the phrase. *)
Lemma contains_end (p n h : string) :
  Text.contains (p ++ n)%string h = true -> Text.contains n h = true.
Proof.
  intros (a & b & ->)%contains_inv.
  rewrite append_assoc, <- (append_assoc a p). apply contains_app.
Qed.

(** X22: keywords are looked up as substrings and counted one by one, so
    the compound keywords count twice: a regulation whose title or
    description mentions "natural gas" (which holds "gas") or "crude oil"
    (which holds "oil") has at least two keywords matched, a score above
    the threshold 0.3, and is relevant whatever its citation. *)
Theorem compound_keyword_counts_twice (w : World) (regulation : dict)
    (target_industry : string) (self : ChainOfThoughtReasoner) :
  relevance_inputs_ok regulation = true ->
  Text.contains "natural gas" (text_to_search_of regulation)
  || Text.contains "crude oil" (text_to_search_of regulation) = true ->
  exists score chain self',
    reason_about_regulation_relevance w regulation target_industry self
    = (Ok (true, score, chain), self')
    /\ (2 <= length (matched_keywords regulation))%nat
    /\ 0.3 < score.
Proof.
  intros Hok Hcompound.
  destruct (relevance_run w regulation target_industry self Hok)
    as (chain & Hrun & _).
  assert (2 <= length (matched_keywords regulation))%nat as Hlen.
  { unfold matched_keywords, found_keywords.
    set (text := text_to_search_of regulation) in *.
    change og_keywords
      with (["oil"; "gas"; "petroleum"; "natural gas"; "crude oil"]
            ++ ["wellsite"; "wellhead"; "compressor"; "gathering";
                "processing"; "transmission"; "storage tank"; "pneumatic";
                "fugitive emissions"; "ldar"; "methane"; "voc"]).
    rewrite List.filter_app, length_app.
    match goal with
    | |- context [(length (List.filter ?f (?x :: ?l)) + length ?tail)%nat] =>
        generalize (length tail)
    end.
    intros others. cbn [List.filter].
    apply orb_prop in Hcompound as [Hgas|Hoil].
    - rewrite Hgas, (contains_end "natural " "gas" text Hgas).
      repeat case_match; cbn [length]; lia.
    - rewrite Hoil, (contains_end "crude " "oil" text Hoil).
      repeat case_match; cbn [length]; lia. }
  assert (0.4 <= combined_score regulation) as Hscore.
  { pose proof (combined_score_by_count regulation) as Hs. cbn zeta in Hs.
    rewrite Hs.
    assert (0 <= cfr_relevance_of regulation) as Hcfr.
    { unfold cfr_relevance_of. repeat case_match; by apply Qle_by_bool. }
    destruct (Nat.leb_spec 3 (length (matched_keywords regulation)));
      [lra|].
    assert (length (matched_keywords regulation) = 2%nat) as -> by lia.
    cbn [Nat.leb]. change (inject_Z (Z.of_nat 2)) with 2. lra. }
  assert (is_relevant regulation = true) as Hrel.
  { apply gt_iff. lra. }
  rewrite Hrel in Hrun. eexists _, _, _.
  split; [exact Hrun|]. split; [exact Hlen|lra].
Qed.

End Substrings.

(** ** Instances *)

Section Instances.

Import Reasoner Reading Calibrator.

Local Open Scope Q_scope.

Lemma relevance_decision_table_witness :
  exists relevant score chain self',
    reason_about_regulation_relevance Sample.world Sample.reporting_rule
      "oil_and_gas" Sample.reasoner
    = (Ok (relevant, score, chain), self')
    /\ relevant = true
    /\ VALIDATION ∈ step_type <$> steps chain.
Proof.
  destruct (relevance_decision_table Sample.world Sample.reporting_rule
              "oil_and_gas" Sample.reasoner)
    as (relevant & score & chain & self' & Hrun & H).
  - vm_compute. reflexivity.
  - cbn zeta in H. destruct H as [Hrel Hval].
    exists relevant, score, chain, self'. split; [exact Hrun|]. split.
    + apply Hrel. right. left. split; vm_compute; reflexivity.
    + apply Hval. right. left. split; vm_compute; reflexivity.
Defined.

Lemma relevance_raises_witness :
  exists chain,
    reason_about_regulation_relevance Sample.world Sample.untitled_rule
      "oil_and_gas" Sample.reasoner
    = (Raise AttributeError, set_chains [chain] Sample.reasoner)
    /\ steps chain = []
    /\ final_answer chain = None.
Proof.
  destruct (relevance_raises Sample.world Sample.untitled_rule
              "oil_and_gas" Sample.reasoner)
    as (chain & Hrun & Hty & Hfa & _).
  - vm_compute. reflexivity.
  - exists chain. split; [exact Hrun|]. split; [|exact Hfa].
    destruct (steps chain); [reflexivity|discriminate Hty].
Defined.

Lemma gap_severity_raises_witness :
  exists chain,
    reason_about_gap_severity Sample.world Sample.numbered_gap
      Sample.major_facility Sample.reasoner
    = (Raise AttributeError, set_chains [chain] Sample.reasoner)
    /\ step_type <$> steps chain = [OBSERVATION; ANALYSIS]
    /\ final_answer chain = None.
Proof.
  destruct (gap_severity_raises Sample.world Sample.numbered_gap
              Sample.major_facility Sample.reasoner)
    as (chain & Hrun & Hty & Hfa & _).
  - vm_compute. reflexivity.
  - exists chain. split; [exact Hrun|]. split; [exact Hty|exact Hfa].
Defined.

Lemma remediation_cost_raises_witness :
  exists chain,
    reason_about_remediation_cost Sample.world Sample.pneumatic_gap
      Sample.quoted_history Sample.reasoner
    = (Raise TypeError, set_chains [chain] Sample.reasoner)
    /\ step_type <$> steps chain = [OBSERVATION; ANALYSIS]
    /\ final_answer chain = None.
Proof.
  destruct (remediation_cost_raises Sample.world Sample.pneumatic_gap
              Sample.quoted_history Sample.reasoner)
    as (chain & Hrun & Hty & Hfa & _).
  - vm_compute. reflexivity.
  - exists chain. split; [exact Hrun|]. split; [exact Hty|exact Hfa].
Defined.

Lemma gap_severity_table_witness :
  exists conf chain self',
    reason_about_gap_severity Sample.world Sample.ldar_gap
      Sample.minor_facility Sample.reasoner
    = (Ok ("high", conf, chain), self').
Proof.
  destruct (gap_severity_table Sample.world Sample.ldar_gap
              Sample.minor_facility Sample.reasoner)
    as (severity & conf & chain & self' & Hrun & Hsev).
  - vm_compute. reflexivity.
  - exists conf, chain, self'. rewrite Hrun, Hsev. reflexivity.
Defined.

Lemma deadline_bucketed_by_instant_witness :
  exists severity conf chain self',
    reason_about_gap_severity Sample.world Sample.ldar_gap
      Sample.minor_facility Sample.reasoner
    = (Ok (severity, conf, chain), self')
    /\ (confidence <$> steps chain) !! 1%nat = Some 0.9.
Proof.
  destruct (deadline_bucketed_by_instant Sample.world Sample.ldar_gap
              Sample.minor_facility Sample.reasoner
              "1970-01-11T00:00:00Z" (10 * Sample.day))
    as (severity & conf & chain & self' & Hrun & _ & Hconf).
  - vm_compute. reflexivity.
  - discriminate.
  - vm_compute. reflexivity.
  - vm_compute. reflexivity.
  - exists severity, conf, chain, self'. split; [exact Hrun|exact Hconf].
Defined.

Lemma remediation_cost_within_range_witness :
  exists cost conf chain self',
    reason_about_remediation_cost Sample.world Sample.pneumatic_gap
      Sample.priced_history Sample.reasoner
    = (Ok (cost, conf, chain), self')
    /\ 0 <= cost
    /\ fst (cost_range Sample.pneumatic_gap Sample.priced_history) <= cost
    /\ cost <= snd (cost_range Sample.pneumatic_gap Sample.priced_history).
Proof.
  destruct (remediation_cost_within_range Sample.world Sample.pneumatic_gap
              Sample.priced_history Sample.reasoner)
    as (cost & conf & chain & self' & Hrun & H0 & Hlo & Hhi & _).
  - vm_compute. reflexivity.
  - vm_compute. repeat constructor; discriminate.
  - exists cost, conf, chain, self'.
    split; [exact Hrun|]. split; [exact H0|]. split; [exact Hlo|exact Hhi].
Defined.


Lemma shadowed_prediction_never_resolved_witness :
  exists later,
    predictions
      (record_outcomes [("dup", VInt 2); ("one", VBool true); ("dup", VInt 2)]
         Sample.twice_predicted) !! 2%nat
    = Some later
    /\ predicted later = VInt 2
    /\ correct later = None.
Proof.
  eexists. split.
  - apply (shadowed_prediction_never_resolved Sample.twice_predicted 1 2
             {| pred_id := "dup";
                predicted := VInt 1;
                pred_confidence := 0.7;
                category := "cost";
                pred_timestamp := "0";
                actual := VNone;
                correct := None |}).
    + lia.
    + reflexivity.
    + reflexivity.
    + reflexivity.
  - split; reflexivity.
Defined.

Lemma calibration_factor_bounds_witness :
  calibration_factor (snd (calculate_calibration Sample.one_wrong)) == 0
  /\ adjust_confidence 0.9 (snd (calculate_calibration Sample.one_wrong)) == 0.
Proof.
  destruct (calibration_factor_bounds Sample.one_wrong)
    as (_ & _ & Hwrong & _).
  - vm_compute. repeat constructor; discriminate.
  - vm_compute. discriminate.
  - vm_compute. reflexivity.
  - destruct Hwrong as [Hf Hadj].
    + vm_compute. repeat constructor.
    + split; [exact Hf|apply Hadj].
Defined.

Lemma explanation_grows_witness :
  let new := Chain.new Sample.world "t" "a" "q" in
  Chain.to_explanation
    (run_calls Sample.world
       [CallAddStep OBSERVATION "seen" 0.9 None; CallComplete "" 0.9] new)
  = Chain.to_explanation
      (run_calls Sample.world [CallAddStep OBSERVATION "seen" 0.9 None] new).
Proof.
  destruct (explanation_grows Sample.world "t" "a" "q"
              [CallAddStep OBSERVATION "seen" 0.9 None]) as [_ Hclosed].
  - by repeat constructor.
  - destruct (Hclosed "" 0.9) as (_ & _ & Hsame). exact (Hsame eq_refl).
Defined.

Lemma compound_keyword_counts_twice_witness :
  exists score chain self',
    reason_about_regulation_relevance Sample.world Sample.pipeline_rule
      "oil_and_gas" Sample.reasoner
    = (Ok (true, score, chain), self')
    /\ (2 <= length (matched_keywords Sample.pipeline_rule))%nat.
Proof.
  destruct (compound_keyword_counts_twice Sample.world Sample.pipeline_rule
              "oil_and_gas" Sample.reasoner)
    as (score & chain & self' & Hrun & Hlen & _).
  - vm_compute. reflexivity.
  - vm_compute. reflexivity.
  - exists score, chain, self'. split; [exact Hrun|exact Hlen].
Defined.

End Instances.

(** ** The costs taken from similar gaps *)

Section SimilarCosts.

Import Reasoner Reading.

Local Open Scope Q_scope.

(** X23: a similar gap counts in the historical average only with a cost
    that is truthy: an actual cost of 0 (or None, or missing) gives way to
    the estimated cost, and a gap whose two costs are both 0, None or
    missing is left out.  So no cost that enters the average is zero, and
    a gap with a non-zero actual cost always enters with that cost. *)
Theorem zero_costs_left_out (similar_gaps : list dict) :
  Forall (fun v => Py.truthy v = true) (similar_costs_of similar_gaps)
  /\ (length (similar_costs_of similar_gaps) <= length similar_gaps)%nat
  /\ (forall g, g ∈ similar_gaps ->
        (Py.truthy (Py.get g "actual_cost") = true ->
         Py.get g "actual_cost" ∈ similar_costs_of similar_gaps)
        /\ (Py.truthy (Py.get g "actual_cost") = false ->
            Py.truthy (Py.get g "estimated_cost") = true ->
            Py.get g "estimated_cost" ∈ similar_costs_of similar_gaps))
  /\ (Forall (fun g => Py.truthy (Py.get g "actual_cost") = false
                       /\ Py.truthy (Py.get g "estimated_cost") = false)
        similar_gaps ->
      similar_costs_of similar_gaps = []).
Proof.
  unfold similar_costs_of.
  assert (forall g : dict,
            Py.truthy (Py.or_ (Py.get g "actual_cost")
                              (Py.get g "estimated_cost")) = true ->
            Py.or_ (Py.get g "actual_cost")
                   (Py.get_or g "estimated_cost" (VInt 0))
            = Py.or_ (Py.get g "actual_cost") (Py.get g "estimated_cost"))
    as Hsame.
  { intros g. unfold Py.or_, Py.get, Py.get_or.
    destruct (Py.truthy (default VNone (g !! "actual_cost"))); [done|].
    by destruct (g !! "estimated_cost"). }
  split; [|split; [|split]].
  - apply Forall_fmap, List.Forall_forall. intros g [_ Hg]%filter_In.
    cbn. by rewrite Hsame.
  - rewrite length_fmap. apply List.filter_length_le.
  - intros g Hg. split.
    + intros Ha. apply list_elem_of_fmap. exists g. split.
      * unfold Py.or_. by rewrite Ha.
      * apply list_elem_of_In, filter_In. split; [by apply list_elem_of_In|].
        unfold Py.or_. by rewrite Ha.
    + intros Ha He. apply list_elem_of_fmap. exists g.
      assert (Py.truthy (Py.or_ (Py.get g "actual_cost")
                                (Py.get g "estimated_cost")) = true) as Hor.
      { unfold Py.or_. by rewrite Ha. }
      split.
      * rewrite Hsame by done. unfold Py.or_. by rewrite Ha.
      * apply list_elem_of_In, filter_In. split; [by apply list_elem_of_In|done].
  - intros Hnone.
    induction Hnone as [|g l [Ha He] _ IH]; [done|].
    assert (Py.truthy (Py.or_ (Py.get g "actual_cost")
                              (Py.get g "estimated_cost")) = false) as Hf.
    { unfold Py.or_. by rewrite Ha. }
    cbn [List.filter]. by rewrite Hf.
Qed.

End SimilarCosts.
